(** * UnderSight: tenant hierarchy, RBAC checks and the inventory AI pipeline

    A shallow embedding of
      - [backend/app/core/middlewares/tenant.py]
      - [backend/app/core/middlewares/rbac.py]
      - [backend/app/services/inventory.py]
    together with the properties the specification states about them, and
    of the code around them: the rest of these modules,
    [backend/app/api/v1/inventory.py], [backend/app/core/security.py] and
    [backend/app/core/i18n.py].

    Python values are modelled as follows:
      - [str] is [string]; [==] on strings is [String.eqb];
      - the [current_user] dict is a record of optional entries, one per key
        the middlewares read ([None] = key absent);
      - a raised [HTTPException] is the left injection of a sum, a returned
        value the right one;
      - a [dict] literal used as a lookup table is a [gmap];
      - a Python [float] is a binary64 [float] of the kernel;
      - a value decoded from JSON is a [json] tree;
      - an exception raised inside the AI pipeline is the left injection of
        [exc]; what the HTTP client, [json.loads], [float(str)], [int(str)]
        and [str(exception)] do is a parameter of the pipeline. *)

From Stdlib Require Import ZArith String Ascii List Bool Lia.
From Stdlib Require Import Floats.PrimFloat Floats.SpecFloat Floats.FloatOps.
From Stdlib Require DecimalString.
From stdpp Require Import base option strings list gmap.

Import ListNotations.
Local Open Scope string_scope.
Local Open Scope list_scope.
Local Open Scope Z_scope.

(** ** Python helpers shared by the modules *)

(** [x in l] for a string [x] and a list of strings [l]. *)
Definition str_in (x : string) (l : list string) : bool :=
  existsb (String.eqb x) l.

(** ** The authenticated user

    [current_user] is a plain dict in the source.  Its keys are the fields
    of the Principal of the data model, with the value types stated there;
    the middlewares read all of them but [id].  Each entry is optional
    because every read goes through [dict.get]; a dict with further keys is
    outside this model. *)
Record UserDict : Type := mkUserDict {
  u_id : option string;
  u_tenant_id : option string;
  u_tenant_type : option string;
  u_role : option string;
  u_permissions : option (list string);
  u_is_super_admin : option bool
}.

(** The dict with no entry at all, [{}]. *)
Definition empty_dict : UserDict := mkUserDict None None None None None None.

(** [len(d) == 0]. *)
Definition dict_is_empty (u : UserDict) : bool :=
  match u_id u, u_tenant_id u, u_tenant_type u,
        u_role u, u_permissions u, u_is_super_admin u with
  | None, None, None, None, None, None => true
  | _, _, _, _, _, _ => false
  end.

(** Python truth value of [current_user]: [None] and the empty dict are
    falsy, every other dict is truthy. *)
Definition truthy_user (current_user : option UserDict) : bool :=
  match current_user with
  | None => false
  | Some u => negb (dict_is_empty u)
  end.

(** No principal is present: nothing was passed, or a dict without entries. *)
Definition no_principal (current_user : option UserDict) : Prop :=
  current_user = None \/ current_user = Some empty_dict.

(** ** [fastapi.HTTPException]

    The [detail] text of the source is an f-string; it is kept as the tag of
    the message together with the values interpolated into it. *)
Inductive Detail : Type :=
| AuthenticationRequired
| PermissionDenied (permission : string)
| PermissionDeniedOneOf (permissions : list string)
| PermissionDeniedAllOf (permissions : list string)
| TenantLevelRequired (required_level : string).

Record HTTPException : Type := mkHTTPException {
  status_code : Z;
  detail : Detail
}.

Definition HTTP_401_UNAUTHORIZED : Z := 401.
Definition HTTP_403_FORBIDDEN : Z := 403.

(** Outcome of a dependency: the exception raised, or the value returned. *)
Definition checked (A : Type) : Type := (HTTPException + A)%type.

Definition raises {A : Type} (r : checked A) (code : Z) : Prop :=
  exists d, r = inl (mkHTTPException code d).

Definition allows {A : Type} (r : checked A) (a : A) : Prop :=
  r = inr a.

(** ** tenant.py *)
Module Tenant.

(** [TenantHierarchy.can_access] *)
Definition can_access
    (requester_tenant_id requester_type target_tenant_id target_type : string)
    : bool :=
  if String.eqb requester_tenant_id target_tenant_id then true
  else if String.eqb requester_type "root" then true
  else if String.eqb requester_type "provider" then
    str_in target_type ["customer"; "sub_customer"]
  else if String.eqb requester_type "customer" then
    String.eqb target_type "sub_customer"
  else false.

(** The access table as the specification words it. *)
Definition access_rule
    (requester_tenant_id requester_type target_tenant_id target_type : string)
    : Prop :=
  requester_tenant_id = target_tenant_id \/
  requester_type = "root" \/
  (requester_type = "provider" /\
   (target_type = "customer" \/ target_type = "sub_customer")) \/
  (requester_type = "customer" /\ target_type = "sub_customer").

(** The [hierarchy] table local to [tenant_checker]. *)
Definition hierarchy : gmap string Z :=
  <["root" := 4]> (<["provider" := 3]> (<["customer" := 2]>
    (<["sub_customer" := 1]> ∅))).

(** [hierarchy.get(key, 0)], where the key may be [None]. *)
Definition hierarchy_get (key : option string) : Z :=
  match key with
  | Some k => default 0 (hierarchy !! k)
  | None => 0
  end.

(** Truth value of [required_level]: [None] and [""] are falsy. *)
Definition truthy_level (required_level : option string) : bool :=
  match required_level with
  | None => false
  | Some s => negb (String.eqb s "")
  end.

(** The closure [tenant_checker] returned by
    [require_tenant_access(required_level)]. *)
Definition tenant_checker (required_level : option string)
    (current_user : option UserDict) : checked UserDict :=
  match current_user with
  | None => inl (mkHTTPException HTTP_401_UNAUTHORIZED AuthenticationRequired)
  | Some u =>
    if dict_is_empty u then
      inl (mkHTTPException HTTP_401_UNAUTHORIZED AuthenticationRequired)
    else
      let tenant_type := u_tenant_type u in
      if truthy_level required_level then
        let user_level := hierarchy_get tenant_type in
        let required_level_num := hierarchy_get required_level in
        if user_level <? required_level_num then
          inl (mkHTTPException HTTP_403_FORBIDDEN
                 (TenantLevelRequired (default "" required_level)))
        else inr u
      else inr u
  end.

Definition require_tenant_access (required_level : option string)
    : option UserDict -> checked UserDict :=
  tenant_checker required_level.

(** The rank of a tenant type as the specification words it. *)
Definition rank (tenant_type : option string) : Z :=
  match tenant_type with
  | Some t =>
    if String.eqb t "root" then 4
    else if String.eqb t "provider" then 3
    else if String.eqb t "customer" then 2
    else if String.eqb t "sub_customer" then 1
    else 0
  | None => 0
  end.

Definition recognized (t : option string) : Prop :=
  t = Some "root" \/ t = Some "provider" \/
  t = Some "customer" \/ t = Some "sub_customer".

End Tenant.

(** ** rbac.py *)
Module Rbac.

(** The permission catalogue, [class Permissions]. *)
Module Permissions.
Definition ALERTS_READ := "alerts:read".
Definition ALERTS_WRITE := "alerts:write".
Definition ALERTS_DELETE := "alerts:delete".
Definition CASES_READ := "cases:read".
Definition CASES_WRITE := "cases:write".
Definition CASES_DELETE := "cases:delete".
Definition CASES_MANAGE := "cases:manage".
Definition ASSETS_READ := "assets:read".
Definition ASSETS_WRITE := "assets:write".
Definition ASSETS_DELETE := "assets:delete".
Definition SENSORS_READ := "sensors:read".
Definition SENSORS_WRITE := "sensors:write".
Definition SENSORS_DELETE := "sensors:delete".
Definition INVENTORY_READ := "inventory:read".
Definition INVENTORY_WRITE := "inventory:write".
Definition INVENTORY_DELETE := "inventory:delete".
Definition INVENTORY_APPROVE := "inventory:approve".
Definition PLAYBOOKS_READ := "playbooks:read".
Definition PLAYBOOKS_WRITE := "playbooks:write".
Definition PLAYBOOKS_EXECUTE := "playbooks:execute".
Definition USERS_READ := "users:read".
Definition USERS_WRITE := "users:write".
Definition ROLES_READ := "roles:read".
Definition ROLES_WRITE := "roles:write".
Definition SETTINGS_READ := "settings:read".
Definition SETTINGS_WRITE := "settings:write".
Definition INTEGRATIONS_READ := "integrations:read".
Definition INTEGRATIONS_WRITE := "integrations:write".
Definition WEBHOOKS_READ := "webhooks:read".
Definition WEBHOOKS_WRITE := "webhooks:write".
Definition API_KEYS_READ := "api_keys:read".
Definition API_KEYS_WRITE := "api_keys:write".
Definition AUDIT_LOGS_READ := "audit_logs:read".
End Permissions.

Import Permissions.

(** [DEFAULT_ROLE_PERMISSIONS]; the order of a permission list is kept. *)
Definition DEFAULT_ROLE_PERMISSIONS : gmap string (list string) :=
  <["admin" := [
      ALERTS_READ; ALERTS_WRITE; ALERTS_DELETE;
      CASES_READ; CASES_WRITE; CASES_DELETE; CASES_MANAGE;
      ASSETS_READ; ASSETS_WRITE; ASSETS_DELETE;
      SENSORS_READ; SENSORS_WRITE; SENSORS_DELETE;
      INVENTORY_READ; INVENTORY_WRITE; INVENTORY_DELETE; INVENTORY_APPROVE;
      PLAYBOOKS_READ; PLAYBOOKS_WRITE; PLAYBOOKS_EXECUTE;
      USERS_READ; USERS_WRITE;
      ROLES_READ; ROLES_WRITE;
      SETTINGS_READ; SETTINGS_WRITE;
      INTEGRATIONS_READ; INTEGRATIONS_WRITE;
      WEBHOOKS_READ; WEBHOOKS_WRITE;
      API_KEYS_READ; API_KEYS_WRITE;
      AUDIT_LOGS_READ ]]>
  (<["analyst" := [
      ALERTS_READ; ALERTS_WRITE;
      CASES_READ; CASES_WRITE;
      ASSETS_READ;
      SENSORS_READ;
      INVENTORY_READ; INVENTORY_WRITE; INVENTORY_APPROVE;
      PLAYBOOKS_READ; PLAYBOOKS_EXECUTE;
      USERS_READ ]]>
  (<["viewer" := [
      ALERTS_READ;
      CASES_READ;
      ASSETS_READ;
      SENSORS_READ;
      INVENTORY_READ;
      PLAYBOOKS_READ ]]> ∅)).

(** [current_user.get("permissions", [])] *)
Definition get_permissions (u : UserDict) : list string :=
  default [] (u_permissions u).

(** [current_user.get("role") == "admin"] *)
Definition role_is_admin (u : UserDict) : bool :=
  match u_role u with
  | Some r => String.eqb r "admin"
  | None => false
  end.

Definition unauthenticated {A : Type} : checked A :=
  inl (mkHTTPException HTTP_401_UNAUTHORIZED AuthenticationRequired).

(** The names the module [rbac.py] binds: what it imports from [typing],
    [fastapi] and [sqlalchemy.orm], and what it defines. *)
Definition module_names : list string :=
  [ "Callable"; "List"; "Optional"; "Request"; "HTTPException"; "status";
    "Session"; "Permissions"; "DEFAULT_ROLE_PERMISSIONS"; "RBACMiddleware";
    "require_permission"; "require_any_permission";
    "require_all_permissions"; "ResourceAccessControl";
    "AccessAuditLogger" ].

Inductive NameError : Type := mkNameError (name : string).

(** Reading a global name that is no builtin. *)
Definition global (name : string) : NameError + unit :=
  if str_in name module_names then inr tt else inl (mkNameError name).

(** The default value [Depends(get_db)] of the parameter [db] of each
    [permission_checker]: it is evaluated when the [def] statement runs,
    that is when the factory is called, the callee first. *)
Definition db_default : NameError + unit :=
  match global "Depends" with
  | inl e => inl e
  | inr _ => global "get_db"
  end.

(** The body of the closure [permission_checker] of
    [require_permission(permission)].  Its [db] argument is never read. *)
Definition permission_checker (permission : string)
    (current_user : option UserDict) : checked UserDict :=
  match current_user with
  | None => unauthenticated
  | Some u =>
    if dict_is_empty u then unauthenticated
    else
      let user_permissions := get_permissions u in
      if role_is_admin u then inr u
      else if negb (str_in permission user_permissions) then
        inl (mkHTTPException HTTP_403_FORBIDDEN (PermissionDenied permission))
      else inr u
  end.

(** The body of the closure [permission_checker] of
    [require_any_permission( *permissions)]. *)
Definition any_permission_checker (permissions : list string)
    (current_user : option UserDict) : checked UserDict :=
  match current_user with
  | None => unauthenticated
  | Some u =>
    if dict_is_empty u then unauthenticated
    else
      let user_permissions := get_permissions u in
      if role_is_admin u then inr u
      else if negb (existsb (fun p => str_in p user_permissions) permissions) then
        inl (mkHTTPException HTTP_403_FORBIDDEN
               (PermissionDeniedOneOf permissions))
      else inr u
  end.

(** The body of the closure [permission_checker] of
    [require_all_permissions( *permissions)]. *)
Definition all_permissions_checker (permissions : list string)
    (current_user : option UserDict) : checked UserDict :=
  match current_user with
  | None => unauthenticated
  | Some u =>
    if dict_is_empty u then unauthenticated
    else
      let user_permissions := get_permissions u in
      if role_is_admin u then inr u
      else if negb (forallb (fun p => str_in p user_permissions) permissions) then
        inl (mkHTTPException HTTP_403_FORBIDDEN
               (PermissionDeniedAllOf permissions))
      else inr u
  end.

(** [require_permission]: the [def] statement of the closure, then
    [return permission_checker]. *)
Definition require_permission (permission : string)
    : NameError + (option UserDict -> checked UserDict) :=
  match db_default with
  | inl e => inl e
  | inr _ => inr (permission_checker permission)
  end.

(** [require_any_permission] *)
Definition require_any_permission (permissions : list string)
    : NameError + (option UserDict -> checked UserDict) :=
  match db_default with
  | inl e => inl e
  | inr _ => inr (any_permission_checker permissions)
  end.

(** [require_all_permissions] *)
Definition require_all_permissions (permissions : list string)
    : NameError + (option UserDict -> checked UserDict) :=
  match db_default with
  | inl e => inl e
  | inr _ => inr (all_permissions_checker permissions)
  end.

(** [str(user.get("tenant_id"))]: an absent entry reads as [None], whose
    string form is ["None"]. *)
Definition str_of_tenant_id (tenant_id : option string) : string :=
  match tenant_id with
  | Some s => s
  | None => "None"
  end.

(** Truth value of [user.get("is_super_admin")]. *)
Definition truthy_flag (flag : option bool) : bool :=
  match flag with
  | Some b => b
  | None => false
  end.

(** [ResourceAccessControl.can_access_resource] *)
Definition can_access_resource (user : UserDict)
    (resource_tenant_id : string) (permission : string) : bool :=
  if truthy_flag (u_is_super_admin user) then true
  else if negb (String.eqb (str_of_tenant_id (u_tenant_id user))
                           resource_tenant_id) then false
  else
    let user_permissions := get_permissions user in
    if role_is_admin user then true
    else str_in permission user_permissions.

End Rbac.

(** ** Python strings

    Strings are sequences of bytes here and of code points in Python; the
    searches below only look for ASCII text, for which both views select the
    same substrings. *)

(** [s.startswith(sub)] *)
Fixpoint starts_with (sub s : string) : bool :=
  match sub with
  | EmptyString => true
  | String a sub' =>
    match s with
    | EmptyString => false
    | String b s' => Ascii.eqb a b && starts_with sub' s'
    end
  end.

(** [s.find(sub)]: index of the first occurrence, [-1] when there is none. *)
Fixpoint find_from (sub s : string) (i : Z) : Z :=
  if starts_with sub s then i
  else match s with
       | EmptyString => -1
       | String _ s' => find_from sub s' (i + 1)
       end.

Definition py_find (s sub : string) : Z := find_from sub s 0.

(** [s.rfind(sub)]: index of the last occurrence, [-1] when there is none. *)
Fixpoint rfind_from (sub s : string) (i : Z) : Z :=
  match s with
  | EmptyString => if starts_with sub EmptyString then i else -1
  | String _ s' =>
    let r := rfind_from sub s' (i + 1) in
    if 0 <=? r then r
    else if starts_with sub s then i else -1
  end.

Definition py_rfind (s sub : string) : Z := rfind_from sub s 0.

(** A slice bound brought into [0 .. len], as [s[a:b]] does. *)
Definition clamp_index (len i : Z) : Z :=
  let i := if i <? 0 then i + len else i in
  if i <? 0 then 0 else if len <? i then len else i.

(** [s[start:stop]] *)
Definition py_slice (s : string) (start stop : Z) : string :=
  let len := Z.of_nat (String.length s) in
  let a := clamp_index len start in
  let b := clamp_index len stop in
  if b <=? a then EmptyString
  else String.substring (Z.to_nat a) (Z.to_nat (b - a)) s.

(** [s.replace(old, new)] for a non-empty [old]: occurrences are replaced
    from left to right and do not overlap.  [skip] counts the characters of
    the occurrence just replaced that are still to be dropped. *)
Fixpoint replace_from (skip : nat) (old new s : string) : string :=
  match s with
  | EmptyString => EmptyString
  | String c s' =>
    match skip with
    | S k => replace_from k old new s'
    | O =>
      if starts_with old s then
        new +:+ replace_from (Nat.pred (String.length old)) old new s'
      else String c (replace_from O old new s')
    end
  end.

Definition py_replace (s old new : string) : string :=
  replace_from O old new s.

(** [sep.join(l)] *)
Definition py_join (sep : string) (l : list string) : string :=
  String.concat sep l.

(** [x or default] for an optional string: [None] and [""] are falsy. *)
Definition str_or (x : option string) (default : string) : string :=
  match x with
  | Some EmptyString => default
  | Some s => s
  | None => default
  end.

(** [x or y] for two optional strings. *)
Definition opt_or (x y : option string) : option string :=
  match x with
  | Some EmptyString => y
  | Some s => Some s
  | None => y
  end.

(** [str.lower] on ASCII text: the letters A to Z are folded and every
    other byte is kept.  It stands for [str.lower] only where the text is
    known to be ASCII. *)
Definition lower_ascii (c : ascii) : ascii :=
  let n := nat_of_ascii c in
  if (Nat.leb 65 n && Nat.leb n 90)%bool then ascii_of_nat (n + 32) else c.

Fixpoint py_lower (s : string) : string :=
  match s with
  | EmptyString => EmptyString
  | String c s' => String (lower_ascii c) (py_lower s')
  end.

(** [c in s] for a character [c]. *)
Fixpoint has_char (c : ascii) (s : string) : bool :=
  match s with
  | EmptyString => false
  | String a s' => Ascii.eqb a c || has_char c s'
  end.

(** Whether a replacement pass for [old] can be run separately on the two
    sides of the point before [right]: [right] starts with a character that
    [old] does not hold after its first one. *)
Definition splits_before (old right : string) : bool :=
  match old, right with
  | String _ old', String r _ => negb (has_char r old')
  | _, _ => false
  end.

(** ** JSON values and Python exceptions *)

Local Unset Elimination Schemes.

Inductive json : Type :=
| JNull
| JBool (b : bool)
| JInt (z : Z)
| JFloat (f : float)
| JStr (s : string)
| JArr (l : list json)
| JObj (kv : list (string * json)).

Local Set Elimination Schemes.

(** The exceptions the pipeline can meet, each with the value it was raised
    about. *)
Inductive exn : Type :=
| TransportError (reason : string)
| HTTPStatusError (status : Z)
| JSONDecodeError (doc : string)
| AttributeError (obj : json) (attr : string)
| KeyError (key : json)
| IndexError (obj : json)
| TypeError (obj : json)
| ValueError (arg : json)
| OverflowError (arg : json)
| ValidationError (errors : list (string * json)).

Definition exc (A : Type) : Type := (exn + A)%type.

Definition ret {A : Type} (a : A) : exc A := inr a.
Definition raise {A : Type} (e : exn) : exc A := inl e.

Definition bind {A B : Type} (m : exc A) (k : A -> exc B) : exc B :=
  match m with
  | inl e => inl e
  | inr a => k a
  end.

Notation "'do' x <- m ; k" := (bind m (fun x => k))
  (at level 10, x name, m at level 100, k at level 200).

(** First binding of a key in a decoded JSON object. *)
Fixpoint assoc (k : string) (kv : list (string * json)) : option json :=
  match kv with
  | [] => None
  | (k', v) :: kv' => if String.eqb k k' then Some v else assoc k kv'
  end.

(** [d.get(key, default)] for a decoded JSON object [d]. *)
Definition dict_get (kv : list (string * json)) (key : string)
    (default : json) : json :=
  match assoc key kv with
  | Some v => v
  | None => default
  end.

(** [obj.get(key, default)] on an arbitrary decoded value. *)
Definition py_get (obj : json) (key : string) (default : json) : exc json :=
  match obj with
  | JObj kv => ret (dict_get kv key default)
  | _ => raise (AttributeError obj "get")
  end.

(** [obj[key]] with a string key. *)
Definition getitem_key (obj : json) (key : string) : exc json :=
  match obj with
  | JObj kv =>
    match assoc key kv with
    | Some v => ret v
    | None => raise (KeyError (JStr key))
    end
  | _ => raise (TypeError obj)
  end.

(** [obj[0]] *)
Definition getitem_0 (obj : json) : exc json :=
  match obj with
  | JArr (x :: _) => ret x
  | JArr [] => raise (IndexError obj)
  | JStr (String c _) => ret (JStr (String c EmptyString))
  | JStr EmptyString => raise (IndexError obj)
  | JObj _ => raise (KeyError (JInt 0))
  | _ => raise (TypeError obj)
  end.

(** [float(n)] for a Python integer: nearest binary64, [OverflowError] when
    that is out of range. *)
Definition float_of_Z (z : Z) : exc float :=
  let f := SF2Prim (binary_normalize prec emax z 0 false) in
  if PrimFloat.is_infinity f then raise (OverflowError (JInt z)) else ret f.

(** [int(x)] for a Python float: truncation towards zero. *)
Definition Z_of_float (f : float) : exc Z :=
  match Prim2SF f with
  | S754_zero _ => ret 0
  | S754_infinity _ => raise (OverflowError (JFloat f))
  | S754_nan => raise (ValueError (JFloat f))
  | S754_finite s m e =>
    let a := if 0 <=? e then Z.pos m * 2 ^ e else Z.pos m / 2 ^ (- e) in
    ret (if s then - a else a)
  end.

(** ** inventory.py *)
Module Inventory.

Inductive Decision : Type := APPROVE | REJECT | PENDING | FLAG.

(** The value of a member of the enumeration. *)
Definition Decision_value (d : Decision) : string :=
  match d with
  | APPROVE => "approved"
  | REJECT => "rejected"
  | PENDING => "pending"
  | FLAG => "flag"
  end.

(** [Decision(value)]: lookup of a member by value. *)
Definition Decision_of (value : json) : exc Decision :=
  match value with
  | JStr s =>
    if String.eqb s "approved" then ret APPROVE
    else if String.eqb s "rejected" then ret REJECT
    else if String.eqb s "pending" then ret PENDING
    else if String.eqb s "flag" then ret FLAG
    else raise (ValueError value)
  | _ => raise (ValueError value)
  end.

Module EquipmentData.
Record t : Type := mk {
  external_id : option string;
  hostname : option string;
  ip_address : option string;
  mac_address : option string;
  os : option string;
  os_version : option string;
  asset_type : option string;
  manufacturer : option string;
  model : option string;
  serial_number : option string;
  location : option string;
  department : option string;
  owner : option string;
  tags : list string;
  metadata : list (string * json);
  source : string
}.
End EquipmentData.

Module AIConfig.
Record t : Type := mk {
  provider : string;
  api_url : option string;
  api_key : option string;
  model : string;
  temperature : float;
  max_tokens : Z;
  prompt_template : string;
  timeout_seconds : Z
}.
End AIConfig.

Module AIOutput.
Record t : Type := mk {
  decision : Decision;
  comments : string;
  confidence : float;
  suggested_tags : list string;
  suggested_risk_score : Z;
  suggested_asset_type : option string
}.
End AIOutput.

(** The double-quote character, code 34. *)
Definition dquote : string := String (ascii_of_nat 34) EmptyString.

(** [DEFAULT_PROMPT], cut at each double quote. *)
Definition DEFAULT_PROMPT : string :=
  String.concat dquote [
"You are a cybersecurity expert analyzing equipment for inclusion in an inventory system.

Analyze the following equipment data and decide if it should be added to the inventory:

## Equipment Data:
- Hostname: {hostname}
- IP Address: {ip_address}
- MAC Address: {mac_address}
- Operating System: {os} {os_version}
- Asset Type: {asset_type}
- Manufacturer: {manufacturer}
- Model: {model}
- Serial Number: {serial_number}
- Location: {location}
- Department: {department}
- Owner: {owner}
- Tags: {tags}
- Source: {source}

## Decision Criteria:
1. Is this a legitimate enterprise asset?
2. Does it have proper identification (hostname, IP)?
3. Is the OS recognized and supported?
4. Are there any security concerns?

## Output Format (JSON only):
{{{{
    ";
"decision";
": ";
"approved";
" | ";
"rejected";
" | ";
"pending";
" | ";
"flag";
",
    ";
"comments";
": ";
"Brief explanation of decision";
",
    ";
"confidence";
": 0.0-1.0,
    ";
"suggested_tags";
": [";
"tag1";
", ";
"tag2";
"],
    ";
"suggested_risk_score";
": 0-100,
    ";
"suggested_asset_type";
": ";
"server";
" | ";
"workstation";
" | ";
"network";
" | ";
"cloud";
" | ";
"iot";
" | ";
"other";
"
}}}}

Respond with ONLY valid JSON, no other text."
  ].

(** *** [class AIService] *)
Module AIService.

Record t : Type := mk {
  config : AIConfig.t;
  provider : string
}.

(** [AIService.__init__]; [str_lower] is [str.lower], taken as a parameter
    since its table of case mappings is not modelled. *)
Definition init (str_lower : string -> string) (config : AIConfig.t) : t :=
  mk config (str_lower (AIConfig.provider config)).

(** [AIService.PROVIDERS] *)
Definition PROVIDERS : gmap string (gmap string string) :=
  <["openai" :=
      <["api_url" := "https://api.openai.com/v1/chat/completions"]>
      (<["model_param" := "model"]> ∅)]>
  (<["anthropic" :=
      <["api_url" := "https://api.anthropic.com/v1/complete"]>
      (<["model_param" := "model"]> ∅)]>
  (<["ollama" :=
      <["api_url" := "http://localhost:11434/api/generate"]>
      (<["model_param" := "model"]> ∅)]>
  (<["groq" :=
      <["api_url" := "https://api.groq.com/openai/v1/chat/completions"]>
      (<["model_param" := "model"]> ∅)]>
  (<["deepseek" :=
      <["api_url" := "https://api.deepseek.com/chat/completions"]>
      (<["model_param" := "model"]> ∅)]> ∅)))).

(** [self.PROVIDERS.get(self.provider, {}).get("api_url", "")] *)
Definition api_url_of (provider : string) : string :=
  default EmptyString (default ∅ (PROVIDERS !! provider) !! "api_url").

(** [f"Bearer {api_key}"]; an unset key is formatted as [None]. *)
Definition bearer (api_key : option string) : string :=
  "Bearer " +:+ default "None" api_key.

(** [AIService._get_headers]; a header value may be [None] when no key is
    configured. *)
Definition _get_headers (self : t) : list (string * option string) :=
  let headers := [("Content-Type", Some "application/json")] in
  if String.eqb (provider self) "openai" then
    headers ++ [("Authorization", Some (bearer (AIConfig.api_key (config self))))]
  else if String.eqb (provider self) "anthropic" then
    headers ++ [("x-api-key", AIConfig.api_key (config self));
                ("anthropic-version", Some "2023-06-01")]
  else if String.eqb (provider self) "deepseek" then
    headers ++ [("Authorization", Some (bearer (AIConfig.api_key (config self))))]
  else headers.

(** The [replacements] table of [_build_prompt], in insertion order. *)
Definition replacements (data : EquipmentData.t) : list (string * string) :=
  [ ("{hostname}", str_or (EquipmentData.hostname data) "Unknown");
    ("{ip_address}", str_or (EquipmentData.ip_address data) "Unknown");
    ("{mac_address}", str_or (EquipmentData.mac_address data) "Unknown");
    ("{os}", str_or (EquipmentData.os data) "Unknown");
    ("{os_version}", str_or (EquipmentData.os_version data) "Unknown");
    ("{asset_type}", str_or (EquipmentData.asset_type data) "Unknown");
    ("{manufacturer}", str_or (EquipmentData.manufacturer data) "Unknown");
    ("{model}", str_or (EquipmentData.model data) "Unknown");
    ("{serial_number}", str_or (EquipmentData.serial_number data) "Unknown");
    ("{location}", str_or (EquipmentData.location data) "Unknown");
    ("{department}", str_or (EquipmentData.department data) "Unknown");
    ("{owner}", str_or (EquipmentData.owner data) "Unknown");
    ("{tags}", match EquipmentData.tags data with
               | [] => "None"
               | _ :: _ => py_join ", " (EquipmentData.tags data)
               end);
    ("{source}", EquipmentData.source data) ].

(** The optional fields that have a placeholder, by name. *)
Definition optional_fields
    : list (string * (EquipmentData.t -> option string)) :=
  [ ("hostname", EquipmentData.hostname);
    ("ip_address", EquipmentData.ip_address);
    ("mac_address", EquipmentData.mac_address);
    ("os", EquipmentData.os);
    ("os_version", EquipmentData.os_version);
    ("asset_type", EquipmentData.asset_type);
    ("manufacturer", EquipmentData.manufacturer);
    ("model", EquipmentData.model);
    ("serial_number", EquipmentData.serial_number);
    ("location", EquipmentData.location);
    ("department", EquipmentData.department);
    ("owner", EquipmentData.owner) ].

(** The placeholder of a field in a template. *)
Definition placeholder (name : string) : string := "{" +:+ name +:+ "}".

(** The loop [for old, new in replacements.items(): prompt = prompt.replace(old, new)]. *)
Definition replace_all (table : list (string * string)) (prompt : string)
    : string :=
  fold_left (fun prompt '(old, new) => py_replace prompt old new) table prompt.

(** [self.config.prompt_template or DEFAULT_PROMPT] *)
Definition template_of (self : t) : string :=
  match AIConfig.prompt_template (config self) with
  | EmptyString => DEFAULT_PROMPT
  | tpl => tpl
  end.

(** [AIService._build_prompt] *)
Definition _build_prompt (self : t) (data : EquipmentData.t) : string :=
  let prompt := template_of self in
  replace_all (replacements data) prompt.

(** The request body [payload] of [process_item]. *)
Definition payload_of (self : t) (prompt : string) : json :=
  let cfg := config self in
  if String.eqb (provider self) "ollama" then
    JObj [ ("model", JStr (AIConfig.model cfg));
           ("prompt", JStr prompt);
           ("stream", JBool false);
           ("options", JObj [ ("temperature", JFloat (AIConfig.temperature cfg));
                              ("num_predict", JInt (AIConfig.max_tokens cfg)) ]) ]
  else if str_in (provider self) ["openai"; "groq"; "deepseek"] then
    JObj [ ("model", JStr (AIConfig.model cfg));
           ("messages", JArr [ JObj [ ("role", JStr "user");
                                      ("content", JStr prompt) ] ]);
           ("temperature", JFloat (AIConfig.temperature cfg));
           ("max_tokens", JInt (AIConfig.max_tokens cfg)) ]
  else if String.eqb (provider self) "anthropic" then
    JObj [ ("model", JStr (AIConfig.model cfg));
           ("prompt", JStr (String (ascii_of_nat 10) (String (ascii_of_nat 10)
                        ("Human: " +:+ prompt +:+
                         String (ascii_of_nat 10) (String (ascii_of_nat 10)
                           "Assistant:")))));
           ("temperature", JFloat (AIConfig.temperature cfg));
           ("max_tokens_to_sample", JInt (AIConfig.max_tokens cfg)) ]
  else
    JObj [ ("model", JStr (AIConfig.model cfg));
           ("messages", JArr [ JObj [ ("role", JStr "user");
                                      ("content", JStr prompt) ] ]);
           ("temperature", JFloat (AIConfig.temperature cfg)) ].

(** What [httpx] hands back for a request that was answered. *)
Record Response : Type := mkResponse {
  status : Z;
  text : string
}.

(** [response.raise_for_status()] *)
Definition raise_for_status (response : Response) : exc unit :=
  if (200 <=? status response) && (status response <=? 299) then ret tt
  else raise (HTTPStatusError (status response)).

(** The [# Parse response] step: the text of the answer inside the decoded
    body [result], by provider. *)
Definition content_of (self : t) (result : json) : exc json :=
  if String.eqb (provider self) "ollama" then
    py_get result "response" (JStr EmptyString)
  else
    do choices <- getitem_key result "choices";
    do choice <- getitem_0 choices;
    do message <- getitem_key choice "message";
    getitem_key message "content".

(** The receiver of [content.find] and [content.rfind] must be a string. *)
Definition as_str (content : json) (attr : string) : exc string :=
  match content with
  | JStr s => ret s
  | _ => raise (AttributeError content attr)
  end.

(** The text between the first [{] and the last [}] of [content]:
    [content[content.find("{") : content.rfind("}") + 1]]. *)
Definition extract_json (content : string) : string :=
  let json_start := py_find content "{" in
  let json_end := py_rfind content "}" + 1 in
  py_slice content json_start json_end.

(** Validation of the fields of [AIOutput] that are passed as decoded. *)
Definition validate_str (v : json) : option string :=
  match v with
  | JStr s => Some s
  | _ => None
  end.

Fixpoint validate_str_list (l : list json) : option (list string) :=
  match l with
  | [] => Some []
  | JStr s :: l' =>
    match validate_str_list l' with
    | Some r => Some (s :: r)
    | None => None
    end
  | _ :: _ => None
  end.

Definition validate_tags (v : json) : option (list string) :=
  match v with
  | JArr l => validate_str_list l
  | _ => None
  end.

Definition validate_opt_str (v : json) : option (option string) :=
  match v with
  | JNull => Some None
  | JStr s => Some (Some s)
  | _ => None
  end.

Definition error_if_none {A : Type} (field : string) (input : json)
    (o : option A) : list (string * json) :=
  match o with
  | Some _ => []
  | None => [(field, input)]
  end.

(** The constructor [AIOutput(...)] as called on the success path: the
    converted fields are of the declared type already, the other three are
    validated and the failures reported together. *)
Definition AIOutput_new (decision : Decision) (comments : json)
    (confidence : float) (suggested_tags : json) (suggested_risk_score : Z)
    (suggested_asset_type : json) : exc AIOutput.t :=
  match validate_str comments, validate_tags suggested_tags,
        validate_opt_str suggested_asset_type with
  | Some c, Some tg, Some a =>
    ret (AIOutput.mk decision c confidence tg suggested_risk_score a)
  | vc, vt, va =>
    raise (ValidationError
             (error_if_none "comments" comments vc ++
              error_if_none "suggested_tags" suggested_tags vt ++
              error_if_none "suggested_asset_type" suggested_asset_type va))
  end.

Section Pipeline.

(** The surroundings of the pipeline: the HTTP client, the JSON decoder, the
    conversions of a string to a number, and the text of an exception. *)
Variable post :
  string -> json -> list (string * option string) -> Z -> exc Response.
Variable json_loads : string -> option json.
Variable float_of_str : string -> option float.
Variable int_of_str : string -> option Z.
Variable str_of_exn : exn -> string.

(** [json.loads(doc)] *)
Definition loads (doc : string) : exc json :=
  match json_loads doc with
  | Some v => ret v
  | None => raise (JSONDecodeError doc)
  end.

(** [float(v)] *)
Definition py_float (v : json) : exc float :=
  match v with
  | JFloat f => ret f
  | JInt z => float_of_Z z
  | JBool b => ret (if b then 1%float else 0%float)
  | JStr s =>
    match float_of_str s with
    | Some f => ret f
    | None => raise (ValueError v)
    end
  | _ => raise (TypeError v)
  end.

(** [int(v)] *)
Definition py_int (v : json) : exc Z :=
  match v with
  | JInt z => ret z
  | JBool b => ret (if b then 1 else 0)
  | JFloat f => Z_of_float f
  | JStr s =>
    match int_of_str s with
    | Some z => ret z
    | None => raise (ValueError v)
    end
  | _ => raise (TypeError v)
  end.

(** The [return AIOutput(...)] statement on the decoded object [parsed]. *)
Definition output_of_parsed (parsed : json) : exc AIOutput.t :=
  do d <- py_get parsed "decision" (JStr "pending");
  do decision <- Decision_of d;
  do comments <- py_get parsed "comments" (JStr EmptyString);
  do c <- py_get parsed "confidence" (JFloat 0.5%float);
  do confidence <- py_float c;
  do suggested_tags <- py_get parsed "suggested_tags" (JArr []);
  do r <- py_get parsed "suggested_risk_score" (JInt 0);
  do suggested_risk_score <- py_int r;
  do suggested_asset_type <- py_get parsed "suggested_asset_type" JNull;
  AIOutput_new decision comments confidence suggested_tags
    suggested_risk_score suggested_asset_type.

(** From the text the backend returned to the result: the statements after
    [# Extract JSON from response]. *)
Definition parse_content (content : json) : exc AIOutput.t :=
  do content <- as_str content "find";
  let json_content := extract_json content in
  do parsed <- loads json_content;
  output_of_parsed parsed.

(** The body of the [try] block of [process_item]. *)
Definition process_item_try (self : t) (data : EquipmentData.t)
    : exc AIOutput.t :=
  let prompt := _build_prompt self data in
  let payload := payload_of self prompt in
  do response <- post (api_url_of (provider self)) payload (_get_headers self)
                      (AIConfig.timeout_seconds (config self));
  do _ <- raise_for_status response;
  do result <- loads (text response);
  do content <- content_of self result;
  parse_content content.

(** The [except Exception as e] handler. *)
Definition failed (e : exn) : AIOutput.t :=
  AIOutput.mk PENDING ("AI processing failed: " +:+ str_of_exn e)
    0%float [] 0 None.

(** [AIService.process_item] *)
Definition process_item (self : t) (data : EquipmentData.t) : AIOutput.t :=
  match process_item_try self data with
  | inr output => output
  | inl e => failed e
  end.

End Pipeline.

End AIService.

(** *** [class InventoryService] *)
Module InventoryService.

(** The [item] dict built by [process_item].  Its two time stamps
    ([processed_at], [last_seen]) are readings of the clock and are left
    out, as is [processing_time_ms] of the returned dict. *)
Module Item.
Record t : Type := mk {
  tenant_id : string;
  source : string;
  external_id : option string;
  hostname : option string;
  ip_address : option string;
  mac_address : option string;
  os : option string;
  os_version : option string;
  asset_type : option string;
  manufacturer : option string;
  model : option string;
  serial_number : option string;
  location : option string;
  department : option string;
  owner : option string;
  tags : list string;
  risk_score : Z;
  status : string;
  inventory_decision : string;
  inventory_comments : string;
  metadata : list (string * json);
  raw_data : EquipmentData.t;
  processed_by : string
}.
End Item.

(** The dict returned by [process_item]. *)
Module Processed.
Record t : Type := mk {
  status : string;
  item : Item.t;
  ai_decision : string;
  comments : string
}.
End Processed.

(** The service object.  [db] stands for the records reachable through the
    database session, keyed by item id. *)
Record t : Type := mk {
  db : gmap string Item.t;
  tenant_id : string;
  ai_service : option AIService.t
}.

(** [InventoryService.__init__] *)
Definition init (str_lower : string -> string)
    (db_session : gmap string Item.t) (tenant_id : string)
    (ai_config : option AIConfig.t) : t :=
  mk db_session tenant_id
     (match ai_config with
      | Some c => Some (AIService.init str_lower c)
      | None => None
      end).

(** [list(set(tags))]: the distinct tags, in the order the set yields them. *)
Definition list_of_set (tags : list string) : list string :=
  elements (list_to_set tags : gset string).

(** The [if]/[elif] chain that maps the AI decision to a status. *)
Definition status_of_decision (d : Decision) : string :=
  match d with
  | APPROVE => "approved"
  | REJECT => "rejected"
  | FLAG => "pending"
  | PENDING => "pending"
  end.

(** The status map as the specification words it, from the value of the
    decision to the status. *)
Definition decision_status_map : gmap string string :=
  <["approved" := "approved"]> (<["rejected" := "rejected"]>
    (<["pending" := "pending"]> (<["flag" := "pending"]> ∅))).

Section Service.

Variable post :
  string -> json -> list (string * option string) -> Z ->
  exc AIService.Response.
Variable json_loads : string -> option json.
Variable float_of_str : string -> option float.
Variable int_of_str : string -> option Z.
Variable str_of_exn : exn -> string.

(** [InventoryService.process_item] *)
Definition process_item (self : t) (equipment : EquipmentData.t)
    : Processed.t :=
  let '(status, comments, risk_score, tags, asset_type) :=
    match ai_service self with
    | Some svc =>
      let ai_result :=
        AIService.process_item post json_loads float_of_str int_of_str
          str_of_exn svc equipment in
      (status_of_decision (AIOutput.decision ai_result),
       AIOutput.comments ai_result,
       AIOutput.suggested_risk_score ai_result,
       EquipmentData.tags equipment ++ AIOutput.suggested_tags ai_result,
       opt_or (AIOutput.suggested_asset_type ai_result)
              (EquipmentData.asset_type equipment))
    | None =>
      ("approved",
       "Auto-approved: No AI configuration",
       0,
       EquipmentData.tags equipment,
       EquipmentData.asset_type equipment)
    end in
  let item :=
    Item.mk (tenant_id self)
      (EquipmentData.source equipment)
      (EquipmentData.external_id equipment)
      (EquipmentData.hostname equipment)
      (EquipmentData.ip_address equipment)
      (EquipmentData.mac_address equipment)
      (EquipmentData.os equipment)
      (EquipmentData.os_version equipment)
      asset_type
      (EquipmentData.manufacturer equipment)
      (EquipmentData.model equipment)
      (EquipmentData.serial_number equipment)
      (EquipmentData.location equipment)
      (EquipmentData.department equipment)
      (EquipmentData.owner equipment)
      (list_of_set tags)
      risk_score
      status
      comments
      comments
      (EquipmentData.metadata equipment)
      equipment
      (match ai_service self with Some _ => "ai" | None => "rule" end) in
  Processed.mk "success" item status comments.

End Service.

(** [InventoryService.update_item]: the update is not written anywhere (the
    body is a TODO); the service is returned as it was, with the reply. *)
Definition update_item (self : t) (item_id : string)
    (updates : list (string * string)) : t * list (string * string) :=
  (self, [("status", "success")]).

(** [InventoryService.approve_item] *)
Definition approve_item (self : t) (item_id : string) (comments : string)
    : t * list (string * string) :=
  update_item self item_id
    [ ("status", "approved");
      ("inventory_comments", comments);
      ("processed_by", "manual") ].

(** [InventoryService.reject_item] *)
Definition reject_item (self : t) (item_id : string) (comments : string)
    : t * list (string * string) :=
  update_item self item_id
    [ ("status", "rejected");
      ("inventory_comments", comments);
      ("processed_by", "manual") ].

End InventoryService.

End Inventory.

(** * Further code: the rest of the three modules and their callers *)

(** ** tenant.py: the context, the query builder, the reachable tenants *)
Module TenantMore.

(** [x == s] for an optional value [x] and a string [s]. *)
Definition opt_is (x : option string) (s : string) : bool :=
  match x with
  | Some v => String.eqb v s
  | None => false
  end.

(** [TenantContext._context]: a dict whose values may be [None]. *)
Module TenantContext.

Abbreviation context := (gmap string (option string)).

(** [TenantContext.set]: a fresh dict replaces the context. *)
Definition set (tenant_id : string) (tenant_type : option string)
    (_context : context) : context :=
  <["tenant_id" := Some tenant_id]> (<["tenant_type" := tenant_type]> ∅).

(** [cls._context.get(key)]: [None] for a missing key as for a [None] value. *)
Definition context_get (_context : context) (key : string) : option string :=
  match _context !! key with
  | Some v => v
  | None => None
  end.

(** [TenantContext.get] *)
Definition get (_context : context) : option string :=
  context_get _context "tenant_id".

(** [TenantContext.get_type] *)
Definition get_type (_context : context) : option string :=
  context_get _context "tenant_type".

(** [TenantContext.clear] *)
Definition clear (_context : context) : context := ∅.

(** [TenantContext.is_super_admin] *)
Definition is_super_admin (_context : context) : bool :=
  opt_is (context_get _context "tenant_type") "root".

End TenantContext.

(** [TenantHierarchy.get_accessible_tenant_ids] *)
Definition get_accessible_tenant_ids (tenant_id tenant_type : string)
    : list string :=
  if String.eqb tenant_type "root" then []
  else if String.eqb tenant_type "provider" then []
  else if String.eqb tenant_type "customer" then []
  else [tenant_id].

(** [TenantQueryBuilder] and [ResourceAccessControl.filter_by_tenant] over an
    abstract query: [filter_tenant q m v] is
    [q.filter(m.tenant_id == v)], and [filter_field q f v] is
    [q.filter(getattr(q.column_descriptions[0]['entity'], f) == v)]. *)
Section Queries.

Variables Query Model : Type.
Variable filter_tenant : Query -> Model -> option string -> Query.
Variable filter_field : Query -> string -> option string -> Query.

(** [TenantQueryBuilder.filter_by_tenant]; the branch for [parent_access]
    is a [pass]. *)
Definition filter_by_tenant (query : Query) (model : Model) (user : UserDict)
    (parent_access : bool) : Query :=
  let tenant_id := u_tenant_id user in
  let tenant_type := u_tenant_type user in
  if opt_is tenant_type "root" then query
  else
    let _ :=
      if parent_access &&
         match tenant_type with
         | Some ty => str_in ty ["root"; "provider"]
         | None => false
         end
      then tt else tt in
    filter_tenant query model tenant_id.

(** [TenantQueryBuilder.with_tenant] *)
Definition with_tenant (query : Query) (model : Model)
    (tenant_id : option string) : Query :=
  filter_tenant query model tenant_id.

(** [ResourceAccessControl.filter_by_tenant] *)
Definition resource_filter_by_tenant (user : UserDict) (query : Query)
    (resource_field : string) : Query :=
  if Rbac.truthy_flag (u_is_super_admin user) then query
  else filter_field query resource_field (u_tenant_id user).

End Queries.

Arguments filter_by_tenant {Query Model} filter_tenant query model user
  parent_access.
Arguments with_tenant {Query Model} filter_tenant query model tenant_id.
Arguments resource_filter_by_tenant {Query} filter_field user query
  resource_field.

End TenantMore.

(** ** rbac.py, tenant.py: the two middleware classes *)
Module Middlewares.

(** What the middlewares read of a request: the method and the header
    [Authorization]. *)
Record Request : Type := mkRequest {
  method : string;
  authorization : option string
}.

Section Calls.

Variable Response : Type.
Variable call_next : Request -> Response.

(** [RBACMiddleware.__call__] *)
Definition rbac_call (request : Request) : Response :=
  if String.eqb (method request) "OPTIONS" then call_next request
  else
    let auth_header := authorization request in
    if match auth_header with
       | None => true
       | Some EmptyString => true
       | Some header => negb (starts_with "Bearer " header)
       end
    then call_next request
    else call_next request.

(** [TenantIsolationMiddleware.__call__] *)
Definition tenant_call (request : Request) : Response :=
  if String.eqb (method request) "OPTIONS" then call_next request
  else
    let response := call_next request in
    response.

End Calls.

Arguments rbac_call {Response} call_next request.
Arguments tenant_call {Response} call_next request.

End Middlewares.

(** ** rbac.py: the role table *)
Module RbacMore.

Import Rbac.Permissions.

(** The members of [class Permissions], in the order of the class. *)
Definition all_permissions : list string :=
  [ ALERTS_READ; ALERTS_WRITE; ALERTS_DELETE;
    CASES_READ; CASES_WRITE; CASES_DELETE; CASES_MANAGE;
    ASSETS_READ; ASSETS_WRITE; ASSETS_DELETE;
    SENSORS_READ; SENSORS_WRITE; SENSORS_DELETE;
    INVENTORY_READ; INVENTORY_WRITE; INVENTORY_DELETE; INVENTORY_APPROVE;
    PLAYBOOKS_READ; PLAYBOOKS_WRITE; PLAYBOOKS_EXECUTE;
    USERS_READ; USERS_WRITE;
    ROLES_READ; ROLES_WRITE;
    SETTINGS_READ; SETTINGS_WRITE;
    INTEGRATIONS_READ; INTEGRATIONS_WRITE;
    WEBHOOKS_READ; WEBHOOKS_WRITE;
    API_KEYS_READ; API_KEYS_WRITE;
    AUDIT_LOGS_READ ].

(** [s.endswith(suffix)] *)
Definition ends_with (suffix s : string) : bool :=
  let n := String.length s in
  let k := String.length suffix in
  Nat.leb k n && String.eqb (String.substring (n - k) k s) suffix.

(** [DEFAULT_ROLE_PERMISSIONS.get(role, [])] *)
Definition role_permissions (role : string) : list string :=
  default [] (Rbac.DEFAULT_ROLE_PERMISSIONS !! role).

End RbacMore.

(** ** inventory.py: the rest of the AI service *)
Module InventoryMore.

Import Inventory.

(** [headers.get(name)] on the header list. *)
Fixpoint header_get (name : string) (headers : list (string * option string))
    : option (option string) :=
  match headers with
  | [] => None
  | (k, v) :: rest => if String.eqb name k then Some v else header_get name rest
  end.

(** The configuration with another [api_url]. *)
Definition with_api_url (cfg : AIConfig.t) (url : option string) : AIConfig.t :=
  AIConfig.mk (AIConfig.provider cfg) url (AIConfig.api_key cfg)
    (AIConfig.model cfg) (AIConfig.temperature cfg) (AIConfig.max_tokens cfg)
    (AIConfig.prompt_template cfg) (AIConfig.timeout_seconds cfg).

(** The keys of [AIService.PROVIDERS]. *)
Definition known_providers : list string :=
  ["openai"; "anthropic"; "ollama"; "groq"; "deepseek"].

End InventoryMore.

(** ** inventory.py: the webhook entry point [receive_from_n8n] *)

Module InventoryWebhook.

Import Inventory.

(** The fields of [EquipmentData] declared [Optional[str] = None]. *)
Definition optional_str_fields : list string :=
  [ "external_id"; "hostname"; "ip_address"; "mac_address"; "os";
    "os_version"; "asset_type"; "manufacturer"; "model"; "serial_number";
    "location"; "department"; "owner" ].

(** Validation of one keyword argument: an absent key takes the default of
    the field, a present one is checked against the declared type. *)
Definition field {A : Type} (kv : list (string * json)) (name : string)
    (default : A) (validate : json -> option A) : option A :=
  match assoc name kv with
  | Some v => validate v
  | None => Some default
  end.

Definition validate_metadata (v : json) : option (list (string * json)) :=
  match v with
  | JObj m => Some m
  | _ => None
  end.

(** The error entry of a field: its name and the input that was refused. *)
Definition field_error {A : Type} (kv : list (string * json)) (name : string)
    (validate : json -> option A) : list (string * json) :=
  match assoc name kv with
  | Some v => AIService.error_if_none name v (validate v)
  | None => []
  end.

Definition validation_errors (kv : list (string * json))
    : list (string * json) :=
  flat_map (fun name => field_error kv name AIService.validate_opt_str)
    optional_str_fields ++
  field_error kv "tags" AIService.validate_tags ++
  field_error kv "metadata" validate_metadata ++
  field_error kv "source" AIService.validate_str.

(** The constructor [EquipmentData] on the keyword arguments [kv]: keys
    that name no field are ignored, the errors of all fields are reported
    together. *)
Definition EquipmentData_new (kv : list (string * json))
    : exc EquipmentData.t :=
  let str := fun name => field kv name None AIService.validate_opt_str in
  let built :=
    external_id ← str "external_id";
    hostname ← str "hostname";
    ip_address ← str "ip_address";
    mac_address ← str "mac_address";
    os ← str "os";
    os_version ← str "os_version";
    asset_type ← str "asset_type";
    manufacturer ← str "manufacturer";
    model ← str "model";
    serial_number ← str "serial_number";
    location ← str "location";
    department ← str "department";
    owner ← str "owner";
    tags ← field kv "tags" [] AIService.validate_tags;
    metadata ← field kv "metadata" [] validate_metadata;
    source ← field kv "source" "n8n" AIService.validate_str;
    Some (EquipmentData.mk external_id hostname ip_address mac_address os
            os_version asset_type manufacturer model serial_number location
            department owner tags metadata source) in
  match built with
  | Some equipment => ret equipment
  | None => raise (ValidationError (validation_errors kv))
  end.

(** The call of [EquipmentData] with [item_data] unpacked as keyword
    arguments: what is unpacked must be a mapping. *)
Definition equipment_of (item_data : json) : exc EquipmentData.t :=
  match item_data with
  | JObj kv => EquipmentData_new kv
  | _ => raise (TypeError item_data)
  end.

(** The keys of a decoded object, each once, in the order of their first
    binding. *)
Fixpoint keys (kv : list (string * json)) : list string :=
  match kv with
  | [] => []
  | (k, _) :: kv' => k :: filter (fun k' => negb (String.eqb k' k)) (keys kv')
  end.

Fixpoint chars (s : string) : list string :=
  match s with
  | EmptyString => []
  | String c s' => String c EmptyString :: chars s'
  end.

(** [key in obj] for a string [key]. *)
Definition py_contains (obj : json) (key : string) : exc bool :=
  match obj with
  | JObj kv => ret (bool_decide (is_Some (assoc key kv)))
  | JArr l =>
    ret (existsb (fun x => match x with
                           | JStr s => String.eqb s key
                           | _ => false
                           end) l)
  | JStr s => ret (negb (py_find s key =? -1))
  | _ => raise (TypeError obj)
  end.

(** What [for item_data in items] goes through. *)
Definition py_iter (items : json) : exc (list json) :=
  match items with
  | JArr l => ret l
  | JObj kv => ret (map JStr (keys kv))
  | JStr s => ret (map JStr (chars s))
  | _ => raise (TypeError items)
  end.

(** The first statement: a batch under the key [items], a list, or one
    item. *)
Definition items_of (payload : json) : exc json :=
  do has_items <- py_contains payload "items";
  if has_items then getitem_key payload "items"
  else match payload with
       | JArr _ => ret payload
       | _ => ret (JArr [payload])
       end.

(** How a call can fail: with one of the exceptions of the pipeline, or
    with the [AttributeError] of the lookup of [dict] on a result, which is
    a plain dict. *)
Inductive failure : Type :=
| Exn (e : exn)
| DictHasNoDict (result : InventoryService.Processed.t).

(** The dict that is returned. *)
Record Reply : Type := mkReply {
  received : nat;
  processed : nat;
  results : list json
}.

(** [[r.dict() for r in results]] *)
Definition dicts_of (results : list InventoryService.Processed.t)
    : failure + list json :=
  match results with
  | [] => inr []
  | r :: _ => inl (DictHasNoDict r)
  end.

Section Webhook.

Variable post :
  string -> json -> list (string * option string) -> Z ->
  exc AIService.Response.
Variable json_loads : string -> option json.
Variable float_of_str : string -> option float.
Variable int_of_str : string -> option Z.
Variable str_of_exn : exn -> string.

(** The loop over the items. *)
Fixpoint process_all (self : InventoryService.t) (items : list json)
    : exc (list InventoryService.Processed.t) :=
  match items with
  | [] => ret []
  | item_data :: rest =>
    do equipment <- equipment_of item_data;
    let result :=
      InventoryService.process_item post json_loads float_of_str int_of_str
        str_of_exn self equipment in
    do results <- process_all self rest;
    ret (result :: results)
  end.

(** [InventoryService.receive_from_n8n] *)
Definition receive_from_n8n (self : InventoryService.t) (payload : json)
    : failure + Reply :=
  match items_of payload with
  | inl e => inl (Exn e)
  | inr items =>
    match py_iter items with
    | inl e => inl (Exn e)
    | inr item_list =>
      match process_all self item_list with
      | inl e => inl (Exn e)
      | inr results =>
        match dicts_of results with
        | inl f => inl f
        | inr dicts => inr (mkReply (length item_list) (length results) dicts)
        end
      end
    end
  end.

End Webhook.

End InventoryWebhook.

(** ** security.py: the dependencies that identify the caller *)

Module Security.

Record User : Type := mkUser {
  id : string;
  username : string;
  email : string;
  role : string;
  is_active : bool
}.

Record TokenData : Type := mkTokenData {
  td_username : option string;
  td_user_id : option string
}.

(** What a dependency can raise: an [HTTPException], or the validation
    error of a model, which no handler of this file catches. *)
Inductive failure : Type :=
| Http (status_code : Z) (detail : string)
| Invalid (errors : list (string * json)).

Definition credentials_exception : failure :=
  Http HTTP_401_UNAUTHORIZED "Could not validate credentials".

(** The constructor [TokenData], both fields [Optional[str]]. *)
Definition TokenData_new (username user_id : json) : failure + TokenData :=
  match Inventory.AIService.validate_opt_str username,
        Inventory.AIService.validate_opt_str user_id with
  | Some u, Some i => inr (mkTokenData u i)
  | vu, vi =>
    inl (Invalid
           (Inventory.AIService.error_if_none "username" username vu ++
            Inventory.AIService.error_if_none "user_id" user_id vi))
  end.

Section Dependencies.

(** [jwt.decode] with the key and the algorithm of the settings: the claims
    of the token, or [None] where it raises [JWTError]. *)
Variable jwt_decode : string -> option (list (string * json)).

(** [get_current_user] *)
Definition get_current_user (token : string) : failure + User :=
  match jwt_decode token with
  | None => inl credentials_exception
  | Some payload =>
    match dict_get payload "sub" JNull with
    | JNull => inl credentials_exception
    | username =>
      match TokenData_new username (dict_get payload "user_id" JNull) with
      | inl e => inl e
      | inr token_data =>
        inr (mkUser (str_or (td_user_id token_data) "1")
                    (str_or (td_username token_data) "admin")
                    "admin@siem.local" "admin" true)
      end
    end
  end.

(** [get_current_active_user] *)
Definition get_current_active_user (current_user : User) : failure + User :=
  if negb (is_active current_user) then inl (Http 400 "Inactive user")
  else inr current_user.

(** The [role_checker] that [require_role] returns. *)
Definition require_role (allowed_roles : list string) (current_user : User)
    : failure + User :=
  if negb (str_in (role current_user) allowed_roles) then
    inl (Http HTTP_403_FORBIDDEN "Operation not permitted")
  else inr current_user.

(** The chain of dependencies behind an endpoint that asks for a role: the
    token, the active user, the role. *)
Definition role_checked (allowed_roles : list string) (token : string)
    : failure + User :=
  match get_current_user token with
  | inl e => inl e
  | inr user =>
    match get_current_active_user user with
    | inl e => inl e
    | inr user => require_role allowed_roles user
    end
  end.

End Dependencies.

End Security.

(** ** security.py: issuing a token *)
Module SecurityTokens.

(** [d.update({key: v})] on a dict written as the list of its entries. *)
Fixpoint dict_update (d : list (string * json)) (key : string) (v : json)
    : list (string * json) :=
  match d with
  | [] => [(key, v)]
  | (k, w) :: d' =>
    if String.eqb k key then (k, v) :: d' else (k, w) :: dict_update d' key v
  end.

Section Issuing.

(** [jwt.encode] with the key and the algorithm of the settings; the
    setting [access_token_expire_minutes]; the reading of the clock by
    [datetime.utcnow()].  Times and durations are counted in
    microseconds. *)
Variable jwt_encode : list (string * json) -> string.
Variable access_token_expire_minutes : Z.
Variable utcnow : Z.

(** [timedelta(minutes=m)] *)
Definition minutes (m : Z) : Z := m * 60 * 1000000.

(** The claim [exp] of a token: the whole seconds of the expiry. *)
Definition exp_claim (expire : Z) : json := JInt (expire / 1000000).

(** The value of [expire]; a zero [expires_delta] is falsy. *)
Definition expiry (expires_delta : option Z) : Z :=
  match expires_delta with
  | Some delta =>
    if delta =? 0 then utcnow + minutes access_token_expire_minutes
    else utcnow + delta
  | None => utcnow + minutes access_token_expire_minutes
  end.

(** The dict [to_encode] when it is handed to [jwt.encode]. *)
Definition to_encode (data : list (string * json)) (expires_delta : option Z)
    : list (string * json) :=
  dict_update data "exp" (exp_claim (expiry expires_delta)).

(** [create_access_token] *)
Definition create_access_token (data : list (string * json))
    (expires_delta : option Z) : string :=
  jwt_encode (to_encode data expires_delta).

End Issuing.

End SecurityTokens.

(** ** api/v1/inventory.py: the webhook endpoint *)

Module InventoryApi.

Import Inventory.

Definition json_of_opt (x : option string) : json :=
  match x with
  | Some s => JStr s
  | None => JNull
  end.

(** [item.dict()] for an [EquipmentInput] or an [EquipmentData], which
    declare the same fields. *)
Definition dict_of (e : EquipmentData.t) : list (string * json) :=
  [ ("external_id", json_of_opt (EquipmentData.external_id e));
    ("hostname", json_of_opt (EquipmentData.hostname e));
    ("ip_address", json_of_opt (EquipmentData.ip_address e));
    ("mac_address", json_of_opt (EquipmentData.mac_address e));
    ("os", json_of_opt (EquipmentData.os e));
    ("os_version", json_of_opt (EquipmentData.os_version e));
    ("asset_type", json_of_opt (EquipmentData.asset_type e));
    ("manufacturer", json_of_opt (EquipmentData.manufacturer e));
    ("model", json_of_opt (EquipmentData.model e));
    ("serial_number", json_of_opt (EquipmentData.serial_number e));
    ("location", json_of_opt (EquipmentData.location e));
    ("department", json_of_opt (EquipmentData.department e));
    ("owner", json_of_opt (EquipmentData.owner e));
    ("tags", JArr (map JStr (EquipmentData.tags e)));
    ("metadata", JObj (EquipmentData.metadata e));
    ("source", JStr (EquipmentData.source e)) ].

(** The body of the request, as validated by the framework. *)
Record N8NWebhookInput : Type := mkN8NWebhookInput {
  items : list EquipmentData.t;
  batch_id : option string;
  timestamp : option string
}.

(** The dict the endpoint returns. *)
Record Accepted : Type := mkAccepted {
  status : string;
  accepted_batch_id : option string;
  received : nat;
  message : string
}.

(** [str(n)] for a count. *)
Definition str_of_nat (n : nat) : string :=
  DecimalString.NilZero.string_of_uint (Nat.to_uint n).

(** The tenant of the caller: [User] declares no field [tenant_id], so the
    test [hasattr(current_user, 'tenant_id')] fails. *)
Definition tenant_id_of (current_user : Security.User) : string := "default".

(** The configuration the endpoint builds; the temperature is the default
    of [AIConfig], 0.3. *)
Definition ai_config : AIConfig.t :=
  AIConfig.mk "openai" None (Some EmptyString) "gpt-4"
    0x1.3333333333333p-2%float 1000 EmptyString 30.

(** The list [items] of the endpoint: an [EquipmentData] built from the
    dict of each item of the payload. *)
Fixpoint equipment_all (dicts : list (list (string * json)))
    : exc (list EquipmentData.t) :=
  match dicts with
  | [] => ret []
  | kv :: rest =>
    do equipment <- InventoryWebhook.EquipmentData_new kv;
    do batch <- equipment_all rest;
    ret (equipment :: batch)
  end.

(** The parameters of [InventoryService.__init__] after [self], each with
    whether it has a default. *)
Definition init_parameters : list (string * bool) :=
  [ ("db_session", false); ("tenant_id", false); ("ai_config", true) ].

(** The keywords of the call
    [InventoryService(db=None, tenant_id=tenant_id, ai_config=ai_config)]. *)
Definition service_keywords : list string :=
  [ "db"; "tenant_id"; "ai_config" ].

(** Binding the keyword arguments of a call to the parameters of the
    function: a keyword that names no parameter is a [TypeError], and so is
    a parameter without a default that is given no argument. *)
Definition bind_keywords (parameters : list (string * bool))
    (keywords : list string) : exc unit :=
  match List.find (fun k => negb (str_in k (map fst parameters))) keywords with
  | Some k => raise (TypeError (JStr k))
  | None =>
    match List.find (fun p => negb (snd p) && negb (str_in (fst p) keywords))
                    parameters with
    | Some p => raise (TypeError (JStr (fst p)))
    | None => ret tt
    end
  end.

Section Endpoint.

Variable post :
  string -> json -> list (string * option string) -> Z ->
  exc AIService.Response.
Variable json_loads : string -> option json.
Variable float_of_str : string -> option float.
Variable int_of_str : string -> option Z.
Variable str_of_exn : exn -> string.
Variable str_lower : string -> string.

(** The call that creates the service, without a database session. *)
Definition service_of (current_user : Security.User)
    : exc InventoryService.t :=
  do _ <- bind_keywords init_parameters service_keywords;
  ret (InventoryService.init str_lower ∅ (tenant_id_of current_user)
         (Some ai_config)).

(** The endpoint [receive_from_n8n]. *)
Definition receive_from_n8n (payload : N8NWebhookInput)
    (current_user : Security.User) : InventoryWebhook.failure + Accepted :=
  match service_of current_user with
  | inl e => inl (InventoryWebhook.Exn e)
  | inr service =>
    match equipment_all (map dict_of (items payload)) with
    | inl e => inl (InventoryWebhook.Exn e)
    | inr batch =>
      match InventoryWebhook.receive_from_n8n post json_loads float_of_str
              int_of_str str_of_exn service
              (JObj [("items", JArr (map (fun item => JObj (dict_of item))
                                         batch))]) with
      | inl f => inl f
      | inr result =>
        inr (mkAccepted "accepted" (batch_id payload)
               (InventoryWebhook.received result)
               ("Processing " +:+
                str_of_nat (InventoryWebhook.received result) +:+ " items"))
      end
    end
  end.

End Endpoint.

End InventoryApi.

(** ** i18n.py: the language of a request and the message tables *)

Module I18n.

Definition DEFAULT_LANGUAGE : string := "en".
Definition SUPPORTED_LANGUAGES : list string := ["en"; "pt"; "es"].

(** [d.get(key)] for a dict written as the list of its entries. *)
Fixpoint dict_lookup {A : Type} (key : string) (d : list (string * A))
    : option A :=
  match d with
  | [] => None
  | (k, v) :: d' => if String.eqb key k then Some v else dict_lookup key d'
  end.

(** [sub in s] for two strings. *)
Definition str_contains (sub s : string) : bool :=
  negb (py_find s sub =? -1).

(** What [get_language] reads of a request: the query parameter [lang], the
    header [Accept-Language] and the cookie [lang], each absent or a text. *)
Record Request : Type := mkRequest {
  query_lang : option string;
  accept_language : option string;
  cookie_lang : option string
}.

(** The test [lang and lang in SUPPORTED_LANGUAGES], with the language
    returned when it holds. *)
Definition supported (lang : option string) : option string :=
  match lang with
  | Some (String c s) =>
    if str_in (String c s) SUPPORTED_LANGUAGES then Some (String c s) else None
  | _ => None
  end.

(** The loop over the supported languages on the header.  The patterns
    are ASCII, so folding the ASCII letters of the header is all of
    [lower] that the test can see. *)
Definition from_header (header : option string) : option string :=
  let accept_language := default EmptyString header in
  match accept_language with
  | EmptyString => None
  | _ =>
    List.find (fun lang => str_contains lang (py_lower accept_language))
      SUPPORTED_LANGUAGES
  end.

(** [I18nMiddleware.get_language] *)
Definition get_language (request : Request) : string :=
  match supported (query_lang request) with
  | Some lang => lang
  | None =>
    match from_header (accept_language request) with
    | Some lang => lang
    | None =>
      match supported (cookie_lang request) with
      | Some lang => lang
      | None => DEFAULT_LANGUAGE
      end
    end
  end.

(** The tables of [MESSAGES]; a text is held as its UTF-8 bytes. *)
Definition MESSAGES_en : list (string * string) :=
  [ ("auth.login_success", "Login successful");
    ("auth.login_failed", "Invalid credentials");
    ("auth.token_expired", "Token has expired");
    ("auth.token_invalid", "Invalid token");
    ("auth.unauthorized", "Unauthorized access");
    ("auth.forbidden", "Access forbidden");
    ("alerts.created", "Alert created successfully");
    ("alerts.updated", "Alert updated successfully");
    ("alerts.deleted", "Alert deleted successfully");
    ("cases.created", "Case created successfully");
    ("cases.updated", "Case updated successfully");
    ("cases.closed", "Case closed successfully");
    ("cases.assigned", "Case assigned successfully");
    ("users.created", "User created successfully");
    ("users.updated", "User updated successfully");
    ("users.deleted", "User deleted successfully");
    ("users.inactive", "User account is inactive");
    ("tenants.switched", "Tenant switched successfully");
    ("permissions.denied", "Permission denied");
    ("integrations.configured", "Integration configured successfully");
    ("integrations.test_success", "Integration test successful");
    ("integrations.test_failed", "Integration test failed");
    ("errors.validation", "Validation error");
    ("errors.not_found", "Resource not found");
    ("errors.internal", "Internal server error") ].

Definition MESSAGES_pt : list (string * string) :=
  [ ("auth.login_success", "Login realizado com sucesso");
    ("auth.login_failed", "Credenciais inválidas");
    ("auth.token_expired", "Token expirado");
    ("auth.token_invalid", "Token inválido");
    ("auth.unauthorized", "Acesso não autorizado");
    ("auth.forbidden", "Acesso proibido");
    ("alerts.created", "Alerta criado com sucesso");
    ("alerts.updated", "Alerta atualizado com sucesso");
    ("alerts.deleted", "Alerta excluído com sucesso");
    ("cases.created", "Caso criado com sucesso");
    ("cases.updated", "Caso atualizado com sucesso");
    ("cases.closed", "Caso fechado com sucesso");
    ("cases.assigned", "Caso atribuído com sucesso");
    ("users.created", "Usuário criado com sucesso");
    ("users.updated", "Usuário atualizado com sucesso");
    ("users.deleted", "Usuário excluído com sucesso");
    ("users.inactive", "Conta de usuário está inativa");
    ("tenants.switched", "Locatário alterado com sucesso");
    ("permissions.denied", "Permissão negada");
    ("integrations.configured", "Integração configurada com sucesso");
    ("integrations.test_success", "Teste de integração bem-sucedido");
    ("integrations.test_failed", "Falha no teste de integração");
    ("errors.validation", "Erro de validação");
    ("errors.not_found", "Recurso não encontrado");
    ("errors.internal", "Erro interno do servidor") ].

Definition MESSAGES_es : list (string * string) :=
  [ ("auth.login_success", "Inicio de sesión exitoso");
    ("auth.login_failed", "Credenciales inválidas");
    ("auth.token_expired", "Token ha expirado");
    ("auth.token_invalid", "Token inválido");
    ("auth.unauthorized", "Acceso no autorizado");
    ("auth.forbidden", "Acceso prohibido");
    ("alerts.created", "Alerta creado exitosamente");
    ("alerts.updated", "Alerta actualizado exitosamente");
    ("alerts.deleted", "Alerta eliminado exitosamente");
    ("cases.created", "Caso creado exitosamente");
    ("cases.updated", "Caso actualizado exitosamente");
    ("cases.closed", "Caso cerrado exitosamente");
    ("cases.assigned", "Caso asignado exitosamente");
    ("users.created", "Usuario creado exitosamente");
    ("users.updated", "Usuario actualizado exitosamente");
    ("users.deleted", "Usuario eliminado exitosamente");
    ("users.inactive", "La cuenta de usuario está inactiva");
    ("tenants.switched", "Inquilino cambiado exitosamente");
    ("permissions.denied", "Permiso denegado");
    ("integrations.configured", "Integración configurada exitosamente");
    ("integrations.test_success", "Prueba de integración exitosa");
    ("integrations.test_failed", "Error en prueba de integración");
    ("errors.validation", "Error de validación");
    ("errors.not_found", "Recurso no encontrado");
    ("errors.internal", "Error interno del servidor") ].

Definition MESSAGES : list (string * list (string * string)) :=
  [ ("en", MESSAGES_en); ("pt", MESSAGES_pt); ("es", MESSAGES_es) ].

(** [get_message] *)
Definition get_message (key lang : string) : string :=
  default key
    (dict_lookup key
       (default (default [] (dict_lookup DEFAULT_LANGUAGE MESSAGES))
          (dict_lookup lang MESSAGES))).

End I18n.

(** * Properties *)

(** ** Helper lemmas on the Python model *)

Lemma str_in_In (x : string) (l : list string) :
  str_in x l = true <-> In x l.
Proof.
  unfold str_in. rewrite existsb_exists. split.
  - intros [y [Hy Heq]]. apply String.eqb_eq in Heq. now subst.
  - intros H. exists x. split; [assumption | apply String.eqb_refl].
Qed.

Lemma str_in_false (x : string) (l : list string) :
  str_in x l = false <-> ~ In x l.
Proof.
  rewrite <- str_in_In. destruct (str_in x l); split; intros; congruence.
Qed.

Lemma dict_is_empty_iff (u : UserDict) :
  dict_is_empty u = true <-> u = empty_dict.
Proof.
  destruct u as [i t ty r p s]. unfold dict_is_empty, empty_dict. simpl.
  split.
  - destruct i, t, ty, r, p, s; intros H; try discriminate H. reflexivity.
  - intros H. inversion H. reflexivity.
Qed.

Lemma no_principal_iff (cu : option UserDict) :
  no_principal cu <-> truthy_user cu = false.
Proof.
  unfold truthy_user, no_principal. destruct cu as [u|].
  - rewrite negb_false_iff, dict_is_empty_iff. split.
    + intros [H|H]; [discriminate H | now inversion H].
    + intros ->. now right.
  - split; [reflexivity | now left].
Qed.

(** A principal that is present is a dict with at least one entry. *)
Lemma present_not_empty (u : UserDict) :
  ~ no_principal (Some u) <-> dict_is_empty u = false.
Proof.
  rewrite no_principal_iff. simpl. rewrite negb_false_iff.
  destruct (dict_is_empty u); split; congruence.
Qed.

Lemma length_append (a b : string) :
  String.length (a +:+ b) = (String.length a + String.length b)%nat.
Proof.
  induction a as [|x a IH]; [reflexivity|].
  change (String x a +:+ b) with (String x (a +:+ b)). simpl. now rewrite IH.
Qed.

Lemma append_assoc (a b c : string) : (a +:+ b) +:+ c = a +:+ b +:+ c.
Proof.
  induction a as [|x a IH]; [reflexivity|].
  change (String x a +:+ b) with (String x (a +:+ b)).
  change (String x (a +:+ b) +:+ c) with (String x ((a +:+ b) +:+ c)).
  now rewrite IH.
Qed.

(** ** Tenant hierarchy *)

Section TenantProperties.

Import Tenant.

(** Case analysis on a comparison with a string literal. *)
Ltac case_eqb :=
  repeat match goal with
  | |- context [String.eqb ?a ?b] =>
    destruct (String.eqb_spec a b); try subst; simpl
  end.

(** C1. [TenantHierarchy.can_access] returns true exactly when the requester
    is the target, or the requester type is root, or it is provider and the
    target type is customer or sub_customer, or it is customer and the target
    type is sub_customer; in every other case it returns false, in particular
    for provider to provider, for a sub_customer requester and for an
    unrecognized requester type (each towards another tenant). *)
Theorem can_access_spec (rid rty tid tty : string) :
  (can_access rid rty tid tty = true <-> access_rule rid rty tid tty) /\
  (can_access rid rty tid tty = false <-> ~ access_rule rid rty tid tty) /\
  (rid <> tid -> can_access rid "provider" tid "provider" = false) /\
  (rid <> tid -> can_access rid "sub_customer" tid tty = false) /\
  (rid <> tid -> rty <> "root" -> rty <> "provider" -> rty <> "customer" ->
   can_access rid rty tid tty = false).
Proof.
  assert (Ht : can_access rid rty tid tty = true <-> access_rule rid rty tid tty).
  { unfold can_access, access_rule, str_in. simpl. case_eqb;
      intuition (try congruence; try discriminate). }
  split; [exact Ht|]. split.
  - rewrite <- Ht. destruct (can_access rid rty tid tty); split; congruence.
  - unfold can_access. repeat split; intros; case_eqb; congruence.
Qed.

(** The access table over the four tenant types, requester by row and
    target by column, in the order root, provider, customer, sub_customer:
    between two different tenants, and for one tenant whatever the types. *)
Example can_access_table :
  let types := ["root"; "provider"; "customer"; "sub_customer"] in
  map (fun r => map (fun t => can_access "tenant-1" r "tenant-2" t) types)
      types =
    [ [true; true; true; true];
      [false; false; true; true];
      [false; false; false; true];
      [false; false; false; false] ] /\
  forallb (fun r => forallb (fun t => can_access "tenant-1" r "tenant-1" t)
                            types) types = true.
Proof. split; reflexivity. Qed.

Lemma hierarchy_get_rank (key : option string) :
  hierarchy_get key = rank key.
Proof.
  destruct key as [t|]; [|reflexivity].
  unfold hierarchy_get, rank, hierarchy.
  repeat (rewrite lookup_insert; case_decide; [subst t; reflexivity|]).
  rewrite lookup_empty. simpl.
  case_eqb; congruence.
Qed.

Lemma rank_nonneg (key : option string) : 0 <= rank key.
Proof.
  destruct key as [t|]; simpl; [|lia]. case_eqb; lia.
Qed.

Lemma rank_recognized (key : option string) :
  recognized key <-> 1 <= rank key.
Proof.
  unfold recognized. destruct key as [t|]; simpl.
  - case_eqb; split; intros H; try lia; auto 6.
    destruct H as [H|[H|[H|H]]]; congruence.
  - split; [intros [H|[H|[H|H]]]; discriminate | lia].
Qed.

(** A falsy [required_level] has rank 0. *)
Lemma rank_falsy_level (required_level : option string) :
  truthy_level required_level = false -> rank required_level = 0.
Proof.
  destruct required_level as [s|]; simpl; [|reflexivity].
  rewrite negb_false_iff. intros H. apply String.eqb_eq in H. now subst.
Qed.

(** The checker as a function of the two ranks. *)
Lemma tenant_checker_present (required_level : option string) (u : UserDict) :
  dict_is_empty u = false ->
  tenant_checker required_level (Some u) =
  if rank (u_tenant_type u) <? rank required_level then
    inl (mkHTTPException 403 (TenantLevelRequired (default "" required_level)))
  else inr u.
Proof.
  intros Hu. unfold tenant_checker. rewrite Hu.
  destruct (truthy_level required_level) eqn:Hl.
  - cbv zeta. now rewrite !hierarchy_get_rank.
  - rewrite (rank_falsy_level _ Hl).
    pose proof (rank_nonneg (u_tenant_type u)) as Hr.
    destruct (Z.ltb_spec (rank (u_tenant_type u)) 0); [lia | reflexivity].
Qed.

(** C10. The checker built by [require_tenant_access] raises 401 exactly
    when no user is present; for a user that is present it raises 403 exactly
    when the rank of the user's tenant type is below the rank of the required
    level, and returns the user otherwise.  The ranks are root 4, provider 3,
    customer 2, sub_customer 1 and 0 for anything else or nothing, and they
    are what the lookups in the [hierarchy] table return.  Hence a required
    level that is none of the four names admits every user that is present,
    and a user whose tenant type is none of the four is refused whenever one
    of the four levels is required. *)
Theorem require_tenant_access_spec
    (required_level : option string) (current_user : option UserDict) :
  (raises (require_tenant_access required_level current_user) 401 <->
   no_principal current_user) /\
  (forall key, hierarchy_get key = rank key) /\
  (forall u, current_user = Some u -> ~ no_principal current_user ->
     (raises (require_tenant_access required_level current_user) 403 <->
      rank (u_tenant_type u) < rank required_level) /\
     (allows (require_tenant_access required_level current_user) u <->
      rank required_level <= rank (u_tenant_type u))) /\
  (~ recognized required_level ->
   forall u, current_user = Some u -> ~ no_principal current_user ->
     allows (require_tenant_access required_level current_user) u) /\
  (recognized required_level ->
   forall u, current_user = Some u -> ~ no_principal current_user ->
     ~ recognized (u_tenant_type u) ->
     raises (require_tenant_access required_level current_user) 403).
Proof.
  unfold require_tenant_access.
  assert (Hpresent : forall u, current_user = Some u ->
            ~ no_principal current_user ->
            tenant_checker required_level current_user =
            if rank (u_tenant_type u) <? rank required_level then
              inl (mkHTTPException 403
                     (TenantLevelRequired (default "" required_level)))
            else inr u).
  { intros u -> Hp. apply tenant_checker_present.
    now apply present_not_empty. }
  split; [|split; [exact hierarchy_get_rank|split; [|split]]].
  - split.
    + intros [d Hd]. apply no_principal_iff.
      destruct (truthy_user current_user) eqn:Ht; [|reflexivity].
      destruct current_user as [u|]; [|discriminate Ht].
      simpl in Ht. apply negb_true_iff in Ht.
      rewrite (tenant_checker_present _ _ Ht) in Hd.
      destruct (_ <? _); discriminate Hd.
    + intros [->| ->]; exists AuthenticationRequired; reflexivity.
  - intros u Hu Hp. rewrite (Hpresent u Hu Hp). unfold raises, allows.
    destruct (Z.ltb_spec (rank (u_tenant_type u)) (rank required_level)).
    + split; split.
      * intros _; assumption.
      * intros _; eexists; reflexivity.
      * intros H'; discriminate H'.
      * intros H'; lia.
    + split; split.
      * intros [d Hd]; discriminate Hd.
      * intros H'; lia.
      * intros _; assumption.
      * intros _; reflexivity.
  - intros Hn u Hu Hp. rewrite (Hpresent u Hu Hp). unfold allows.
    rewrite rank_recognized in Hn.
    pose proof (rank_nonneg (u_tenant_type u)).
    destruct (Z.ltb_spec (rank (u_tenant_type u)) (rank required_level));
      [lia | reflexivity].
  - intros Hr u Hu Hp Hn. rewrite (Hpresent u Hu Hp). unfold raises.
    rewrite rank_recognized in Hr, Hn.
    destruct (Z.ltb_spec (rank (u_tenant_type u)) (rank required_level));
      [eexists; reflexivity | lia].
Qed.

(** A customer user against each level, and users of unknown or missing
    tenant type. *)
Example require_tenant_access_table :
  let user ty := mkUserDict (Some "user-1") None ty None None None in
  let refused := inl (mkHTTPException 403 (TenantLevelRequired "provider")) in
  require_tenant_access (Some "provider") (Some (user (Some "customer"))) =
    refused /\
  require_tenant_access (Some "customer") (Some (user (Some "customer"))) =
    inr (user (Some "customer")) /\
  require_tenant_access (Some "provider") (Some (user (Some "partner"))) =
    refused /\
  require_tenant_access (Some "provider") (Some (user None)) = refused /\
  require_tenant_access (Some "partner") (Some (user None)) =
    inr (user None) /\
  require_tenant_access None (Some (user (Some "sub_customer"))) =
    inr (user (Some "sub_customer")) /\
  require_tenant_access (Some "provider") None =
    inl (mkHTTPException 401 AuthenticationRequired).
Proof. vm_compute. repeat split. Qed.

End TenantProperties.

(** ** Permission checks *)

Section RbacProperties.

Import Rbac.

Lemma role_is_admin_iff (u : UserDict) :
  role_is_admin u = true <-> u_role u = Some "admin".
Proof.
  unfold role_is_admin. destruct (u_role u) as [r|].
  - rewrite String.eqb_eq. split; [now intros -> | now intros [= ->]].
  - split; discriminate.
Qed.

Lemma role_is_admin_false (u : UserDict) :
  role_is_admin u = false <-> u_role u <> Some "admin".
Proof.
  rewrite <- role_is_admin_iff. destruct (role_is_admin u); split; congruence.
Qed.

(** [any(p in user_permissions for p in permissions)] is false exactly when
    no listed permission is held. *)
Lemma any_in_false (held permissions : list string) :
  existsb (fun p => str_in p held) permissions = false <->
  (forall p, In p permissions -> ~ In p held).
Proof.
  split.
  - intros H p Hp Hin.
    assert (E : existsb (fun p => str_in p held) permissions = true).
    { apply existsb_exists. exists p. split; [assumption|]. now apply str_in_In. }
    congruence.
  - intros H. destruct (existsb _ permissions) eqn:E; [|reflexivity].
    apply existsb_exists in E. destruct E as [p [Hp Hin]].
    apply str_in_In in Hin. exfalso. exact (H p Hp Hin).
Qed.

(** [all(p in user_permissions for p in permissions)] is false exactly when
    some listed permission is missing. *)
Lemma all_in_false (held permissions : list string) :
  forallb (fun p => str_in p held) permissions = false <->
  (exists p, In p permissions /\ ~ In p held).
Proof.
  induction permissions as [|q permissions IH]; simpl.
  - split; [discriminate | intros [p [[] _]]].
  - rewrite andb_false_iff, IH, str_in_false. split.
    + intros [H|[p [Hp Hn]]]; [exists q | exists p]; auto.
    + intros [p [[->|Hp] Hn]]; [now left | right; now exists p].
Qed.

(** The three checkers share their shape: 401 without a principal, the
    principal itself for an admin, and otherwise 403 or the principal
    according to a test [denied] on the held permissions. *)
Definition checker_shape (check : option UserDict -> checked UserDict)
    (denied : list string -> bool) (d : Detail) : Prop :=
  forall current_user,
    check current_user =
    match current_user with
    | None => unauthenticated
    | Some u =>
      if dict_is_empty u then unauthenticated
      else if role_is_admin u then inr u
      else if denied (get_permissions u) then
        inl (mkHTTPException 403 d)
      else inr u
    end.

Lemma shape_401 check denied d (current_user : option UserDict) :
  checker_shape check denied d ->
  (raises (check current_user) 401 <-> no_principal current_user).
Proof.
  intros Hs. rewrite (Hs current_user), no_principal_iff. unfold raises.
  destruct current_user as [u|]; simpl.
  - destruct (dict_is_empty u); simpl.
    + split; [reflexivity | intros _; eexists; reflexivity].
    + split; [|discriminate]. intros [e He].
      destruct (role_is_admin u); [discriminate He|].
      destruct (denied _); discriminate He.
  - split; [reflexivity | intros _; eexists; reflexivity].
Qed.

Lemma shape_403 check denied d (u : UserDict) :
  checker_shape check denied d ->
  ~ no_principal (Some u) ->
  (raises (check (Some u)) 403 <->
   u_role u <> Some "admin" /\ denied (get_permissions u) = true) /\
  (allows (check (Some u)) u <->
   u_role u = Some "admin" \/ denied (get_permissions u) = false).
Proof.
  intros Hs Hp. apply present_not_empty in Hp.
  rewrite (Hs (Some u)), Hp. unfold raises, allows.
  rewrite <- role_is_admin_false, <- role_is_admin_iff.
  destruct (role_is_admin u); [|destruct (denied (get_permissions u))].
  - split; split; try (intros [e He]; discriminate He); intuition congruence.
  - split; split; try discriminate; try (intros _; eexists; reflexivity);
      intuition congruence.
  - split; split; try (intros [e He]; discriminate He); intuition congruence.
Qed.

Lemma permission_checker_shape (permission : string) :
  checker_shape (permission_checker permission)
    (fun held => negb (str_in permission held)) (PermissionDenied permission).
Proof. intros [u|]; reflexivity. Qed.

Lemma any_permission_checker_shape (permissions : list string) :
  checker_shape (any_permission_checker permissions)
    (fun held => negb (existsb (fun p => str_in p held) permissions))
    (PermissionDeniedOneOf permissions).
Proof. intros [u|]; reflexivity. Qed.

Lemma all_permissions_checker_shape (permissions : list string) :
  checker_shape (all_permissions_checker permissions)
    (fun held => negb (forallb (fun p => str_in p held) permissions))
    (PermissionDeniedAllOf permissions).
Proof. intros [u|]; reflexivity. Qed.

(** What the bodies of the three closures check.  Each raises 401 exactly
    when no principal is present.  Given a principal, the single check
    raises 403 exactly when the role is not admin and the permission is not
    held, the any-of check exactly when the role is not admin and none of
    the listed permissions is held, and the all-of check exactly when the
    role is not admin and some listed permission is missing; in every other
    case the principal is returned, so a principal of role admin always
    passes. *)
Lemma checker_bodies_spec
    (permission : string) (permissions : list string)
    (current_user : option UserDict) :
  (raises (permission_checker permission current_user) 401 <->
   no_principal current_user) /\
  (raises (any_permission_checker permissions current_user) 401 <->
   no_principal current_user) /\
  (raises (all_permissions_checker permissions current_user) 401 <->
   no_principal current_user) /\
  (forall u, current_user = Some u -> ~ no_principal current_user ->
    let held := get_permissions u in
    (raises (permission_checker permission current_user) 403 <->
     u_role u <> Some "admin" /\ ~ In permission held) /\
    (raises (any_permission_checker permissions current_user) 403 <->
     u_role u <> Some "admin" /\
     forall p, In p permissions -> ~ In p held) /\
    (raises (all_permissions_checker permissions current_user) 403 <->
     u_role u <> Some "admin" /\
     exists p, In p permissions /\ ~ In p held) /\
    (allows (permission_checker permission current_user) u <->
     u_role u = Some "admin" \/ In permission held) /\
    (allows (any_permission_checker permissions current_user) u <->
     u_role u = Some "admin" \/
     exists p, In p permissions /\ In p held) /\
    (allows (all_permissions_checker permissions current_user) u <->
     u_role u = Some "admin" \/
     forall p, In p permissions -> In p held) /\
    (u_role u = Some "admin" ->
     allows (permission_checker permission current_user) u /\
     allows (any_permission_checker permissions current_user) u /\
     allows (all_permissions_checker permissions current_user) u)).
Proof.
  pose proof (permission_checker_shape permission) as S1.
  pose proof (any_permission_checker_shape permissions) as S2.
  pose proof (all_permissions_checker_shape permissions) as S3.
  split; [exact (shape_401 _ _ _ _ S1)|].
  split; [exact (shape_401 _ _ _ _ S2)|].
  split; [exact (shape_401 _ _ _ _ S3)|].
  intros u -> Hp held.
  destruct (shape_403 _ _ _ u S1 Hp) as [R1 A1].
  destruct (shape_403 _ _ _ u S2 Hp) as [R2 A2].
  destruct (shape_403 _ _ _ u S3 Hp) as [R3 A3].
  fold held in R1, R2, R3, A1, A2, A3.
  rewrite negb_true_iff, str_in_false in R1.
  rewrite negb_true_iff, any_in_false in R2.
  rewrite negb_true_iff, all_in_false in R3.
  rewrite negb_false_iff, str_in_In in A1.
  rewrite negb_false_iff, existsb_exists in A2.
  rewrite negb_false_iff, forallb_forall in A3.
  repeat split; try tauto.
  - intros H. apply A2 in H. destruct H as [H|[p [Hp' Hin]]]; [now left|].
    right. exists p. split; [assumption | now apply str_in_In].
  - intros H. apply A2. destruct H as [H|[p [Hp' Hin]]]; [now left|].
    right. exists p. split; [assumption | now apply str_in_In].
  - intros H. apply A3 in H. destruct H as [H|H]; [now left|].
    right. intros p Hp'. apply str_in_In. now apply H.
  - intros H. apply A3. destruct H as [H|H]; [now left|].
    right. intros p Hp'. apply str_in_In. now apply H.
Qed.

(** The bodies on the analyst of the example scenario, and on an admin
    without any listed permission. *)
Example checker_bodies_scenario :
  let analyst :=
    mkUserDict (Some "user-1") (Some "t1") (Some "customer") (Some "analyst")
      (Some ["alerts:read"; "alerts:write"]) None in
  let admin :=
    mkUserDict (Some "user-2") (Some "t1") (Some "customer") (Some "admin")
      (Some []) None in
  permission_checker "alerts:delete" (Some analyst) =
    inl (mkHTTPException 403 (PermissionDenied "alerts:delete")) /\
  permission_checker "alerts:write" (Some analyst) = inr analyst /\
  any_permission_checker ["alerts:delete"; "alerts:read"] (Some analyst) =
    inr analyst /\
  all_permissions_checker ["alerts:delete"; "alerts:read"] (Some analyst) =
    inl (mkHTTPException 403
           (PermissionDeniedAllOf ["alerts:delete"; "alerts:read"])) /\
  all_permissions_checker ["alerts:delete"; "alerts:read"] (Some admin) =
    inr admin /\
  permission_checker "alerts:read" None =
    inl (mkHTTPException 401 AuthenticationRequired).
Proof. repeat split. Qed.

(** C2.  The three factories never return a checker.  The [def] statement
    of each closure evaluates the default [Depends(get_db)] of its
    parameter [db], and the module binds neither [Depends] nor [get_db]:
    calling a factory, with any permission or list of permissions, raises
    [NameError] for the name [Depends].  So no 401 and no 403 is ever
    raised, although the closure the factory was to return raises 401
    without a principal and 403 for a principal that lacks the permission,
    as its body shows. *)
Theorem permission_factories_raise_NameError
    (permission : string) (permissions : list string) :
  str_in "Depends" module_names = false /\
  str_in "get_db" module_names = false /\
  require_permission permission = inl (mkNameError "Depends") /\
  require_any_permission permissions = inl (mkNameError "Depends") /\
  require_all_permissions permissions = inl (mkNameError "Depends") /\
  require_permission "alerts:read" = inl (mkNameError "Depends") /\
  (forall check,
     require_permission permission <> inr check /\
     require_any_permission permissions <> inr check /\
     require_all_permissions permissions <> inr check) /\
  raises (permission_checker "alerts:read" None) 401.
Proof.
  repeat split; try reflexivity; try discriminate.
  eexists. reflexivity.
Qed.

(** A viewer of tenant [t1] holding [alerts:read] only. *)
Definition viewer_t1 : UserDict :=
  mkUserDict (Some "user-1") (Some "t1") (Some "customer") (Some "viewer")
    (Some ["alerts:read"]) None.

(** The resource rule with the tenant alone deciding, as the claim reads:
    super admin, or the same tenant, or admin of the same tenant. *)
Definition tenant_only_rule (user : UserDict) (resource_tenant_id : string)
    : Prop :=
  u_is_super_admin user = Some true \/
  str_of_tenant_id (u_tenant_id user) = resource_tenant_id \/
  (u_role user = Some "admin" /\
   str_of_tenant_id (u_tenant_id user) = resource_tenant_id).

(** C3, as stated, fails: a viewer asking for a permission it does not hold
    on a resource of its own tenant satisfies the rule of the claim and is
    refused by [can_access_resource]. *)
Lemma can_access_resource_same_tenant_refused :
  tenant_only_rule viewer_t1 "t1" /\
  can_access_resource viewer_t1 "t1" "alerts:delete" = false.
Proof.
  split; [right; left; reflexivity | reflexivity].
Qed.

(** C3, amended. [can_access_resource] returns true exactly when the user is
    super admin, or the user's tenant id (in string form) equals the
    resource's tenant id and the user either has role admin or holds the
    required permission.  A user that is not super admin and whose tenant id
    differs from the resource's is refused whatever its role and
    permissions. *)
Theorem can_access_resource_spec
    (user : UserDict) (resource_tenant_id permission : string) :
  (can_access_resource user resource_tenant_id permission = true <->
   u_is_super_admin user = Some true \/
   (str_of_tenant_id (u_tenant_id user) = resource_tenant_id /\
    (u_role user = Some "admin" \/ In permission (get_permissions user)))) /\
  (u_is_super_admin user <> Some true ->
   str_of_tenant_id (u_tenant_id user) <> resource_tenant_id ->
   can_access_resource user resource_tenant_id permission = false).
Proof.
  unfold can_access_resource.
  rewrite <- role_is_admin_iff, <- str_in_In.
  destruct (u_is_super_admin user) as [[|]|]; simpl;
    try (split; [split; [intros _; now left | reflexivity] | congruence]).
  all: destruct (String.eqb_spec (str_of_tenant_id (u_tenant_id user))
                                 resource_tenant_id) as [E|E]; simpl.
  all: destruct (role_is_admin user); simpl.
  all: split; [split |]; intros; try reflexivity; try congruence;
         try discriminate; intuition congruence.
Qed.

End RbacProperties.

(** ** The inventory orchestrator *)

Section OrchestratorProperties.

Import Inventory.
Import InventoryService.

Variable post :
  string -> json -> list (string * option string) -> Z ->
  exc AIService.Response.
Variable json_loads : string -> option json.
Variable float_of_str : string -> option float.
Variable int_of_str : string -> option Z.
Variable str_of_exn : exn -> string.

Abbreviation ai_process_item :=
  (AIService.process_item post json_loads float_of_str int_of_str str_of_exn).
Abbreviation service_process_item :=
  (process_item post json_loads float_of_str int_of_str str_of_exn).

(** C5. With an AI pipeline configured, the status of the item is the image
    of the AI decision under approved to approved, rejected to rejected,
    pending to pending, flag to pending, and processed_by is ai.  Without
    one, the item gets status approved, processed_by rule, the comment
    Auto-approved: No AI configuration, and risk score 0. *)
Theorem process_item_status
    (db : gmap string Item.t) (tenant_id : string)
    (svc : AIService.t) (equipment : EquipmentData.t) :
  (let item := Processed.item
                 (service_process_item (mk db tenant_id (Some svc)) equipment) in
   decision_status_map
     !! Decision_value (AIOutput.decision (ai_process_item svc equipment)) =
     Some (Item.status item) /\
   Item.processed_by item = "ai") /\
  (let item := Processed.item
                 (service_process_item (mk db tenant_id None) equipment) in
   Item.status item = "approved" /\
   Item.processed_by item = "rule" /\
   Item.inventory_comments item = "Auto-approved: No AI configuration" /\
   Item.risk_score item = 0).
Proof.
  split.
  - cbv zeta. unfold process_item. simpl.
    split; [|reflexivity].
    destruct (AIOutput.decision (ai_process_item svc equipment));
      vm_compute; reflexivity.
  - cbv zeta. unfold process_item. simpl. repeat split.
Qed.

(** [list(set(l))] holds each element of [l] once. *)
Lemma list_of_set_spec (l : list string) :
  NoDup (list_of_set l) /\ (forall x, x ∈ list_of_set l <-> x ∈ l).
Proof.
  unfold list_of_set. split.
  - apply NoDup_elements.
  - intros x. rewrite elem_of_elements. apply elem_of_list_to_set.
Qed.

Lemma list_of_set_as_set (l : list string) :
  list_to_set (list_of_set l) = (list_to_set l : gset string).
Proof. unfold list_of_set. apply list_to_set_elements_L. Qed.

(** C8. The tags of the constructed item are, as a set, the union of the
    equipment tags and the AI-suggested tags, and no tag occurs twice in
    them (their order is that of the set and is not fixed).  Merging a, b
    with b, c gives the set a, b, c, and merging a list of tags with itself
    gives the set of that list. *)
Theorem process_item_tags
    (db : gmap string Item.t) (tenant_id : string)
    (svc : AIService.t) (equipment : EquipmentData.t) :
  (let item := Processed.item
                 (service_process_item (mk db tenant_id (Some svc)) equipment) in
   let suggested := AIOutput.suggested_tags (ai_process_item svc equipment) in
   (list_to_set (Item.tags item) : gset string) =
     list_to_set (EquipmentData.tags equipment) ∪ list_to_set suggested /\
   NoDup (Item.tags item) /\
   (forall x, x ∈ Item.tags item <->
              x ∈ EquipmentData.tags equipment \/ x ∈ suggested)) /\
  (forall a b c : string,
     (list_to_set (list_of_set ([a; b] ++ [b; c])) : gset string) =
     {[a; b; c]}) /\
  (forall l : list string,
     (list_to_set (list_of_set (l ++ l)) : gset string) = list_to_set l) /\
  list_of_set (["a"; "b"] ++ ["b"; "c"]) ≡ₚ ["a"; "b"; "c"].
Proof.
  split; [|split; [|split]].
  - cbv zeta. unfold process_item. simpl.
    split; [|split].
    + rewrite list_of_set_as_set. apply list_to_set_app_L.
    + apply list_of_set_spec.
    + intros x. rewrite (proj2 (list_of_set_spec _)). apply elem_of_app.
  - intros a b c. rewrite list_of_set_as_set. apply set_eq. intros x.
    rewrite elem_of_list_to_set. simpl.
    rewrite !elem_of_cons, !elem_of_union, !elem_of_singleton, elem_of_nil.
    tauto.
  - intros l. rewrite list_of_set_as_set. apply set_eq. intros x.
    rewrite !elem_of_list_to_set, elem_of_app. tauto.
  - apply NoDup_Permutation.
    + apply list_of_set_spec.
    + apply NoDup_cons; split; [|apply NoDup_cons; split; [|apply NoDup_singleton]].
      * intros H. apply elem_of_cons in H as [H|H]; [discriminate H|].
        apply list_elem_of_singleton in H. discriminate H.
      * intros H. apply list_elem_of_singleton in H. discriminate H.
    + intros x. rewrite (proj2 (list_of_set_spec _)). simpl.
      rewrite !elem_of_cons, elem_of_nil. tauto.
Qed.

End OrchestratorProperties.

Section ManualDecision.

Import Inventory.
Import InventoryService.

(** An equipment record with a host name only. *)
Definition srv1 : EquipmentData.t :=
  EquipmentData.mk None (Some "srv1") None None None None None None None
    None None None None [] [] "n8n".

(** An item the AI pipeline rejected. *)
Definition item_rejected_by_ai : Item.t :=
  Item.mk "t1" "n8n" None (Some "srv1") None None None None None None None
    None None None None [] 80 "rejected" "unknown device" "unknown device"
    [] srv1 "ai".

(** A service whose store holds that item under the id [item-1]. *)
Definition service_with_item : t :=
  mk (<["item-1" := item_rejected_by_ai]> ∅) "t1" None.

(** C9, on the code.  [approve_item] and [reject_item] hand the three
    entries status, inventory_comments and processed_by = manual to
    [update_item], but [update_item] drops them: the service and every stored
    item are as before and only the reply success comes back.  After
    approving the item rejected by the AI, its status is still rejected, its
    processed_by still ai and its comments the old ones. *)
Theorem manual_decision_not_recorded :
  (forall self item_id comments,
     approve_item self item_id comments =
       update_item self item_id
         [("status", "approved"); ("inventory_comments", comments);
          ("processed_by", "manual")] /\
     reject_item self item_id comments =
       update_item self item_id
         [("status", "rejected"); ("inventory_comments", comments);
          ("processed_by", "manual")] /\
     approve_item self item_id comments = (self, [("status", "success")]) /\
     reject_item self item_id comments = (self, [("status", "success")])) /\
  (let after := fst (approve_item service_with_item "item-1" "looks fine") in
   Item.status <$> db after !! "item-1" = Some "rejected" /\
   Item.processed_by <$> db after !! "item-1" = Some "ai" /\
   Item.inventory_comments <$> db after !! "item-1" = Some "unknown device").
Proof.
  split.
  - intros self item_id comments. repeat split.
  - cbv zeta. unfold approve_item, update_item, service_with_item. simpl.
    rewrite lookup_insert_eq. repeat split.
Qed.

End ManualDecision.

(** ** Prompt construction *)

Section PromptProperties.

Import Inventory.
Import AIService.

Lemma starts_with_head (c a : ascii) (k s : string) :
  Ascii.eqb a c = false -> starts_with (String c k) (String a s) = false.
Proof.
  intros H. simpl. rewrite Ascii.eqb_sym, H. reflexivity.
Qed.

(** Nothing is replaced in a text without the first character of [old]. *)
Lemma replace_from_no_char (c : ascii) (k n s : string) :
  has_char c s = false -> replace_from 0 (String c k) n s = s.
Proof.
  induction s as [|a s IH]; [reflexivity|].
  simpl has_char. intros H. apply orb_false_iff in H as [Ha Hs].
  cbn [replace_from]. rewrite (starts_with_head _ _ _ _ Ha). now rewrite IH.
Qed.

(** A leading part without that character is copied. *)
Lemma replace_from_app_no_char (c : ascii) (k n pre rest : string) :
  has_char c pre = false ->
  replace_from 0 (String c k) n (pre +:+ rest) =
  pre +:+ replace_from 0 (String c k) n rest.
Proof.
  induction pre as [|a pre IH]; [reflexivity|].
  simpl has_char. intros H. apply orb_false_iff in H as [Ha Hs].
  change (String a pre +:+ rest) with (String a (pre +:+ rest)).
  cbn [replace_from]. rewrite (starts_with_head _ _ _ _ Ha), (IH Hs). reflexivity.
Qed.

Lemma has_char_app (c : ascii) (a b : string) :
  has_char c (a +:+ b) = has_char c a || has_char c b.
Proof.
  induction a as [|x a IH]; [reflexivity|].
  change (String x a +:+ b) with (String x (a +:+ b)). simpl.
  now rewrite IH, orb_assoc.
Qed.

Lemma has_char_join (c : ascii) (sep : string) (l : list string) :
  has_char c sep = false ->
  (forall t, In t l -> has_char c t = false) ->
  has_char c (py_join sep l) = false.
Proof.
  intros Hsep. unfold py_join. induction l as [|x l IH]; intros Hl.
  - reflexivity.
  - destruct l as [|y l].
    + apply Hl. now left.
    + change (String.concat sep (x :: y :: l))
        with (x +:+ sep +:+ String.concat sep (y :: l)).
      rewrite !has_char_app, Hsep, (Hl x (or_introl eq_refl)), IH;
        [reflexivity|].
      intros t Ht. apply Hl. now right.
Qed.

Lemma starts_with_length (K s : string) :
  starts_with K s = true -> (String.length K <= String.length s)%nat.
Proof.
  revert s. induction K as [|c K IH]; intros s H; simpl; [lia|].
  destruct s as [|a s]; [discriminate H|].
  simpl in H. apply andb_true_iff in H as [_ H]. apply IH in H. simpl. lia.
Qed.

(** Whether [old] matches does not depend on what follows a character that
    [old] does not hold. *)
Lemma starts_with_app (K s R : string) (r : ascii) :
  has_char r K = false ->
  starts_with K (s +:+ String r R) = starts_with K s.
Proof.
  revert s. induction K as [|c K IH]; intros s H; [reflexivity|].
  simpl in H. apply orb_false_iff in H as [Hc HK].
  destruct s as [|a s].
  - change (EmptyString +:+ String r R) with (String r R). simpl.
    now rewrite Hc.
  - change (String a s +:+ String r R) with (String a (s +:+ String r R)).
    simpl. now rewrite (IH _ HK).
Qed.

(** A replacement pass splits at a point where the right part starts with a
    character that [old] holds at most in its first place: no occurrence of
    [old] runs across such a point. *)
Lemma replace_from_app (K n A R : string) (k : nat) :
  splits_before K R = true -> (k <= String.length A)%nat ->
  replace_from k K n (A +:+ R) =
  replace_from k K n A +:+ replace_from 0 K n R.
Proof.
  intros HR. unfold splits_before in HR.
  destruct K as [|c K]; [discriminate HR|].
  destruct R as [|r R]; [discriminate HR|].
  apply negb_true_iff in HR.
  revert k. induction A as [|a A IH]; intros k Hk.
  - simpl in Hk. assert (k = 0%nat) as -> by lia. reflexivity.
  - change (String a A +:+ String r R) with (String a (A +:+ String r R)).
    destruct k as [|k].
    + cbn [replace_from].
      assert (Hs : starts_with (String c K) (String a (A +:+ String r R)) =
                   starts_with (String c K) (String a A))
        by (simpl; now rewrite (starts_with_app _ _ _ _ HR)).
      rewrite Hs. destruct (starts_with (String c K) (String a A)) eqn:Hm.
      * apply starts_with_length in Hm. simpl in Hm.
        rewrite IH by (simpl; lia). now rewrite append_assoc.
      * rewrite IH by lia. reflexivity.
    + cbn [replace_from]. simpl in Hk. apply IH. lia.
Qed.

(** One pass of the loop over a prompt [A ++ X ++ B], where [X] is the
    placeholder or the text put in its place: the pass splits before [X], and
    what it does to [X] and where it resumes is found by evaluation. *)
Ltac replace_step :=
  rewrite replace_from_app by (reflexivity || apply Nat.le_0_l);
  match goal with
  | |- context [replace_from 0 ?K ?n (?X +:+ ?B)] =>
    first
      [ replace (replace_from 0 K n (X +:+ B))
          with (X +:+ replace_from 0 K n B) by (vm_compute; reflexivity)
      | replace (replace_from 0 K n (X +:+ B))
          with (n +:+ replace_from 0 K n B) by (vm_compute; reflexivity) ]
  end.

Lemma build_prompt_absent_field (self : t) (data : EquipmentData.t)
    (pre post name : string) (get : EquipmentData.t -> option string) :
  In (name, get) optional_fields ->
  get data = None \/ get data = Some EmptyString ->
  template_of self = pre +:+ placeholder name +:+ post ->
  _build_prompt self data =
  replace_all (replacements data) pre +:+ "Unknown" +:+
  replace_all (replacements data) post.
Proof.
  intros Hin Habs Ht. unfold _build_prompt. rewrite Ht.
  unfold optional_fields in Hin. simpl in Hin.
  repeat (destruct Hin as [Hin|Hin];
    [ inversion Hin; subst name get; clear Hin;
      change (placeholder ?n) with ("{" +:+ n +:+ "}");
      unfold replace_all, replacements; cbn [fold_left];
      destruct Habs as [-> | ->]; cbn [str_or];
      unfold py_replace; do 14 replace_step; reflexivity |]).
  contradiction.
Qed.

Lemma build_prompt_no_tags (self : t) (data : EquipmentData.t)
    (pre post : string) :
  template_of self = pre +:+ "{tags}" +:+ post ->
  EquipmentData.tags data = [] ->
  _build_prompt self data =
  replace_all (replacements data) pre +:+ "None" +:+
  replace_all (replacements data) post.
Proof.
  intros Ht Hnil. unfold _build_prompt. rewrite Ht.
  unfold replace_all, replacements; cbn [fold_left].
  rewrite Hnil. unfold py_replace. do 14 replace_step. reflexivity.
Qed.

Lemma build_prompt_tags (self : t) (data : EquipmentData.t)
    (pre post : string) :
  template_of self = pre +:+ "{tags}" +:+ post ->
  EquipmentData.tags data <> [] ->
  has_char "{" pre = false ->
  (forall tag, In tag (EquipmentData.tags data) -> has_char "{" tag = false) ->
  _build_prompt self data =
  pre +:+ py_join ", " (EquipmentData.tags data) +:+
  replace_all (replacements data) post.
Proof.
  intros Ht Hne Hpre Htags. unfold _build_prompt. rewrite Ht.
  assert (HJ : has_char "{" (py_join ", " (EquipmentData.tags data)) = false)
    by (apply has_char_join; [reflexivity | exact Htags]).
  unfold replace_all, replacements; cbn [fold_left].
  destruct (EquipmentData.tags data) as [|tag tags] eqn:E; [congruence|].
  remember (py_join ", " (tag :: tags)) as J eqn:EJ.
  unfold py_replace. do 13 replace_step.
  rewrite !(replace_from_no_char _ _ _ pre Hpre).
  rewrite (replace_from_app_no_char _ _ _ _ _ Hpre).
  rewrite (replace_from_app_no_char _ _ _ _ _ HJ). reflexivity.
Qed.

(** The characters a placeholder is written with: the braces, the
    underscore and the lowercase letters. *)
Definition placeholder_chars : string := "{}_abcdefghijklmnopqrstuvwxyz".

Fixpoint last_char (s : string) : option ascii :=
  match s with
  | EmptyString => None
  | String c EmptyString => Some c
  | String _ s' => last_char s'
  end.

(** The text is empty or ends with a character that no placeholder holds. *)
Definition ends_outside_placeholder (pre : string) : bool :=
  match last_char pre with
  | None => true
  | Some c => negb (has_char c placeholder_chars)
  end.

Fixpoint chars_within (big s : string) : bool :=
  match s with
  | EmptyString => true
  | String x s' => has_char x big && chars_within big s'
  end.

Lemma last_char_None (s : string) : last_char s = None -> s = EmptyString.
Proof.
  induction s as [|a s IH]; [reflexivity|]. simpl.
  destruct s as [|b s]; [discriminate|]. intros H. specialize (IH H).
  discriminate IH.
Qed.

Lemma last_char_Some (s : string) (c : ascii) :
  last_char s = Some c -> exists s0, s = s0 +:+ String c EmptyString.
Proof.
  induction s as [|a s IH]; [discriminate|]. simpl.
  destruct s as [|b s].
  - intros [= ->]. now exists EmptyString.
  - intros H. destruct (IH H) as [s0 E]. exists (String a s0).
    change (String a s0 +:+ String c EmptyString)
      with (String a (s0 +:+ String c EmptyString)).
    now rewrite <- E.
Qed.

Lemma has_char_within (c : ascii) (big s : string) :
  chars_within big s = true -> has_char c big = false -> has_char c s = false.
Proof.
  intros Hs Hc. induction s as [|x s IH]; [reflexivity|].
  simpl in Hs. apply andb_true_iff in Hs as [Hx Hs]. simpl.
  rewrite (IH Hs), orb_false_r.
  destruct (Ascii.eqb_spec x c) as [->|]; [congruence | reflexivity].
Qed.

(** A pass copies a character that [old] does not hold and works on the
    two sides of it separately. *)
Lemma replace_from_outside (old new X R : string) (c : ascii) :
  old <> EmptyString -> has_char c old = false ->
  replace_from 0 old new (X +:+ String c R) =
  replace_from 0 old new X +:+ String c (replace_from 0 old new R).
Proof.
  intros Hne Hc. destruct old as [|a old']; [congruence|].
  simpl in Hc. apply orb_false_iff in Hc as [Ha Hold].
  rewrite replace_from_app; [|simpl; now rewrite Hold|apply Nat.le_0_l].
  f_equal. cbn [replace_from starts_with]. now rewrite Ha.
Qed.

(** One pass for a placeholder over a text that ends outside the
    placeholders. *)
Ltac outside_step Hc :=
  match goal with
  | |- context [replace_from 0 ?K ?n (?X +:+ String ?c ?R)] =>
    rewrite (replace_from_outside K n X R c)
      by (first [discriminate
                | apply (has_char_within _ placeholder_chars);
                  [reflexivity | exact Hc]])
  end;
  cbn [replace_from].

Lemma build_prompt_tags_outside (self : t) (data : EquipmentData.t)
    (pre post : string) :
  template_of self = pre +:+ "{tags}" +:+ post ->
  EquipmentData.tags data <> [] ->
  ends_outside_placeholder pre = true ->
  (forall tag, In tag (EquipmentData.tags data) -> has_char "{" tag = false) ->
  _build_prompt self data =
  replace_all (replacements data) pre +:+
  py_join ", " (EquipmentData.tags data) +:+
  replace_all (replacements data) post.
Proof.
  intros Ht Hne Hend Htags.
  unfold ends_outside_placeholder in Hend.
  destruct (last_char pre) as [c|] eqn:Hlast.
  2:{ apply last_char_None in Hlast. subst pre.
      rewrite (build_prompt_tags self data EmptyString post Ht Hne eq_refl
                 Htags).
      reflexivity. }
  apply negb_true_iff in Hend.
  destruct (last_char_Some _ _ Hlast) as [pre0 Epre].
  unfold _build_prompt. rewrite Ht.
  assert (HJ : has_char "{" (py_join ", " (EquipmentData.tags data)) = false)
    by (apply has_char_join; [reflexivity | exact Htags]).
  unfold replace_all, replacements; cbn [fold_left].
  destruct (EquipmentData.tags data) as [|tag tags] eqn:E; [congruence|].
  remember (py_join ", " (tag :: tags)) as J eqn:EJ.
  unfold py_replace. do 13 replace_step.
  rewrite Epre. do 13 outside_step Hend.
  rewrite !append_assoc.
  change (String c EmptyString +:+ J +:+ ?B) with (String c (J +:+ B)).
  do 2 outside_step Hend.
  rewrite (replace_from_app_no_char _ _ _ _ _ HJ).
  rewrite !append_assoc. reflexivity.
Qed.

(** A service that uses [template] and the provider [ollama]. *)
Definition service_with_template (template : string) : t :=
  init py_lower
    (AIConfig.mk "ollama" None None "llama3" 0.5%float 1000 template 30).

(** An equipment record without any optional field and without tags. *)
Definition bare_equipment : EquipmentData.t :=
  EquipmentData.mk None None None None None None None None None None None
    None None [] [] "n8n".

(** A record whose first tag is written like the source placeholder. *)
Definition braced_tag_equipment : EquipmentData.t :=
  EquipmentData.mk None None None None None None None None None None None
    None None ["{source}"; "b"] [] "n8n".

(** C7, as stated, fails on the tags.  For a record without tags the tags
    placeholder is rendered as the text None, which is neither Unknown nor
    the tags joined by a comma (the empty text).  And a tag that is written
    like a placeholder is not rendered as it is: the replacement of the
    source, which runs after that of the tags, rewrites it. *)
Lemma build_prompt_no_tags_renders_None :
  _build_prompt (service_with_template "Tags: {tags}") bare_equipment =
    "Tags: None" /\
  "Tags: " +:+ py_join ", " (EquipmentData.tags bare_equipment) = "Tags: " /\
  "Tags: " +:+ py_join "," (EquipmentData.tags bare_equipment) = "Tags: " /\
  "Tags: None" <> "Tags: Unknown" /\
  "Tags: None" <> "Tags: " /\
  _build_prompt (service_with_template "Tags: {tags}") braced_tag_equipment =
    "Tags: n8n, b" /\
  "Tags: " +:+ py_join ", " (EquipmentData.tags braced_tag_equipment) =
    "Tags: {source}, b" /\
  "Tags: " +:+ py_join "," (EquipmentData.tags braced_tag_equipment) =
    "Tags: {source},b" /\
  "Tags: n8n, b" <> "Tags: {source}, b" /\
  "Tags: n8n, b" <> "Tags: {source},b".
Proof.
  repeat split; try reflexivity; discriminate.
Qed.

(** C7, amended.  Take a template and one placeholder in it.  For each
    of the twelve optional text fields (hostname, ip_address, mac_address,
    os, os_version, asset_type, manufacturer, model, serial_number, location,
    department, owner), when the field is absent or empty the prompt is the
    rendering of what precedes the placeholder, then Unknown, then the
    rendering of what follows.  For the tags placeholder it is None in the
    middle when the record has no tags.  When it has tags, none of them
    with an opening brace, the middle is the tags joined by a comma and a
    space, provided that what precedes the placeholder is empty or ends
    with a character that is not a brace, an underscore or a lowercase
    letter, or holds no opening brace at all (it is then rendered as it
    is). *)
Theorem build_prompt_rendering (self : t) (data : EquipmentData.t)
    (pre post : string) :
  (forall name get,
     In (name, get) optional_fields ->
     get data = None \/ get data = Some EmptyString ->
     template_of self = pre +:+ placeholder name +:+ post ->
     _build_prompt self data =
     replace_all (replacements data) pre +:+ "Unknown" +:+
     replace_all (replacements data) post) /\
  (template_of self = pre +:+ "{tags}" +:+ post ->
   (EquipmentData.tags data = [] ->
    _build_prompt self data =
    replace_all (replacements data) pre +:+ "None" +:+
    replace_all (replacements data) post) /\
   (EquipmentData.tags data <> [] ->
    has_char "{" pre = false ->
    (forall tag, In tag (EquipmentData.tags data) ->
                 has_char "{" tag = false) ->
    _build_prompt self data =
    pre +:+ py_join ", " (EquipmentData.tags data) +:+
    replace_all (replacements data) post) /\
   (EquipmentData.tags data <> [] ->
    ends_outside_placeholder pre = true ->
    (forall tag, In tag (EquipmentData.tags data) ->
                 has_char "{" tag = false) ->
    _build_prompt self data =
    replace_all (replacements data) pre +:+
    py_join ", " (EquipmentData.tags data) +:+
    replace_all (replacements data) post)).
Proof.
  split.
  - intros name get Hin Habs Ht.
    exact (build_prompt_absent_field self data pre post name get Hin Habs Ht).
  - intros Ht. split; [|split].
    + exact (build_prompt_no_tags self data pre post Ht).
    + exact (build_prompt_tags self data pre post Ht).
    + exact (build_prompt_tags_outside self data pre post Ht).
Qed.

(** A template that names the owner and the tags. *)
Example build_prompt_owner_and_tags :
  _build_prompt (service_with_template "- Owner: {owner}; tags: {tags}")
    bare_equipment = "- Owner: Unknown; tags: None".
Proof.
  rewrite (build_prompt_absent_field
             (service_with_template "- Owner: {owner}; tags: {tags}")
             bare_equipment "- Owner: " "; tags: {tags}"
             "owner" EquipmentData.owner);
    [reflexivity | unfold optional_fields; simpl; tauto
     | left; reflexivity | reflexivity].
Qed.

(** A service with the default configuration of the template. *)
Definition default_service : t := service_with_template EmptyString.

(** [DEFAULT_PROMPT] before and after its host name placeholder. *)
Definition default_head : string :=
  py_slice DEFAULT_PROMPT 0 (py_find DEFAULT_PROMPT "{hostname}").

Definition default_tail : string :=
  py_slice DEFAULT_PROMPT
    (py_find DEFAULT_PROMPT "{hostname}" +
     Z.of_nat (String.length "{hostname}"))
    (Z.of_nat (String.length DEFAULT_PROMPT)).

(** The default template, for any record without a host name. *)
Example default_prompt_hostname (data : EquipmentData.t) :
  EquipmentData.hostname data = None ->
  _build_prompt default_service data =
  replace_all (replacements data) default_head +:+ "Unknown" +:+
  replace_all (replacements data) default_tail.
Proof.
  intros H.
  apply (build_prompt_absent_field default_service data
           default_head default_tail "hostname" EquipmentData.hostname).
  - unfold optional_fields. simpl. tauto.
  - now left.
  - vm_compute. reflexivity.
Qed.

(** [DEFAULT_PROMPT] before and after its tags placeholder. *)
Definition default_before_tags : string :=
  py_slice DEFAULT_PROMPT 0 (py_find DEFAULT_PROMPT "{tags}").

Definition default_after_tags : string :=
  py_slice DEFAULT_PROMPT
    (py_find DEFAULT_PROMPT "{tags}" + Z.of_nat (String.length "{tags}"))
    (Z.of_nat (String.length DEFAULT_PROMPT)).

(** The default template, for any record with tags that hold no opening
    brace: a space precedes the tags placeholder. *)
Example default_prompt_tags (data : EquipmentData.t) :
  EquipmentData.tags data <> [] ->
  (forall tag, In tag (EquipmentData.tags data) -> has_char "{" tag = false) ->
  _build_prompt default_service data =
  replace_all (replacements data) default_before_tags +:+
  py_join ", " (EquipmentData.tags data) +:+
  replace_all (replacements data) default_after_tags.
Proof.
  intros Hne Htags.
  apply (build_prompt_tags_outside default_service data
           default_before_tags default_after_tags);
    [vm_compute; reflexivity | exact Hne | vm_compute; reflexivity
     | exact Htags].
Qed.

(** The lines of the default prompt for the record without any field. *)
Example default_prompt_bare :
  forallb
    (fun line =>
       0 <=? py_find (_build_prompt default_service bare_equipment) line)
    [ "- Hostname: Unknown";
      "- IP Address: Unknown";
      "- MAC Address: Unknown";
      "- Operating System: Unknown Unknown";
      "- Asset Type: Unknown";
      "- Manufacturer: Unknown";
      "- Model: Unknown";
      "- Serial Number: Unknown";
      "- Location: Unknown";
      "- Department: Unknown";
      "- Owner: Unknown";
      "- Tags: None";
      "- Source: n8n" ] = true /\
  py_find (_build_prompt default_service bare_equipment) "{hostname}" = -1.
Proof. vm_compute. split; reflexivity. Qed.

End PromptProperties.

(** ** Response parsing *)

Section ParsingProperties.

Import Inventory.
Import AIService.

(** The first occurrence of a character comes after a text without it. *)
Lemma find_from_first (c : ascii) (pre rest : string) (i : Z) :
  has_char c pre = false ->
  find_from (String c EmptyString) (pre +:+ String c rest) i =
  i + Z.of_nat (String.length pre).
Proof.
  revert i. induction pre as [|a pre IH]; intros i Hpre.
  - change (EmptyString +:+ String c rest) with (String c rest).
    simpl. rewrite Ascii.eqb_refl. simpl. lia.
  - change (String a pre +:+ String c rest)
      with (String a (pre +:+ String c rest)).
    simpl in Hpre. apply orb_false_iff in Hpre as [Ha Hpre].
    cbn [find_from starts_with]. rewrite Ascii.eqb_sym, Ha. cbn [andb].
    rewrite (IH _ Hpre). cbn [String.length]. lia.
Qed.

Lemma rfind_from_none (c : ascii) (s : string) (i : Z) :
  has_char c s = false -> rfind_from (String c EmptyString) s i = -1.
Proof.
  revert i. induction s as [|a s IH]; intros i Hs; [reflexivity|].
  simpl in Hs. apply orb_false_iff in Hs as [Ha Hs].
  cbn [rfind_from starts_with]. rewrite (IH _ Hs), Ascii.eqb_sym, Ha.
  reflexivity.
Qed.

(** The last occurrence of a character comes before a text without it. *)
Lemma rfind_from_last (c : ascii) (x post : string) (i : Z) :
  0 <= i -> has_char c post = false ->
  rfind_from (String c EmptyString) (x +:+ String c post) i =
  i + Z.of_nat (String.length x).
Proof.
  revert i. induction x as [|a x IH]; intros i Hi Hpost.
  - change (EmptyString +:+ String c post) with (String c post).
    cbn [rfind_from starts_with]. rewrite (rfind_from_none _ _ _ Hpost).
    rewrite Ascii.eqb_refl. simpl. lia.
  - change (String a x +:+ String c post)
      with (String a (x +:+ String c post)).
    cbn [rfind_from]. rewrite (IH (i + 1)) by (assumption || lia).
    destruct (Z.leb_spec 0 (i + 1 + Z.of_nat (String.length x))) as [_|Hlt];
      [|lia].
    cbn [String.length]. lia.
Qed.

Lemma substring_skip (pre s : string) (n : nat) :
  String.substring (String.length pre) n (pre +:+ s) = String.substring 0 n s.
Proof.
  induction pre as [|a pre IH]; [reflexivity|].
  change (String a pre +:+ s) with (String a (pre +:+ s)). simpl. exact IH.
Qed.

Lemma substring_take (m post : string) :
  String.substring 0 (String.length m) (m +:+ post) = m.
Proof.
  induction m as [|a m IH].
  - simpl. destruct post; reflexivity.
  - change (String a m +:+ post) with (String a (m +:+ post)). simpl.
    now rewrite IH.
Qed.

Lemma clamp_index_in_range (len i : Z) :
  0 <= i <= len -> clamp_index len i = i.
Proof.
  intros H. unfold clamp_index.
  destruct (Z.ltb_spec i 0); [lia|].
  destruct (Z.ltb_spec i 0); [lia|].
  destruct (Z.ltb_spec len i); [lia | reflexivity].
Qed.

(** A slice that covers exactly the middle of three parts. *)
Lemma py_slice_middle (pre m post : string) :
  m <> EmptyString ->
  py_slice (pre +:+ m +:+ post)
    (Z.of_nat (String.length pre))
    (Z.of_nat (String.length pre) + Z.of_nat (String.length m)) = m.
Proof.
  intros Hm. unfold py_slice. rewrite !length_append.
  assert (0 < String.length m)%nat by (destruct m; [congruence | simpl; lia]).
  rewrite !clamp_index_in_range by lia.
  destruct (Z.leb_spec (Z.of_nat (String.length pre) + Z.of_nat (String.length m))
                       (Z.of_nat (String.length pre))); [lia|].
  rewrite Nat2Z.id.
  replace (Z.to_nat _) with (String.length m) by lia.
  rewrite substring_skip. apply substring_take.
Qed.

Lemma extract_json_braces (pre mid post : string) :
  has_char "{" pre = false -> has_char "}" post = false ->
  extract_json (pre +:+ "{" +:+ mid +:+ "}" +:+ post) = "{" +:+ mid +:+ "}".
Proof.
  intros Hpre Hpost.
  assert (Hf : py_find (pre +:+ "{" +:+ mid +:+ "}" +:+ post) "{" =
               0 + Z.of_nat (String.length pre))
    by exact (find_from_first "{" pre (mid +:+ "}" +:+ post) 0 Hpre).
  assert (Hr : py_rfind (pre +:+ "{" +:+ mid +:+ "}" +:+ post) "}" =
               0 + Z.of_nat (String.length (pre +:+ "{" +:+ mid))).
  { replace (pre +:+ "{" +:+ mid +:+ "}" +:+ post)
      with ((pre +:+ "{" +:+ mid) +:+ String "}" post)
      by (now rewrite !append_assoc).
    exact (rfind_from_last "}" _ post 0 (Z.le_refl 0) Hpost). }
  unfold extract_json. rewrite Hf, Hr.
  replace (pre +:+ "{" +:+ mid +:+ "}" +:+ post)
    with (pre +:+ ("{" +:+ mid +:+ "}") +:+ post)
    by (now rewrite !append_assoc).
  replace (0 + Z.of_nat (String.length pre))
    with (Z.of_nat (String.length pre)) by lia.
  replace (0 + Z.of_nat (String.length (pre +:+ "{" +:+ mid)) + 1)
    with (Z.of_nat (String.length pre) +
          Z.of_nat (String.length ("{" +:+ mid +:+ "}")))
    by (rewrite !length_append; simpl; lia).
  apply py_slice_middle. discriminate.
Qed.

(** Texts without a pair of braces in order give nothing to decode. *)
Example extract_json_degenerate :
  extract_json "no braces" = EmptyString /\
  extract_json "only { opens" = EmptyString /\
  extract_json "closes } only" = EmptyString /\
  extract_json "ends with }" = "}" /\
  extract_json "} before {" = EmptyString /\
  extract_json "so: {x{y}z} ok" = "{x{y}z}".
Proof. repeat split. Qed.

Variable post :
  string -> json -> list (string * option string) -> Z -> exc Response.
Variable json_loads : string -> option json.
Variable float_of_str : string -> option float.
Variable int_of_str : string -> option Z.
Variable str_of_exn : exn -> string.

Abbreviation the_output_of_parsed :=
  (output_of_parsed float_of_str int_of_str).
Abbreviation the_parse_content :=
  (parse_content json_loads float_of_str int_of_str).
Abbreviation the_process_item_try :=
  (process_item_try post json_loads float_of_str int_of_str).
Abbreviation the_process_item :=
  (process_item post json_loads float_of_str int_of_str str_of_exn).

Lemma bind_inr {A B : Type} (m : exc A) (k : A -> exc B) (b : B) :
  bind m k = inr b -> exists a, m = inr a /\ k a = inr b.
Proof.
  destruct m as [e|a]; simpl; [discriminate|]. intros H. now exists a.
Qed.




(** The HTTP exchange of [process_item]: what [client.post] is called with
    and what it gives back. *)
Definition request_of (self : t) (data : EquipmentData.t) : exc Response :=
  post (api_url_of (provider self))
    (payload_of self (_build_prompt self data))
    (_get_headers self)
    (AIConfig.timeout_seconds (config self)).

Definition decision_values : list string :=
  ["approved"; "rejected"; "pending"; "flag"].

Lemma Decision_of_unknown (s : string) :
  ~ In s decision_values -> Decision_of (JStr s) = inl (ValueError (JStr s)).
Proof.
  unfold decision_values. simpl. intros H. unfold Decision_of.
  repeat match goal with
  | |- context [String.eqb s ?x] =>
    destruct (String.eqb_spec s x); [exfalso; apply H; subst; tauto|]
  end.
  reflexivity.
Qed.

Lemma Decision_value_known (d : Decision) : In (Decision_value d) decision_values.
Proof. destruct d; simpl; tauto. Qed.

(** C4. [AIService.process_item] always returns an output.  Whatever
    exception the request, the decoding or the construction of the output
    raises, the result has decision pending, confidence 0.0 and the comment
    AI processing failed: followed by the text of the exception; this covers
    an error of the transport, a status outside 2xx, a body or a content
    that does not decode, a content that is not text, and a decision outside
    approved, rejected, pending, flag.  The decision returned is always one
    of these four, and after an exception it is never approved. *)
Theorem process_item_never_raises (self : t) (data : EquipmentData.t) :
  (forall e, the_process_item_try self data = inl e ->
     the_process_item self data =
     AIOutput.mk PENDING ("AI processing failed: " +:+ str_of_exn e)
       0%float [] 0 None) /\
  (forall out, the_process_item_try self data = inr out ->
     the_process_item self data = out) /\
  In (Decision_value (AIOutput.decision (the_process_item self data)))
     decision_values /\
  (forall e, the_process_item_try self data = inl e ->
     AIOutput.decision (the_process_item self data) <> APPROVE) /\
  (forall e, request_of self data = inl e ->
     the_process_item_try self data = inl e) /\
  (forall response, request_of self data = inr response ->
     ~ (200 <= status response <= 299) ->
     the_process_item_try self data =
     inl (HTTPStatusError (status response))) /\
  (forall response, request_of self data = inr response ->
     200 <= status response <= 299 ->
     (json_loads (text response) = None ->
      the_process_item_try self data =
      inl (JSONDecodeError (text response))) /\
     (forall result, json_loads (text response) = Some result ->
        (forall e, content_of self result = inl e ->
           the_process_item_try self data = inl e) /\
        (forall content, content_of self result = inr content ->
           the_process_item_try self data = the_parse_content content))) /\
  (forall content, (forall s, content <> JStr s) ->
     the_parse_content content = inl (AttributeError content "find")) /\
  (forall content, json_loads (extract_json content) = None ->
     the_parse_content (JStr content) =
     inl (JSONDecodeError (extract_json content))) /\
  (forall content kv s,
     json_loads (extract_json content) = Some (JObj kv) ->
     assoc "decision" kv = Some (JStr s) ->
     ~ In s decision_values ->
     the_parse_content (JStr content) = inl (ValueError (JStr s))).
Proof.
  unfold process_item, failed.
  split; [intros e ->; reflexivity|].
  split; [intros out ->; reflexivity|].
  split; [apply Decision_value_known|].
  split; [intros e ->; discriminate|].
  unfold process_item_try. fold (request_of self data).
  split; [intros e ->; reflexivity|].
  split.
  { intros response -> Hs. cbn [bind]. unfold raise_for_status.
    destruct (Z.leb_spec 200 (status response));
      destruct (Z.leb_spec (status response) 299); cbn [andb bind];
      try reflexivity. lia. }
  split.
  { intros response -> Hs. cbn [bind]. unfold raise_for_status.
    destruct (Z.leb_spec 200 (status response)); [|lia].
    destruct (Z.leb_spec (status response) 299); [|lia]. cbn [andb bind ret].
    split.
    - intros Hl. unfold loads at 1. rewrite Hl. reflexivity.
    - intros result Hl. unfold loads. rewrite Hl. cbn [bind ret]. split.
      + intros e ->. reflexivity.
      + intros content ->. reflexivity. }
  split.
  { intros content Hc. unfold parse_content, as_str.
    destruct content; try reflexivity. now contradiction (Hc s). }
  split.
  { intros content Hl. unfold parse_content, loads. cbn [as_str bind ret].
    now rewrite Hl. }
  intros content kv s Hl Hk Hs. unfold parse_content, loads.
  cbn [as_str bind ret]. rewrite Hl. cbn [bind ret].
  unfold output_of_parsed, py_get, dict_get. cbn [bind ret].
  rewrite Hk. now rewrite (Decision_of_unknown _ Hs).
Qed.

End ParsingProperties.

(** ** The pipeline on concrete surroundings *)

Section PipelineExamples.

Import Inventory.

(** A decoder that knows three documents: a body whose answer wraps an
    object in prose, and the two objects such an answer can hold. *)
Definition toy_loads (doc : string) : option json :=
  if String.eqb doc "body" then
    Some (JObj [("response", JStr "Sure, here it is: {good} Anything else?")])
  else if String.eqb doc "odd body" then
    Some (JObj [("response", JStr "My verdict: {odd}")])
  else if String.eqb doc "{good}" then
    Some (JObj [("decision", JStr "approved");
                ("suggested_tags", JArr [JStr "linux"])])
  else if String.eqb doc "{odd}" then
    Some (JObj [("decision", JStr "approve")])
  else None.

Definition toy_number {A : Type} (s : string) : option A := None.

Definition toy_str (e : exn) : string :=
  match e with
  | TransportError reason => reason
  | HTTPStatusError _ => "bad status"
  | JSONDecodeError _ => "no JSON"
  | ValueError _ => "not a valid Decision"
  | _ => "error"
  end.

(** A client whose every request ends the same way. *)
Definition always (r : exc AIService.Response)
    : string -> json -> list (string * option string) -> Z ->
      exc AIService.Response :=
  fun _ _ _ _ => r.

Definition ollama : AIService.t :=
  AIService.init py_lower
    (AIConfig.mk "Ollama" None None "llama3" 0.25%float 1000 EmptyString 30).

Definition srv1_prod : EquipmentData.t :=
  EquipmentData.mk None (Some "srv1") None None (Some "Ubuntu") None None
    None None None None None None ["prod"] [] "n8n".

Definition run (r : exc AIService.Response) : AIOutput.t :=
  AIService.process_item (always r) toy_loads toy_number toy_number toy_str
    ollama srv1_prod.

Definition pending_with (comments : string) : AIOutput.t :=
  AIOutput.mk PENDING comments 0%float [] 0 None.

Example run_timeout :
  run (inl (TransportError "timed out")) =
  pending_with "AI processing failed: timed out".
Proof. vm_compute. reflexivity. Qed.

Example run_server_error :
  run (inr (AIService.mkResponse 503 "body")) =
  pending_with "AI processing failed: bad status".
Proof. vm_compute. reflexivity. Qed.

Example run_malformed_body :
  run (inr (AIService.mkResponse 200 "<html>")) =
  pending_with "AI processing failed: no JSON".
Proof. vm_compute. reflexivity. Qed.

Example run_unknown_decision :
  run (inr (AIService.mkResponse 200 "odd body")) =
  pending_with "AI processing failed: not a valid Decision".
Proof. vm_compute. reflexivity. Qed.

Example run_approved :
  run (inr (AIService.mkResponse 200 "body")) =
  AIOutput.mk APPROVE EmptyString 0.5%float ["linux"] 0 None.
Proof. vm_compute. reflexivity. Qed.

(** The scenario of the specification: tags prod, the backend approves and
    suggests linux. *)
Example receive_srv1 :
  let item :=
    InventoryService.Processed.item
      (InventoryService.process_item
         (always (inr (AIService.mkResponse 200 "body")))
         toy_loads toy_number toy_number toy_str
         (InventoryService.mk ∅ "t1" (Some ollama)) srv1_prod) in
  InventoryService.Item.status item = "approved" /\
  InventoryService.Item.processed_by item = "ai" /\
  InventoryService.Item.tags item ≡ₚ ["prod"; "linux"].
Proof.
  pose proof run_approved as E. unfold run in E.
  cbv zeta. unfold InventoryService.process_item.
  cbn [InventoryService.ai_service]. rewrite E.
  cbn -[InventoryService.list_of_set]. repeat split.
  apply NoDup_Permutation.
  - apply list_of_set_spec.
  - apply NoDup_cons; split; [|apply NoDup_singleton].
    intros H. apply list_elem_of_singleton in H. discriminate H.
  - intros x. rewrite (proj2 (list_of_set_spec _)). reflexivity.
Qed.

End PipelineExamples.

(** * Properties of the further code *)

Section TenantMoreProperties.

Import Tenant.
Import TenantMore.

(** X1. Whatever the context held, after [TenantContext.set(id, type)] the
    context reads back exactly [id] and [type] and nothing of the earlier
    context is left; after [clear] it reads back nothing and is not super
    admin; and [is_super_admin] holds exactly when the type read back is
    root. *)
Theorem tenant_context_round_trip
    (ctx : gmap string (option string)) (tenant_id : string)
    (tenant_type : option string) :
  TenantContext.get (TenantContext.set tenant_id tenant_type ctx) =
    Some tenant_id /\
  TenantContext.get_type (TenantContext.set tenant_id tenant_type ctx) =
    tenant_type /\
  TenantContext.set tenant_id tenant_type ctx =
    TenantContext.set tenant_id tenant_type (TenantContext.clear ctx) /\
  (forall id' type',
     TenantContext.set id' type' (TenantContext.set tenant_id tenant_type ctx) =
     TenantContext.set id' type' ctx) /\
  TenantContext.get (TenantContext.clear ctx) = None /\
  TenantContext.get_type (TenantContext.clear ctx) = None /\
  TenantContext.is_super_admin (TenantContext.clear ctx) = false /\
  (TenantContext.is_super_admin ctx = true <->
   TenantContext.get_type ctx = Some "root").
Proof.
  unfold TenantContext.get, TenantContext.get_type, TenantContext.is_super_admin,
    TenantContext.context_get, TenantContext.set, TenantContext.clear.
  split; [now rewrite lookup_insert_eq|].
  split.
  { rewrite lookup_insert_ne by discriminate. now rewrite lookup_insert_eq. }
  split; [reflexivity|]. split; [reflexivity|].
  split; [reflexivity|]. split; [reflexivity|]. split; [reflexivity|].
  destruct (ctx !! "tenant_type") as [[ty|]|]; simpl.
  - rewrite String.eqb_eq. split; [now intros -> | now intros [= ->]].
  - split; discriminate.
  - split; discriminate.
Qed.

(** X2. [get_accessible_tenant_ids] never names a tenant the requester may
    not reach: whatever it returns is the requester's own id, which
    [can_access] grants for any target type.  It returns the own id exactly
    for the types other than root, provider and customer, and the empty list
    for these three, although [can_access] lets a root requester reach every
    tenant. *)
Theorem accessible_ids_sound (tenant_id tenant_type : string) :
  (forall id, In id (get_accessible_tenant_ids tenant_id tenant_type) ->
     id = tenant_id /\
     forall target_type,
       can_access tenant_id tenant_type id target_type = true) /\
  (get_accessible_tenant_ids tenant_id tenant_type = [] <->
   tenant_type = "root" \/ tenant_type = "provider" \/
   tenant_type = "customer") /\
  (get_accessible_tenant_ids tenant_id tenant_type = [tenant_id] <->
   tenant_type <> "root" /\ tenant_type <> "provider" /\
   tenant_type <> "customer") /\
  (forall other other_type,
     get_accessible_tenant_ids tenant_id "root" = [] /\
     can_access tenant_id "root" other other_type = true).
Proof.
  unfold get_accessible_tenant_ids.
  destruct (String.eqb_spec tenant_type "root") as [Hr|Hr];
    [|destruct (String.eqb_spec tenant_type "provider") as [Hp|Hp];
      [|destruct (String.eqb_spec tenant_type "customer") as [Hc|Hc]]].
  all: split; [intros id Hin; simpl in Hin; try contradiction|].
  all: try (destruct Hin as [<-|[]]; split; [reflexivity|];
            intros target_type; unfold can_access;
            now rewrite String.eqb_refl).
  all: split; [split; [intros H; try discriminate H; tauto | tauto]|].
  all: split; [split; [intros H; try discriminate H; tauto
                      | intros (H1 & H2 & H3); try contradiction; reflexivity]|].
  all: intros other other_type; split; [reflexivity|];
       unfold can_access; simpl; destruct (String.eqb tenant_id other);
       reflexivity.
Qed.

End TenantMoreProperties.

Section QueryProperties.

Import TenantMore.

Variables Query Model Row : Type.
Variable filter_tenant : Query -> Model -> option string -> Query.
Variable filter_field : Query -> string -> option string -> Query.

(** The rows a query yields, and the columns of a row ([None] is NULL). *)
Variable rows : Query -> list Row.
Variable field_of : Row -> string -> option string.

(** [filter] keeps the rows whose column equals the value. *)
Hypothesis filter_tenant_rows : forall q m v,
  rows (filter_tenant q m v) =
  List.filter (fun r => bool_decide (field_of r "tenant_id" = v)) (rows q).
Hypothesis filter_field_rows : forall q f v,
  rows (filter_field q f v) =
  List.filter (fun r => bool_decide (field_of r f = v)) (rows q).

Lemma In_filter_decide (P : Row -> Prop) `{forall r, Decision (P r)}
    (l : list Row) (r : Row) :
  In r (List.filter (fun r => bool_decide (P r)) l) <-> In r l /\ P r.
Proof.
  rewrite filter_In. now rewrite bool_decide_eq_true.
Qed.

(** X3. [TenantQueryBuilder.filter_by_tenant] hands a root user the query
    unchanged.  For every other user, a provider included and whatever
    [parent_access] says, it is [with_tenant] on the user's own tenant id: the
    rows it yields are exactly those of the query whose tenant id is the
    user's, so no row of a child tenant is ever among them. *)
Theorem filter_by_tenant_isolation
    (query : Query) (model : Model) (user : UserDict) (parent_access : bool) :
  (u_tenant_type user = Some "root" ->
   filter_by_tenant filter_tenant query model user parent_access = query) /\
  (u_tenant_type user <> Some "root" ->
   filter_by_tenant filter_tenant query model user parent_access =
     with_tenant filter_tenant query model (u_tenant_id user) /\
   forall r,
     In r (rows (filter_by_tenant filter_tenant query model user
                   parent_access)) <->
     In r (rows query) /\ field_of r "tenant_id" = u_tenant_id user) /\
  filter_by_tenant filter_tenant query model user true =
  filter_by_tenant filter_tenant query model user false.
Proof.
  unfold filter_by_tenant, with_tenant, opt_is.
  split; [intros ->; reflexivity|]. split; [|reflexivity].
  intros Hroot.
  assert (E : match u_tenant_type user with
              | Some v => String.eqb v "root"
              | None => false
              end = false).
  { destruct (u_tenant_type user) as [ty|]; [|reflexivity].
    destruct (String.eqb_spec ty "root"); [subst; contradiction|reflexivity]. }
  rewrite E. cbv zeta. split; [reflexivity|].
  intros r. rewrite filter_tenant_rows. apply In_filter_decide.
Qed.

(** X4. [ResourceAccessControl.filter_by_tenant] hands a super admin the
    query unchanged and keeps, for anyone else, exactly the rows whose
    column [resource_field] equals the user's tenant id.  For a user with a
    tenant id it agrees with [can_access_resource]: every row of a tenant
    whose resources the user may access is kept.  For a user without a
    tenant id the two differ: [can_access_resource] compares the text None
    and grants an admin the tenant of that name, while the filter keeps the
    rows whose column is NULL and none of that tenant. *)
Theorem resource_filter_by_tenant_spec
    (user : UserDict) (query : Query) (resource_field : string) :
  (u_is_super_admin user = Some true ->
   resource_filter_by_tenant filter_field user query resource_field = query) /\
  (u_is_super_admin user <> Some true ->
   forall r,
     In r (rows (resource_filter_by_tenant filter_field user query
                   resource_field)) <->
     In r (rows query) /\ field_of r resource_field = u_tenant_id user) /\
  (forall r tenant permission,
     is_Some (u_tenant_id user) ->
     In r (rows query) ->
     field_of r resource_field = Some tenant ->
     Rbac.can_access_resource user tenant permission = true ->
     In r (rows (resource_filter_by_tenant filter_field user query
                   resource_field))) /\
  (u_is_super_admin user <> Some true -> u_tenant_id user = None ->
   (forall permission,
      u_role user = Some "admin" ->
      Rbac.can_access_resource user "None" permission = true) /\
   (forall r,
      In r (rows (resource_filter_by_tenant filter_field user query
                    resource_field)) <->
      In r (rows query) /\ field_of r resource_field = None) /\
   (forall r,
      field_of r resource_field = Some "None" ->
      ~ In r (rows (resource_filter_by_tenant filter_field user query
                      resource_field)))).
Proof.
  assert (Hkeep : u_is_super_admin user <> Some true ->
    forall r,
      In r (rows (resource_filter_by_tenant filter_field user query
                    resource_field)) <->
      In r (rows query) /\ field_of r resource_field = u_tenant_id user).
  { intros Hs r. unfold resource_filter_by_tenant, Rbac.truthy_flag.
    destruct (u_is_super_admin user) as [[|]|]; try congruence;
      rewrite filter_field_rows; apply In_filter_decide. }
  split.
  { intros Hs. unfold resource_filter_by_tenant, Rbac.truthy_flag.
    now rewrite Hs. }
  split; [exact Hkeep|]. split.
  - intros r tenant permission [t Ht] Hin Hf Hacc.
    unfold resource_filter_by_tenant, Rbac.truthy_flag.
    unfold Rbac.can_access_resource, Rbac.truthy_flag in Hacc.
    destruct (u_is_super_admin user) as [[|]|]; [assumption| |].
    all: rewrite filter_field_rows; apply In_filter_decide;
      split; [assumption|]; rewrite Hf, Ht; f_equal;
      rewrite Ht in Hacc; simpl in Hacc;
      destruct (String.eqb_spec t tenant); [congruence | discriminate Hacc].
  - intros Hs Hno. split; [|split].
    + intros permission Hrole.
      unfold Rbac.can_access_resource, Rbac.truthy_flag, Rbac.role_is_admin.
      rewrite Hno, Hrole.
      destruct (u_is_super_admin user) as [[|]|]; reflexivity.
    + intros r. rewrite <- Hno. exact (Hkeep Hs r).
    + intros r Hf Hin. apply (Hkeep Hs) in Hin as [_ Hin].
      rewrite Hno in Hin. congruence.
Qed.

End QueryProperties.

(** Queries as the lists of their rows, a row being its tenant id. *)
Definition list_filter (q : list (option string)) (v : option string)
    : list (option string) :=
  List.filter (fun r => bool_decide (r = v)) q.

Definition provider_p1 : UserDict :=
  mkUserDict (Some "user-7") (Some "p1") (Some "provider") (Some "analyst")
    (Some ["alerts:read"]) None.

(** A provider asking with [parent_access] gets the rows of its own tenant
    and none of its customer's. *)
Lemma filter_by_tenant_isolation_witness :
  (In (Some "c1")
      (TenantMore.filter_by_tenant (fun q (_ : unit) v => list_filter q v)
         [Some "p1"; Some "c1"; None; Some "p1"] tt provider_p1 true) <->
   In (Some "c1") [Some "p1"; Some "c1"; None; Some "p1"] /\
   Some "c1" = Some "p1") /\
  TenantMore.filter_by_tenant (fun q (_ : unit) v => list_filter q v)
    [Some "p1"; Some "c1"; None; Some "p1"] tt provider_p1 true =
  [Some "p1"; Some "p1"].
Proof.
  split; [|reflexivity].
  exact (proj2 (proj1 (proj2
    (filter_by_tenant_isolation (list (option string)) unit (option string)
       (fun q _ v => list_filter q v) (fun q => q) (fun r _ => r)
       (fun q m v => eq_refl)
       [Some "p1"; Some "c1"; None; Some "p1"] tt provider_p1 true))
    ltac:(discriminate)) (Some "c1")).
Defined.

Lemma resource_filter_by_tenant_witness :
  (In (Some "c1")
      (TenantMore.resource_filter_by_tenant (fun q _ v => list_filter q v)
         provider_p1 [Some "p1"; Some "c1"; None] "tenant_id") <->
   In (Some "c1") [Some "p1"; Some "c1"; None] /\ Some "c1" = Some "p1") /\
  TenantMore.resource_filter_by_tenant (fun q _ v => list_filter q v)
    provider_p1 [Some "p1"; Some "c1"; None] "tenant_id" = [Some "p1"].
Proof.
  split; [|reflexivity].
  exact (proj1 (proj2
    (resource_filter_by_tenant_spec (list (option string)) (option string)
       (fun q _ v => list_filter q v) (fun q => q) (fun r _ => r)
       (fun q f v => eq_refl)
       provider_p1 [Some "p1"; Some "c1"; None] "tenant_id"))
    ltac:(discriminate) (Some "c1")).
Defined.

Section MiddlewareProperties.

Import Middlewares.

Variable Response : Type.
Variable call_next : Request -> Response.

(** X20. Neither middleware refuses or alters a request: whatever the
    method, and with or without a bearer token, each hands the request to
    the next handler and returns its response; a request without a token
    is treated like one with a token. *)
Theorem middlewares_pass_through (request : Request) :
  rbac_call call_next request = call_next request /\
  tenant_call call_next request = call_next request.
Proof.
  unfold rbac_call, tenant_call.
  destruct (String.eqb (method request) "OPTIONS");
    [split; reflexivity|].
  split; [|reflexivity].
  destruct (authorization request) as [[|c s]|]; try reflexivity.
  destruct (negb (starts_with "Bearer " (String c s))); reflexivity.
Qed.

End MiddlewareProperties.

Section RbacMoreProperties.

Import Rbac.
Import RbacMore.

Lemma forallb_str_in (l m : list string) :
  forallb (fun p => str_in p m) l = true -> forall p, In p l -> In p m.
Proof.
  intros H p Hp. rewrite forallb_forall in H. apply str_in_In. now apply H.
Qed.

(** X5. The role table grants nothing outside the catalogue and lists no
    permission twice; only admin, analyst and viewer have an entry.  The
    roles are nested: every permission of viewer is one of analyst, every
    permission of analyst is one of admin, and admin holds the whole
    catalogue of 33 permissions.  Viewer holds read permissions only, and
    analyst holds no delete permission. *)
Theorem role_table_nested :
  (forall role perms,
     DEFAULT_ROLE_PERMISSIONS !! role = Some perms ->
     (role = "admin" \/ role = "analyst" \/ role = "viewer") /\
     NoDup perms /\
     (forall p, In p perms -> In p all_permissions)) /\
  (forall p, In p (role_permissions "viewer") ->
             In p (role_permissions "analyst")) /\
  (forall p, In p (role_permissions "analyst") ->
             In p (role_permissions "admin")) /\
  role_permissions "admin" = all_permissions /\
  length all_permissions = 33%nat /\
  NoDup all_permissions /\
  (forall p, In p (role_permissions "viewer") -> ends_with ":read" p = true) /\
  (forall p, In p (role_permissions "analyst") ->
             ends_with ":delete" p = false).
Proof.
  assert (Hnd : forall l : list string,
            bool_decide (NoDup l) = true -> NoDup l)
    by (intros l H; now apply bool_decide_eq_true in H).
  split.
  { intros role perms. unfold DEFAULT_ROLE_PERMISSIONS.
    repeat (rewrite lookup_insert; case_decide;
      [ intros [= <-]; subst role;
        split; [tauto|]; split;
        [ apply Hnd; vm_compute; reflexivity
        | apply forallb_str_in; vm_compute; reflexivity ] |]).
    rewrite lookup_empty. discriminate. }
  split; [apply forallb_str_in; vm_compute; reflexivity|].
  split; [apply forallb_str_in; vm_compute; reflexivity|].
  split; [vm_compute; reflexivity|].
  split; [reflexivity|].
  split; [apply Hnd; vm_compute; reflexivity|].
  split.
  - intros p Hp.
    assert (H : forallb (ends_with ":read") (role_permissions "viewer") = true)
      by (vm_compute; reflexivity).
    rewrite forallb_forall in H. now apply H.
  - intros p Hp.
    assert (H : forallb (fun q => negb (ends_with ":delete" q))
                  (role_permissions "analyst") = true)
      by (vm_compute; reflexivity).
    rewrite forallb_forall in H. apply H in Hp. now apply negb_true_iff.
Qed.

End RbacMoreProperties.

Section AIServiceMoreProperties.

Import Inventory.
Import AIService.
Import InventoryMore.

Variable post :
  string -> json -> list (string * option string) -> Z -> exc Response.
Variable json_loads : string -> option json.
Variable float_of_str : string -> option float.
Variable int_of_str : string -> option Z.
Variable str_of_exn : exn -> string.

(** X6. Looking a decision up by its value and taking the value of a
    decision are inverse: [Decision(d.value)] is [d], and a value that
    [Decision] accepts is the value of the decision it returns; anything
    that is not one of the four strings, a non-string included, is
    refused with a [ValueError] about that very value. *)
Theorem decision_round_trip :
  (forall d, Decision_of (JStr (Decision_value d)) = inr d) /\
  (forall v d, Decision_of v = inr d -> v = JStr (Decision_value d)) /\
  (forall d d', Decision_value d = Decision_value d' -> d = d') /\
  (forall v, (forall d, v <> JStr (Decision_value d)) ->
             Decision_of v = inl (ValueError v)).
Proof.
  split; [intros []; reflexivity|].
  assert (Hinv : forall v d, Decision_of v = inr d -> v = JStr (Decision_value d)).
  { intros v d. unfold Decision_of.
    destruct v; try discriminate.
    repeat match goal with
    | |- context [String.eqb s ?x] => destruct (String.eqb_spec s x); [subst|]
    end; intros H; inversion H; reflexivity. }
  split; [exact Hinv|].
  split; [intros [] []; simpl; congruence|].
  intros v Hv. destruct (Decision_of v) as [e|d] eqn:E.
  - unfold Decision_of in E. destruct v; try (now inversion E).
    repeat match type of E with
    | context [String.eqb s ?x] => destruct (String.eqb s x); [discriminate E|]
    end. now inversion E.
  - apply Hinv in E. now contradiction (Hv d).
Qed.

(** X7. The request headers always carry the JSON content type.  A bearer
    [Authorization] header is sent exactly for the providers openai and
    deepseek, and the [x-api-key] header exactly for anthropic; every other
    provider, groq and ollama included, is sent the content type alone, so
    the configured key never leaves for them. *)
Theorem get_headers_by_provider (self : t) :
  let headers := _get_headers self in
  let key := AIConfig.api_key (config self) in
  header_get "Content-Type" headers = Some (Some "application/json") /\
  (provider self = "openai" \/ provider self = "deepseek" ->
   header_get "Authorization" headers =
     Some (Some ("Bearer " +:+ default "None" key)) /\
   header_get "x-api-key" headers = None) /\
  (provider self = "anthropic" ->
   header_get "x-api-key" headers = Some key /\
   header_get "anthropic-version" headers = Some (Some "2023-06-01") /\
   header_get "Authorization" headers = None) /\
  (provider self <> "openai" -> provider self <> "deepseek" ->
   provider self <> "anthropic" ->
   headers = [("Content-Type", Some "application/json")]).
Proof.
  cbv zeta. unfold _get_headers, bearer.
  destruct (String.eqb_spec (provider self) "openai") as [E1|E1];
    [|destruct (String.eqb_spec (provider self) "anthropic") as [E2|E2];
      [|destruct (String.eqb_spec (provider self) "deepseek") as [E3|E3]]].
  all: split; [reflexivity|].
  all: split; [intros [H|H]; try congruence; split; reflexivity|].
  all: split; [intros H; try congruence; repeat split|].
  all: intros H1 H2 H3; try congruence; reflexivity.
Qed.

Lemma api_url_of_cases (p : string) :
  (In p known_providers -> api_url_of p <> EmptyString) /\
  (~ In p known_providers -> api_url_of p = EmptyString).
Proof.
  unfold api_url_of, PROVIDERS, known_providers.
  repeat (rewrite lookup_insert; case_decide;
    [subst p; split; [intros _; vm_compute; discriminate
                     | intros Hn; exfalso; apply Hn; simpl; auto 10]|]).
  rewrite lookup_empty. split; [|reflexivity].
  simpl. intros [?|[?|[?|[?|[?|[]]]]]]; congruence.
Qed.

(** X8. The [api_url] of the configuration is never used: changing it
    changes neither the prompt, the request nor the result of
    [process_item].  The address requested is fixed by the provider name
    alone; it is not empty for the five known providers, and it is the empty
    address for every other provider name. *)
Theorem api_url_is_ignored (self : t) (url : option string)
    (data : EquipmentData.t) :
  let self' := mk (with_api_url (config self) url) (provider self) in
  _build_prompt self' data = _build_prompt self data /\
  payload_of self' (_build_prompt self' data) =
    payload_of self (_build_prompt self data) /\
  _get_headers self' = _get_headers self /\
  process_item post json_loads float_of_str int_of_str str_of_exn self' data =
  process_item post json_loads float_of_str int_of_str str_of_exn self data /\
  (In (provider self) known_providers ->
   api_url_of (provider self) <> EmptyString) /\
  (~ In (provider self) known_providers ->
   api_url_of (provider self) = EmptyString).
Proof.
  cbv zeta. destruct self as [cfg p]. destruct cfg. simpl.
  repeat split; try reflexivity; apply api_url_of_cases.
Qed.

End AIServiceMoreProperties.

(** ** inventory.py: what [extract_json] yields on any content *)

Section ExtractProperties.

Import Inventory.
Import AIService.

Lemma has_char_first (c : ascii) (s : string) :
  has_char c s = true ->
  exists pre rest, s = pre +:+ String c rest /\ has_char c pre = false.
Proof.
  induction s as [|a s IH]; [discriminate|].
  simpl. destruct (Ascii.eqb_spec a c) as [->|Hne]; simpl.
  - intros _. exists EmptyString, s. split; reflexivity.
  - intros H. destruct (IH H) as (pre & rest & -> & Hpre).
    exists (String a pre), rest. split; [reflexivity|].
    simpl. rewrite Hpre. destruct (Ascii.eqb_spec a c); [contradiction|].
    reflexivity.
Qed.

Lemma has_char_last (c : ascii) (s : string) :
  has_char c s = true ->
  exists x post, s = x +:+ String c post /\ has_char c post = false.
Proof.
  induction s as [|a s IH]; [discriminate|].
  simpl. destruct (has_char c s) eqn:Hs.
  - intros _. destruct (IH eq_refl) as (x & post & -> & Hpost).
    exists (String a x), post. split; [reflexivity | assumption].
  - rewrite orb_false_r. intros H. apply Ascii.eqb_eq in H. subst a.
    exists EmptyString, s. split; [reflexivity | assumption].
Qed.

Lemma find_from_none (c : ascii) (s : string) (i : Z) :
  has_char c s = false -> find_from (String c EmptyString) s i = -1.
Proof.
  revert i. induction s as [|a s IH]; intros i Hs; [reflexivity|].
  simpl in Hs. apply orb_false_iff in Hs as [Ha Hs].
  cbn [find_from starts_with]. rewrite Ascii.eqb_sym, Ha. cbn [andb].
  now apply IH.
Qed.

Lemma clamp_index_nonneg (len i : Z) : 0 <= len -> 0 <= clamp_index len i.
Proof.
  intros H. unfold clamp_index.
  destruct (Z.ltb_spec i 0);
    repeat match goal with
    | |- context [?a <? ?b] => destruct (Z.ltb_spec a b)
    end; lia.
Qed.

Lemma py_slice_stop_0 (s : string) (start : Z) : py_slice s start 0 = EmptyString.
Proof.
  unfold py_slice.
  pose proof (clamp_index_nonneg (Z.of_nat (String.length s)) start
                (Nat2Z.is_nonneg _)) as Ha.
  rewrite (clamp_index_in_range _ 0) by lia.
  destruct (Z.leb_spec 0 (clamp_index (Z.of_nat (String.length s)) start));
    [reflexivity | lia].
Qed.

Lemma clamp_index_minus_one (len : Z) :
  0 < len -> clamp_index len (-1) = len - 1.
Proof.
  intros H. unfold clamp_index. change (-1 <? 0) with true. cbv iota.
  destruct (Z.ltb_spec (-1 + len) 0); [lia|].
  destruct (Z.ltb_spec len (-1 + len)); lia.
Qed.

(** A slice whose stop is not after its start is empty. *)
Lemma py_slice_empty (s : string) (a b : Z) :
  0 <= a <= Z.of_nat (String.length s) ->
  0 <= b <= Z.of_nat (String.length s) ->
  b <= a -> py_slice s a b = EmptyString.
Proof.
  intros Ha Hb Hle. unfold py_slice.
  rewrite !clamp_index_in_range by assumption.
  destruct (Z.leb_spec b a); [reflexivity | lia].
Qed.

(** Two ways of cutting one string at a character: the cuts are at
    different places when the characters differ, and the longer left part
    extends the shorter one. *)
Lemma cut_longer (pre r x post : string) (c d : ascii) :
  pre +:+ String c r = x +:+ String d post ->
  (String.length pre < String.length x)%nat ->
  exists mid, x = pre +:+ String c mid /\ r = mid +:+ String d post.
Proof.
  revert x. induction pre as [|a pre IH]; intros x E Hlen.
  - destruct x as [|b x]; [simpl in Hlen; lia|].
    change (String c r = String b (x +:+ String d post)) in E.
    inversion E; subst. exists x. split; reflexivity.
  - destruct x as [|b x]; [simpl in Hlen; lia|].
    change (String a (pre +:+ String c r) = String b (x +:+ String d post)) in E.
    inversion E; subst. simpl in Hlen.
    destruct (IH x H1 ltac:(lia)) as (mid & -> & ->).
    exists mid. split; reflexivity.
Qed.

Lemma cut_same_length (pre r x post : string) (c d : ascii) :
  pre +:+ String c r = x +:+ String d post ->
  String.length pre = String.length x -> c = d.
Proof.
  revert x. induction pre as [|a pre IH]; intros x E Hlen.
  - destruct x as [|b x]; [|simpl in Hlen; lia].
    change (String c r = String d post) in E. now inversion E.
  - destruct x as [|b x]; [simpl in Hlen; lia|].
    change (String a (pre +:+ String c r) = String b (x +:+ String d post)) in E.
    inversion E; subst. simpl in Hlen. apply (IH x H1). lia.
Qed.

(** The three shapes of the text that is cut out. *)
Lemma extract_json_shape (content : string) :
  extract_json content = EmptyString \/
  (extract_json content = "}" /\ has_char "{" content = false) \/
  (exists pre mid post,
     content = pre +:+ "{" +:+ mid +:+ "}" +:+ post /\
     has_char "{" pre = false /\ has_char "}" post = false /\
     extract_json content = "{" +:+ mid +:+ "}").
Proof.
  unfold extract_json at 1 2.
  destruct (has_char "}" content) eqn:Hclose.
  2:{ left. unfold py_rfind. rewrite (rfind_from_none _ _ _ Hclose).
      apply py_slice_stop_0. }
  destruct (has_char_last _ _ Hclose) as (x & post & Ex & Hpost).
  assert (Hr : py_rfind content "}" = Z.of_nat (String.length x)).
  { unfold py_rfind. rewrite Ex.
    rewrite (rfind_from_last _ _ _ _ (Z.le_refl 0) Hpost). lia. }
  assert (Hlen : String.length content =
                 (String.length x + S (String.length post))%nat)
    by (rewrite Ex, length_append; reflexivity).
  rewrite Hr.
  destruct (has_char "{" content) eqn:Hopen.
  - destruct (has_char_first _ _ Hopen) as (pre & rest & Epre & Hpre).
    assert (Hf : py_find content "{" = Z.of_nat (String.length pre)).
    { unfold py_find. rewrite Epre.
      rewrite (find_from_first _ _ _ _ Hpre). lia. }
    rewrite Hf.
    assert (Hlen' : String.length content =
                    (String.length pre + S (String.length rest))%nat)
      by (rewrite Epre, length_append; reflexivity).
    destruct (Nat.lt_trichotomy (String.length pre) (String.length x))
      as [Hlt|[Heq|Hgt]].
    + right. right.
      assert (E2 : pre +:+ String "{" rest = x +:+ String "}" post)
        by congruence.
      destruct (cut_longer _ _ _ _ _ _ E2 Hlt) as (mid & -> & ->).
      exists pre, mid, post.
      assert (Ec : content = pre +:+ "{" +:+ mid +:+ "}" +:+ post)
        by exact Epre.
      split; [exact Ec|]. split; [exact Hpre|]. split; [exact Hpost|].
      pose proof (extract_json_braces pre mid post Hpre Hpost) as Hx.
      rewrite <- Ec in Hx. exact Hx.
    + exfalso.
      assert (E2 : pre +:+ String "{" rest = x +:+ String "}" post)
        by congruence.
      pose proof (cut_same_length _ _ _ _ _ _ E2 Heq). discriminate.
    + left. apply py_slice_empty; lia.
  - unfold py_find. rewrite (find_from_none _ _ _ Hopen).
    unfold py_slice.
    rewrite (clamp_index_minus_one (Z.of_nat (String.length content)))
      by lia.
    rewrite (clamp_index_in_range _ (Z.of_nat (String.length x) + 1))
      by lia.
    destruct post as [|b post].
    + right. left. split; [|reflexivity].
      simpl in Hlen.
      destruct (Z.leb_spec (Z.of_nat (String.length x) + 1)
                  (Z.of_nat (String.length content) - 1)); [lia|].
      replace (Z.to_nat (Z.of_nat (String.length content) - 1))
        with (String.length x) by lia.
      replace (Z.to_nat (Z.of_nat (String.length x) + 1 -
                         (Z.of_nat (String.length content) - 1)))
        with 1%nat by lia.
      rewrite Ex, substring_skip. reflexivity.
    + left. simpl in Hlen.
      destruct (Z.leb_spec (Z.of_nat (String.length x) + 1)
                  (Z.of_nat (String.length content) - 1));
        [reflexivity | lia].
Qed.

Lemma extract_json_without_braces (content : string) :
  has_char "{" content = false \/ has_char "}" content = false ->
  extract_json content = EmptyString \/ extract_json content = "}".
Proof.
  intros Hno.
  destruct (extract_json_shape content)
    as [H|[[H _]|(pre & mid & post & Ec & Hpre & Hpost & H)]];
    [now left | now right |].
  exfalso. rewrite Ec in Hno.
  change (pre +:+ "{" +:+ mid +:+ "}" +:+ post)
    with (pre +:+ String "{" (mid +:+ String "}" post)) in Hno.
  rewrite !has_char_app in Hno. simpl in Hno.
  rewrite !has_char_app in Hno. simpl in Hno.
  rewrite !orb_true_r in Hno. destruct Hno; discriminate.
Qed.

(** X9. On any content, the text handed to the JSON decoder is empty, or
    the single character [}] (only when the content has no opening brace),
    or the part of the content from its first opening brace to its last
    closing brace; in particular it is never a text that starts before the
    first opening brace.  Without an opening or without a closing brace in
    the content it is one of the first two, and extracting twice gives the
    same as once. *)
Theorem extract_json_cases (content : string) :
  (extract_json content = EmptyString \/
   (extract_json content = "}" /\ has_char "{" content = false) \/
   (exists pre mid post,
      content = pre +:+ "{" +:+ mid +:+ "}" +:+ post /\
      has_char "{" pre = false /\ has_char "}" post = false /\
      extract_json content = "{" +:+ mid +:+ "}")) /\
  (has_char "{" content = false \/ has_char "}" content = false ->
   extract_json content = EmptyString \/ extract_json content = "}") /\
  extract_json (extract_json content) = extract_json content.
Proof.
  split; [exact (extract_json_shape content)|].
  split; [exact (extract_json_without_braces content)|].
  destruct (extract_json_shape content)
    as [H|[[H _]|(pre & mid & post & Ec & Hpre & Hpost & H)]];
    rewrite H; try reflexivity.
  pose proof (extract_json_braces EmptyString mid EmptyString
                eq_refl eq_refl) as Hx.
  change (EmptyString +:+ "{" +:+ mid +:+ "}" +:+ EmptyString)
    with ("{" +:+ mid +:+ "}" +:+ EmptyString) in Hx.
  replace ("{" +:+ mid +:+ "}" +:+ EmptyString)
    with ("{" +:+ mid +:+ "}") in Hx; [exact Hx|].
  change ("}" +:+ EmptyString) with "}". reflexivity.
Qed.

End ExtractProperties.

(** ** inventory.py: the pipeline and the service, end to end *)

Section PipelineMoreProperties.

Import Inventory.
Import AIService.

Variable post :
  string -> json -> list (string * option string) -> Z -> exc Response.
Variable json_loads : string -> option json.
Variable float_of_str : string -> option float.
Variable int_of_str : string -> option Z.
Variable str_of_exn : exn -> string.

(** X10. When the AI call ends in an exception, the orchestrator still
    builds the item: status pending, never approved, the comment
    AI processing failed: followed by the text of the exception (also in
    the decision field), risk score 0, the asset type and, as a set, the
    tags of the equipment, and processed_by ai. *)
Theorem service_process_item_on_failure
    (db : gmap string InventoryService.Item.t) (tenant_id : string)
    (svc : AIService.t) (equipment : EquipmentData.t) (e : exn)
    (Hfail : process_item_try post json_loads float_of_str int_of_str
               svc equipment = inl e) :
  let r := InventoryService.process_item post json_loads float_of_str
             int_of_str str_of_exn
             (InventoryService.mk db tenant_id (Some svc)) equipment in
  let item := InventoryService.Processed.item r in
  InventoryService.Processed.status r = "success" /\
  InventoryService.Processed.ai_decision r = "pending" /\
  InventoryService.Item.status item = "pending" /\
  InventoryService.Item.inventory_comments item =
    "AI processing failed: " +:+ str_of_exn e /\
  InventoryService.Item.inventory_decision item =
    "AI processing failed: " +:+ str_of_exn e /\
  InventoryService.Item.risk_score item = 0 /\
  InventoryService.Item.asset_type item = EquipmentData.asset_type equipment /\
  (list_to_set (InventoryService.Item.tags item) : gset string) =
    list_to_set (EquipmentData.tags equipment) /\
  InventoryService.Item.processed_by item = "ai".
Proof.
  cbv zeta. unfold InventoryService.process_item.
  cbn [InventoryService.ai_service].
  unfold process_item. rewrite Hfail. unfold failed.
  cbn -[InventoryService.list_of_set String.append].
  repeat split.
  rewrite list_of_set_as_set, app_nil_r. reflexivity.
Qed.

(** X11. Whatever the configuration and whatever the backend answers, the
    orchestrator replies success with an item whose status is approved,
    rejected or pending (never flag), equal to the reported ai_decision;
    the decision field of the item holds the comment text, not the
    decision; the identifying fields, the source, the metadata and the
    tenant are those of the equipment and of the service; every tag of the
    equipment is kept and no tag is repeated. *)
Theorem service_process_item_frame
    (self : InventoryService.t) (equipment : EquipmentData.t) :
  let r := InventoryService.process_item post json_loads float_of_str
             int_of_str str_of_exn self equipment in
  let item := InventoryService.Processed.item r in
  InventoryService.Processed.status r = "success" /\
  In (InventoryService.Item.status item) ["approved"; "rejected"; "pending"] /\
  InventoryService.Processed.ai_decision r = InventoryService.Item.status item /\
  InventoryService.Item.inventory_decision item =
    InventoryService.Processed.comments r /\
  InventoryService.Item.inventory_comments item =
    InventoryService.Processed.comments r /\
  InventoryService.Item.tenant_id item = InventoryService.tenant_id self /\
  InventoryService.Item.source item = EquipmentData.source equipment /\
  InventoryService.Item.external_id item = EquipmentData.external_id equipment /\
  InventoryService.Item.hostname item = EquipmentData.hostname equipment /\
  InventoryService.Item.ip_address item = EquipmentData.ip_address equipment /\
  InventoryService.Item.mac_address item = EquipmentData.mac_address equipment /\
  InventoryService.Item.serial_number item =
    EquipmentData.serial_number equipment /\
  InventoryService.Item.metadata item = EquipmentData.metadata equipment /\
  InventoryService.Item.raw_data item = equipment /\
  (forall tag, tag ∈ EquipmentData.tags equipment ->
               tag ∈ InventoryService.Item.tags item) /\
  NoDup (InventoryService.Item.tags item).
Proof.
  cbv zeta. unfold InventoryService.process_item.
  destruct (InventoryService.ai_service self) as [svc|].
  - cbn -[InventoryService.list_of_set].
    repeat lazymatch goal with |- _ /\ _ => split end; try reflexivity.
    + destruct (AIOutput.decision _); simpl; tauto.
    + intros tag Htag. apply list_of_set_spec, elem_of_app. now left.
    + apply list_of_set_spec.
  - cbn -[InventoryService.list_of_set].
    repeat lazymatch goal with |- _ /\ _ => split end; try reflexivity.
    + simpl. tauto.
    + intros tag Htag. now apply list_of_set_spec.
    + apply list_of_set_spec.
Qed.

(** X12. A decoder rejects the empty text and the text [}].  Then an
    answer of the backend that lacks an opening or a closing brace is never
    decoded: the pipeline ends in the handler, with decision pending and
    the comment of a decoding error on one of these two texts. *)
Theorem answer_without_braces_is_pending
    (self : t) (data : EquipmentData.t) (response : Response)
    (result : json) (content : string)
    (Hempty : json_loads EmptyString = None)
    (Hclose : json_loads "}" = None)
    (Hrequest : request_of post self data = inr response)
    (Hstatus : 200 <= status response <= 299)
    (Hbody : json_loads (text response) = Some result)
    (Hcontent : content_of self result = inr (JStr content))
    (Hbraces : has_char "{" content = false \/ has_char "}" content = false) :
  exists doc,
    (doc = EmptyString \/ doc = "}") /\
    extract_json content = doc /\
    process_item post json_loads float_of_str int_of_str str_of_exn self data =
    AIOutput.mk PENDING
      ("AI processing failed: " +:+ str_of_exn (JSONDecodeError doc))
      0%float [] 0 None.
Proof.
  exists (extract_json content).
  pose proof (extract_json_without_braces content Hbraces) as Hdoc.
  split; [exact Hdoc|]. split; [reflexivity|].
  assert (Hnone : json_loads (extract_json content) = None)
    by (destruct Hdoc as [-> | ->]; assumption).
  unfold process_item, process_item_try. unfold request_of in Hrequest.
  rewrite Hrequest. cbn [bind]. unfold raise_for_status.
  destruct (Z.leb_spec 200 (status response)); [|lia].
  destruct (Z.leb_spec (status response) 299); [|lia].
  cbn [andb bind ret]. unfold loads at 1. rewrite Hbody. cbn [bind ret].
  rewrite Hcontent. cbn [bind ret].
  unfold parse_content, loads. cbn [as_str bind ret]. rewrite Hnone.
  reflexivity.
Qed.

(** X13. A decoded object whose six fields are present and of the declared
    types is returned field for field: the decision by its value, the risk
    score and the confidence as they are, whatever their size or sign. *)
Theorem output_of_parsed_well_typed
    (kv : list (string * json)) (d : Decision) (comments : string)
    (confidence : float) (tags : list string) (risk : Z) (asset : string)
    (Hd : assoc "decision" kv = Some (JStr (Decision_value d)))
    (Hc : assoc "comments" kv = Some (JStr comments))
    (Hf : assoc "confidence" kv = Some (JFloat confidence))
    (Ht : assoc "suggested_tags" kv = Some (JArr (map JStr tags)))
    (Hr : assoc "suggested_risk_score" kv = Some (JInt risk))
    (Ha : assoc "suggested_asset_type" kv = Some (JStr asset)) :
  output_of_parsed float_of_str int_of_str (JObj kv) =
  inr (AIOutput.mk d comments confidence tags risk (Some asset)).
Proof.
  unfold output_of_parsed, py_get, dict_get. cbn [bind ret].
  rewrite Hd, Hc, Hf, Ht, Hr, Ha.
  assert (Hdec : Decision_of (JStr (Decision_value d)) = inr d)
    by (destruct d; reflexivity).
  rewrite Hdec. cbn [bind ret py_float py_int].
  unfold AIOutput_new. cbn [validate_str validate_tags validate_opt_str].
  assert (Hl : validate_str_list (map JStr tags) = Some tags).
  { clear Ht. induction tags as [|x l IH]; [reflexivity|].
    simpl. now rewrite IH. }
  rewrite Hl. reflexivity.
Qed.

End PipelineMoreProperties.

(** A decoder for a backend whose answer holds no braces. *)
Definition prose_loads (doc : string) : option json :=
  if String.eqb doc "body" then
    Some (JObj [("response", JStr "I cannot decide on this one.")])
  else None.

Lemma service_process_item_on_failure_witness :
  let r := Inventory.InventoryService.process_item
             (always (inl (TransportError "timed out")))
             toy_loads toy_number toy_number toy_str
             (Inventory.InventoryService.mk ∅ "t1" (Some ollama)) srv1_prod in
  Inventory.InventoryService.Item.status
    (Inventory.InventoryService.Processed.item r) = "pending" /\
  Inventory.InventoryService.Item.inventory_comments
    (Inventory.InventoryService.Processed.item r) =
    "AI processing failed: timed out".
Proof.
  pose proof (service_process_item_on_failure
                (always (inl (TransportError "timed out")))
                toy_loads toy_number toy_number toy_str
                ∅ "t1" ollama srv1_prod (TransportError "timed out")
                eq_refl) as H.
  cbv zeta in H. cbv zeta.
  destruct H as (_ & _ & Hs & Hc & _). split; [exact Hs | exact Hc].
Defined.

Lemma answer_without_braces_is_pending_witness :
  exists doc,
    (doc = EmptyString \/ doc = "}") /\
    Inventory.AIService.extract_json "I cannot decide on this one." = doc /\
    Inventory.AIService.process_item
      (always (inr (Inventory.AIService.mkResponse 200 "body")))
      prose_loads toy_number toy_number toy_str ollama srv1_prod =
    Inventory.AIOutput.mk Inventory.PENDING
      ("AI processing failed: " +:+ toy_str (JSONDecodeError doc))
      0%float [] 0 None.
Proof.
  apply (answer_without_braces_is_pending
           (always (inr (Inventory.AIService.mkResponse 200 "body")))
           prose_loads toy_number toy_number toy_str ollama srv1_prod
           (Inventory.AIService.mkResponse 200 "body")
           (JObj [("response", JStr "I cannot decide on this one.")])
           "I cannot decide on this one.").
  - reflexivity.
  - reflexivity.
  - reflexivity.
  - simpl. lia.
  - reflexivity.
  - reflexivity.
  - left. reflexivity.
Defined.

Lemma output_of_parsed_well_typed_witness :
  Inventory.AIService.output_of_parsed toy_number toy_number
    (JObj [("decision", JStr "flag"); ("comments", JStr "odd vendor");
           ("confidence", JFloat 7%float);
           ("suggested_tags", JArr [JStr "iot"]);
           ("suggested_risk_score", JInt (-5));
           ("suggested_asset_type", JStr "iot")]) =
  inr (Inventory.AIOutput.mk Inventory.FLAG "odd vendor" 7%float ["iot"]
         (-5) (Some "iot")).
Proof.
  apply (output_of_parsed_well_typed toy_number toy_number _
           Inventory.FLAG "odd vendor" 7%float ["iot"] (-5) "iot");
    reflexivity.
Defined.

Section WebhookProperties.

Import Inventory.
Import InventoryWebhook.

Variable post :
  string -> json -> list (string * option string) -> Z ->
  exc AIService.Response.
Variable json_loads : string -> option json.
Variable float_of_str : string -> option float.
Variable int_of_str : string -> option Z.
Variable str_of_exn : exn -> string.

Abbreviation the_receive :=
  (receive_from_n8n post json_loads float_of_str int_of_str str_of_exn).
Abbreviation the_process_all :=
  (process_all post json_loads float_of_str int_of_str str_of_exn).
Abbreviation the_service_process_item :=
  (InventoryService.process_item post json_loads float_of_str int_of_str
     str_of_exn).

Lemma process_all_length (self : InventoryService.t) (items : list json)
    (results : list InventoryService.Processed.t) :
  the_process_all self items = inr results -> length results = length items.
Proof.
  revert results. induction items as [|x items IH]; intros results H.
  - inversion H. reflexivity.
  - simpl in H. apply bind_inr in H as [equipment [_ H]].
    apply bind_inr in H as [rs [Hrs H]]. inversion H. simpl.
    now rewrite (IH rs Hrs).
Qed.

(** A batch of well-formed items is processed item by item. *)
Lemma process_all_valid (self : InventoryService.t)
    (items : list (list (string * json))) (batch : list EquipmentData.t) :
  Forall2 (fun kv equipment => EquipmentData_new kv = inr equipment)
    items batch ->
  the_process_all self (map JObj items) =
  inr (map (the_service_process_item self) batch).
Proof.
  induction 1 as [|kv equipment items batch Hkv _ IH]; [reflexivity|].
  simpl. rewrite Hkv. cbn [bind]. rewrite IH. reflexivity.
Qed.

(** X14. The webhook entry point answers only for an empty batch: a reply
    always counts 0 received and 0 processed and holds no result.  A batch
    of one or more well-formed items is processed in full and then fails on
    the first result, which is a plain dict without the method [dict]; so a
    processed item is never reported. *)
Theorem receive_from_n8n_empty_only
    (self : InventoryService.t) :
  (forall payload reply,
     the_receive self payload = inr reply -> reply = mkReply 0 0 []) /\
  (forall kv,
     assoc "items" kv = Some (JArr []) ->
     the_receive self (JObj kv) = inr (mkReply 0 0 [])) /\
  (forall kv item items equipment batch,
     assoc "items" kv = Some (JArr (map JObj (item :: items))) ->
     Forall2 (fun kv equipment => EquipmentData_new kv = inr equipment)
       (item :: items) (equipment :: batch) ->
     the_receive self (JObj kv) =
     inl (DictHasNoDict (the_service_process_item self equipment))).
Proof.
  split; [|split].
  - intros payload reply. unfold receive_from_n8n.
    destruct (items_of payload) as [e|items]; [discriminate|].
    destruct (py_iter items) as [e|item_list]; [discriminate|].
    destruct (the_process_all self item_list) as [e|results] eqn:Hall;
      [discriminate|].
    apply process_all_length in Hall.
    destruct results as [|r results]; [|discriminate].
    destruct item_list; [|discriminate]. simpl. now intros [= <-].
  - intros kv Hitems. unfold receive_from_n8n, items_of, py_contains.
    cbn [bind ret]. rewrite Hitems.
    rewrite bool_decide_true by (now eexists).
    cbn [getitem_key]. rewrite Hitems. reflexivity.
  - intros kv item items equipment batch Hitems Hvalid.
    unfold receive_from_n8n, items_of, py_contains.
    cbn [bind ret]. rewrite Hitems.
    rewrite bool_decide_true by (now eexists).
    cbn [getitem_key]. rewrite Hitems. cbn [ret py_iter].
    rewrite (process_all_valid self _ _ Hvalid). reflexivity.
Qed.

End WebhookProperties.

(** ** inventory.py: how [_build_prompt] renders the values that are set *)

Section PromptMoreProperties.

Import Inventory.
Import AIService.

(** A pass for a placeholder copies two leading parts that hold no opening
    brace. *)
Lemma replace_from_copy2 (k n pre v rest : string) :
  has_char "{" pre = false -> has_char "{" v = false ->
  replace_from 0 (String "{" k) n (pre +:+ v +:+ rest) =
  pre +:+ v +:+ replace_from 0 (String "{" k) n rest.
Proof.
  intros Hpre Hv.
  now rewrite (replace_from_app_no_char _ _ _ _ _ Hpre),
              (replace_from_app_no_char _ _ _ _ _ Hv).
Qed.

(** One pass over [pre ++ X ++ B]: [pre] is copied; what follows is either
    the value already put in, copied too, or the placeholder [X], on which
    the pass is evaluated. *)
Ltac copy_step Hpre Hv :=
  first
    [ rewrite (replace_from_copy2 _ _ _ _ _ Hpre Hv)
    | rewrite (replace_from_app_no_char _ _ _ _ _ Hpre);
      match goal with
      | |- context [replace_from 0 ?K ?n (?X +:+ ?B)] =>
        first
          [ replace (replace_from 0 K n (X +:+ B))
              with (X +:+ replace_from 0 K n B) by (vm_compute; reflexivity)
          | replace (replace_from 0 K n (X +:+ B))
              with (n +:+ replace_from 0 K n B) by (vm_compute; reflexivity) ]
      end ].

Lemma build_prompt_present_field (self : t) (data : EquipmentData.t)
    (pre post name v : string) (get : EquipmentData.t -> option string) :
  has_char "{" pre = false ->
  In (name, get) optional_fields ->
  get data = Some v -> v <> EmptyString -> has_char "{" v = false ->
  template_of self = pre +:+ placeholder name +:+ post ->
  _build_prompt self data =
  pre +:+ v +:+ replace_all (replacements data) post.
Proof.
  intros Hpre Hin Hget Hne Hv Ht. unfold _build_prompt. rewrite Ht.
  assert (Hor : str_or (Some v) "Unknown" = v)
    by (destruct v; [congruence | reflexivity]).
  unfold optional_fields in Hin. simpl in Hin.
  repeat (destruct Hin as [Hin|Hin];
    [ inversion Hin; subst name get; clear Hin;
      change (placeholder ?n) with ("{" +:+ n +:+ "}");
      unfold replace_all, replacements; cbn [fold_left];
      rewrite Hget, Hor; unfold py_replace;
      do 14 copy_step Hpre Hv; reflexivity |]).
  contradiction.
Qed.

Lemma build_prompt_source (self : t) (data : EquipmentData.t)
    (pre post : string) :
  has_char "{" pre = false ->
  template_of self = pre +:+ "{source}" +:+ post ->
  _build_prompt self data =
  pre +:+ EquipmentData.source data +:+ replace_all (replacements data) post.
Proof.
  intros Hpre Ht. unfold _build_prompt. rewrite Ht.
  unfold replace_all, replacements; cbn [fold_left]. unfold py_replace.
  do 14 copy_step Hpre Hpre. reflexivity.
Qed.

Lemma replace_all_plain (table : list (string * string)) (s : string) :
  Forall (fun '(old, _) => starts_with "{" old = true) table ->
  has_char "{" s = false ->
  replace_all table s = s.
Proof.
  intros Htable Hs. unfold replace_all.
  induction Htable as [|[old new] table Hold _ IH]; [reflexivity|].
  cbn [fold_left]. unfold py_replace at 2.
  destruct old as [|c k]; [discriminate Hold|].
  cbn [starts_with] in Hold. apply andb_true_iff in Hold as [Hc _].
  apply Ascii.eqb_eq in Hc. subst c.
  rewrite (replace_from_no_char _ _ _ _ Hs). exact IH.
Qed.

(** X15. Nothing before the placeholder holds an opening brace.  Then a
    field that is set, to a text without an opening brace, is rendered as
    that text, for each of the twelve optional text fields; the source is
    rendered as it is, whatever it holds; and a template without any
    opening brace is sent as it is. *)
Theorem build_prompt_present_values (self : t) (data : EquipmentData.t)
    (pre post : string) (Hpre : has_char "{" pre = false) :
  (forall name get v,
     In (name, get) optional_fields ->
     get data = Some v -> v <> EmptyString -> has_char "{" v = false ->
     template_of self = pre +:+ placeholder name +:+ post ->
     _build_prompt self data =
     pre +:+ v +:+ replace_all (replacements data) post) /\
  (template_of self = pre +:+ "{source}" +:+ post ->
   _build_prompt self data =
   pre +:+ EquipmentData.source data +:+
   replace_all (replacements data) post) /\
  (template_of self = pre -> _build_prompt self data = pre).
Proof.
  split; [|split].
  - intros name get v Hin Hget Hne Hv Ht.
    exact (build_prompt_present_field self data pre post name v get
             Hpre Hin Hget Hne Hv Ht).
  - exact (build_prompt_source self data pre post Hpre).
  - intros Ht. unfold _build_prompt. rewrite Ht.
    apply replace_all_plain; [|exact Hpre].
    unfold replacements. repeat constructor.
Qed.

End PromptMoreProperties.

Lemma build_prompt_present_values_witness :
  Inventory.AIService._build_prompt
    (service_with_template "Host: {hostname}, seen by {source}.")
    srv1_prod = "Host: srv1, seen by n8n.".
Proof.
  rewrite (proj1 (build_prompt_present_values
                    (service_with_template
                       "Host: {hostname}, seen by {source}.")
                    srv1_prod "Host: " ", seen by {source}." eq_refl)
             "hostname" Inventory.EquipmentData.hostname "srv1");
    [ vm_compute; reflexivity
    | unfold Inventory.AIService.optional_fields; simpl; tauto
    | reflexivity | discriminate | reflexivity | reflexivity ].
Defined.

Section SecurityProperties.

Import Security.

Variable jwt_decode : string -> option (list (string * json)).

Lemma get_current_user_inr (token : string) (user : User) :
  get_current_user jwt_decode token = inr user ->
  exists payload name uid,
    jwt_decode token = Some payload /\
    dict_get payload "sub" JNull = JStr name /\
    Inventory.AIService.validate_opt_str (dict_get payload "user_id" JNull) =
      Some uid /\
    user = mkUser (str_or uid "1") (str_or (Some name) "admin")
             "admin@siem.local" "admin" true.
Proof.
  unfold get_current_user.
  destruct (jwt_decode token) as [payload|]; [|discriminate].
  unfold TokenData_new.
  destruct (dict_get payload "sub" JNull) as [|b|z|f|name|l|kv] eqn:Hsub;
    try discriminate;
    cbn [Inventory.AIService.validate_opt_str];
    try (destruct (Inventory.AIService.validate_opt_str _); discriminate).
  destruct (Inventory.AIService.validate_opt_str
              (dict_get payload "user_id" JNull)) as [uid|] eqn:Huid;
    [|discriminate].
  intros [= <-]. now exists payload, name, uid.
Qed.

(** X16. Every caller that is identified is the administrator: the user
    built from a token has the role admin and is active, whatever the
    token claims, with the name of the subject (admin when empty) and the
    user id of the token (1 when absent or empty).  So the check of the
    active flag never refuses, and a role requirement passes exactly when
    it allows admin: with admin allowed it holds for every identified
    caller, without it for none. *)
Theorem every_caller_is_admin (token : string) (allowed_roles : list string) :
  (forall user,
     get_current_user jwt_decode token = inr user ->
     role user = "admin" /\ is_active user = true /\
     email user = "admin@siem.local" /\
     get_current_active_user user = inr user) /\
  (forall user,
     role_checked jwt_decode allowed_roles token = inr user <->
     get_current_user jwt_decode token = inr user /\
     In "admin" allowed_roles) /\
  (forall user,
     get_current_user jwt_decode token = inr user ->
     ~ In "admin" allowed_roles ->
     role_checked jwt_decode allowed_roles token =
     inl (Http 403 "Operation not permitted")) /\
  (jwt_decode token = None ->
   role_checked jwt_decode allowed_roles token =
   inl (Http 401 "Could not validate credentials")) /\
  (forall payload name uid,
     jwt_decode token = Some payload ->
     assoc "sub" payload = Some (JStr name) ->
     Inventory.AIService.validate_opt_str (dict_get payload "user_id" JNull) =
       Some uid ->
     get_current_user jwt_decode token =
     inr (mkUser (str_or uid "1") (str_or (Some name) "admin")
            "admin@siem.local" "admin" true)).
Proof.
  split; [|split; [|split; [|split]]].
  - intros user H.
    apply get_current_user_inr in H as (payload & name & uid & _ & _ & _ & ->).
    repeat split.
  - intros user. unfold role_checked.
    destruct (get_current_user jwt_decode token) as [e|u] eqn:Hu.
    + split; [discriminate | intros [H _]; discriminate H].
    + apply get_current_user_inr in Hu
        as (payload & name & uid & _ & _ & _ & ->).
      unfold get_current_active_user, require_role. cbn [is_active role negb].
      destruct (str_in "admin" allowed_roles) eqn:Hin; cbn [negb].
      * apply str_in_In in Hin. split; [intros [= <-] | intros [[= <-] _]];
          [split; [reflexivity | exact Hin] | reflexivity].
      * split; [discriminate|]. intros [_ Hadm].
        apply str_in_In in Hadm. congruence.
  - intros user Hu Hno. unfold role_checked. rewrite Hu.
    apply get_current_user_inr in Hu
      as (payload & name & uid & _ & _ & _ & ->).
    unfold get_current_active_user, require_role. cbn [is_active role negb].
    destruct (str_in "admin" allowed_roles) eqn:Hin; [|reflexivity].
    apply str_in_In in Hin. contradiction.
  - intros Hd. unfold role_checked, get_current_user. now rewrite Hd.
  - intros payload name uid Hd Hsub Huid. unfold get_current_user.
    rewrite Hd. unfold dict_get at 1. rewrite Hsub.
    unfold TokenData_new. cbn [Inventory.AIService.validate_opt_str].
    now rewrite Huid.
Qed.

End SecurityProperties.

Section TokenProperties.

Import Security.
Import SecurityTokens.

Variable jwt_encode : list (string * json) -> string.
Variable jwt_decode : string -> option (list (string * json)).
Variable access_token_expire_minutes : Z.
Variable utcnow : Z.

Abbreviation the_to_encode :=
  (to_encode access_token_expire_minutes utcnow).
Abbreviation the_create_access_token :=
  (create_access_token jwt_encode access_token_expire_minutes utcnow).

Lemma assoc_dict_update_eq (d : list (string * json)) (key : string)
    (v : json) :
  assoc key (dict_update d key v) = Some v.
Proof.
  induction d as [|[k w] d IH]; simpl.
  - now rewrite String.eqb_refl.
  - destruct (String.eqb_spec k key) as [->|Hne]; simpl.
    + now rewrite String.eqb_refl.
    + destruct (String.eqb_spec key k); [congruence | exact IH].
Qed.

Lemma assoc_dict_update_ne (d : list (string * json)) (key k : string)
    (v : json) :
  k <> key -> assoc k (dict_update d key v) = assoc k d.
Proof.
  intros Hk. induction d as [|[k' w] d IH]; simpl.
  - destruct (String.eqb_spec k key); [congruence | reflexivity].
  - destruct (String.eqb_spec k' key) as [->|Hne]; simpl.
    + destruct (String.eqb_spec k key); [congruence | reflexivity].
    + destruct (String.eqb_spec k k'); [reflexivity | exact IH].
Qed.

(** X21. A token made by [create_access_token] carries the claims it was
    given, with [exp] set (or overwritten) to the whole seconds of the
    expiry: the given delta after the issue, or the configured number of
    minutes when no delta or a zero delta is given.  When decoding gives
    back the claims of the token, and they name a subject, the holder is
    identified as that subject, with the user id of the claims (1 when
    absent or empty), and with the role admin. *)
Theorem access_token_round_trip
    (data : list (string * json)) (expires_delta : option Z)
    (name : string) (uid : option string)
    (Hcodec :
       jwt_decode (jwt_encode (the_to_encode data expires_delta)) =
       Some (the_to_encode data expires_delta))
    (Hsub : assoc "sub" data = Some (JStr name))
    (Huid :
       Inventory.AIService.validate_opt_str (dict_get data "user_id" JNull) =
       Some uid) :
  get_current_user jwt_decode (the_create_access_token data expires_delta) =
    inr (mkUser (str_or uid "1") (str_or (Some name) "admin")
           "admin@siem.local" "admin" true) /\
  (forall key, key <> "exp" ->
     assoc key (the_to_encode data expires_delta) = assoc key data) /\
  assoc "exp" (the_to_encode data expires_delta) =
    Some (JInt (match expires_delta with
                | Some delta =>
                  if delta =? 0
                  then utcnow + access_token_expire_minutes * 60 * 1000000
                  else utcnow + delta
                | None => utcnow + access_token_expire_minutes * 60 * 1000000
                end / 1000000)) /\
  the_create_access_token data (Some 0) = the_create_access_token data None.
Proof.
  split; [|split; [|split]].
  - unfold create_access_token, get_current_user. rewrite Hcodec.
    unfold dict_get, to_encode.
    rewrite !assoc_dict_update_ne by discriminate. rewrite Hsub.
    unfold dict_get in Huid. unfold TokenData_new.
    cbn [Inventory.AIService.validate_opt_str]. now rewrite Huid.
  - intros key Hkey. unfold to_encode. now apply assoc_dict_update_ne.
  - unfold to_encode. rewrite assoc_dict_update_eq.
    unfold exp_claim, expiry, minutes. now destruct expires_delta.
  - reflexivity.
Qed.

End TokenProperties.

(** A codec that knows one token: the one made at time 0, with the default
    30 minutes, for the subject admin with the user id 1. *)
Definition toy_claims : list (string * json) :=
  SecurityTokens.to_encode 30 0 [("sub", JStr "admin"); ("user_id", JStr "1")]
    None.

Definition toy_encode (claims : list (string * json)) : string := "token".

Definition toy_decode (token : string) : option (list (string * json)) :=
  if String.eqb token "token" then Some toy_claims else None.

Lemma access_token_round_trip_witness :
  Security.get_current_user toy_decode
    (SecurityTokens.create_access_token toy_encode 30 0
       [("sub", JStr "admin"); ("user_id", JStr "1")] None) =
  inr (Security.mkUser "1" "admin" "admin@siem.local" "admin" true).
Proof.
  exact (proj1 (access_token_round_trip toy_encode toy_decode 30 0
                  [("sub", JStr "admin"); ("user_id", JStr "1")] None
                  "admin" (Some "1") eq_refl eq_refl eq_refl)).
Defined.

Section EndpointProperties.

Import Inventory.
Import InventoryApi.

Variable post :
  string -> json -> list (string * option string) -> Z ->
  exc AIService.Response.
Variable json_loads : string -> option json.
Variable float_of_str : string -> option float.
Variable int_of_str : string -> option Z.
Variable str_of_exn : exn -> string.
Variable str_lower : string -> string.

Abbreviation the_endpoint :=
  (receive_from_n8n post json_loads float_of_str int_of_str str_of_exn
     str_lower).





End EndpointProperties.

Section I18nProperties.

Import I18n.

Lemma supported_Some (lang : option string) (l : string) :
  supported lang = Some l <-> lang = Some l /\ In l SUPPORTED_LANGUAGES.
Proof.
  unfold supported. destruct lang as [[|c s]|].
  - split; [discriminate | intros [[= <-] H]].
    simpl in H. repeat (destruct H as [H|H]; [discriminate H|]). contradiction.
  - destruct (str_in (String c s) SUPPORTED_LANGUAGES) eqn:Hin.
    + apply str_in_In in Hin. split.
      * intros [= <-]. now split.
      * now intros [[= <-] _].
    + split; [discriminate|]. intros [[= <-] H].
      apply str_in_In in H. congruence.
  - split; [discriminate | intros [H _]; discriminate H].
Qed.

Lemma from_header_Some (header : option string) (l : string) :
  from_header header = Some l -> In l SUPPORTED_LANGUAGES.
Proof.
  unfold from_header. destruct (default EmptyString header); [discriminate|].
  intros H. now apply find_some in H.
Qed.

(** X18. The language of a request is always one of en, pt, es.  A
    supported query parameter decides it.  Otherwise a header that holds
    the letters en, in any case, gives en whatever else it lists; and
    without a header the cookie decides when it is supported, the default
    en otherwise. *)
Theorem get_language_supported (request : Request) :
  In (get_language request) SUPPORTED_LANGUAGES /\
  (forall lang,
     query_lang request = Some lang -> In lang SUPPORTED_LANGUAGES ->
     get_language request = lang) /\
  (forall header,
     supported (query_lang request) = None ->
     accept_language request = Some header ->
     str_contains "en" (py_lower header) = true ->
     get_language request = "en") /\
  (supported (query_lang request) = None ->
   from_header (accept_language request) = None ->
   (forall lang,
      cookie_lang request = Some lang -> In lang SUPPORTED_LANGUAGES ->
      get_language request = lang) /\
   (supported (cookie_lang request) = None ->
    get_language request = "en")) /\
  from_header (Some "pt-BR,pt;q=0.9,en;q=0.1") = Some "en" /\
  from_header (Some "PT-br") = Some "pt" /\
  from_header (Some "fr-FR") = None.
Proof.
  split; [|split; [|split; [|split]]].
  - unfold get_language.
    destruct (supported (query_lang request)) as [l|] eqn:Hq;
      [now apply supported_Some in Hq|].
    destruct (from_header (accept_language request)) as [l|] eqn:Hh;
      [now apply from_header_Some in Hh|].
    destruct (supported (cookie_lang request)) as [l|] eqn:Hc;
      [now apply supported_Some in Hc|].
    simpl. tauto.
  - intros lang Hq Hin. unfold get_language.
    now rewrite (proj2 (supported_Some _ _) (conj Hq Hin)).
  - intros header Hq Hh Hen. unfold get_language. rewrite Hq, Hh.
    unfold from_header. cbn [default from_option id].
    destruct header as [|c s]; [discriminate Hen|].
    cbn [List.find SUPPORTED_LANGUAGES]. now rewrite Hen.
  - intros Hq Hh. unfold get_language. rewrite Hq, Hh. split.
    + intros lang Hc Hin.
      now rewrite (proj2 (supported_Some _ _) (conj Hc Hin)).
    + now intros ->.
  - repeat split.
Qed.

Lemma dict_lookup_absent {A : Type} (key : string) (d : list (string * A)) :
  ~ In key (map fst d) -> dict_lookup key d = None.
Proof.
  induction d as [|[k v] d IH]; [reflexivity|]. simpl. intros H.
  destruct (String.eqb_spec key k) as [->|_]; [exfalso; apply H; now left|].
  apply IH. intros Hin. apply H. now right.
Qed.

(** The table [get_message] reads for a language. *)
Lemma table_of_language (lang : string) :
  default (default [] (dict_lookup DEFAULT_LANGUAGE MESSAGES))
    (dict_lookup lang MESSAGES) =
  if String.eqb lang "pt" then MESSAGES_pt
  else if String.eqb lang "es" then MESSAGES_es
  else MESSAGES_en.
Proof.
  unfold MESSAGES. cbn [dict_lookup].
  destruct (String.eqb_spec lang "en") as [->|_]; [reflexivity|].
  destruct (String.eqb lang "pt"); [reflexivity|].
  destruct (String.eqb lang "es"); reflexivity.
Qed.

Lemma dict_lookup_present {A : Type} (key : string) (d : list (string * A)) :
  In key (map fst d) -> exists v, dict_lookup key d = Some v /\ In (key, v) d.
Proof.
  induction d as [|[k v] d IH]; [contradiction|]. simpl. intros H.
  destruct (String.eqb_spec key k) as [->|Hne].
  - exists v. split; [reflexivity | now left].
  - destruct H as [H|H]; [congruence|].
    destruct (IH H) as (w & Hw & Hin). exists w. split; [exact Hw | now right].
Qed.

(** No entry of a table maps a key to itself. *)
Definition no_fixed_key (d : list (string * string)) : bool :=
  forallb (fun '(k, v) => negb (String.eqb k v)) d.

Lemma no_fixed_key_In (d : list (string * string)) (k v : string) :
  no_fixed_key d = true -> In (k, v) d -> v <> k.
Proof.
  unfold no_fixed_key. rewrite forallb_forall. intros H Hin ->.
  specialize (H _ Hin). simpl in H. now rewrite String.eqb_refl in H.
Qed.

(** X19. The three message tables define the same keys.  A key of the
    tables is translated, in each of en, pt and es, to the text of that
    table, which is never the key itself; in any other language the
    English text is given; and a key outside the tables comes back as it
    is, in every language. *)
Theorem get_message_fallbacks (key lang : string) :
  map fst MESSAGES_pt = map fst MESSAGES_en /\
  map fst MESSAGES_es = map fst MESSAGES_en /\
  (~ In lang SUPPORTED_LANGUAGES ->
   get_message key lang = get_message key "en") /\
  (~ In key (map fst MESSAGES_en) -> get_message key lang = key) /\
  (In key (map fst MESSAGES_en) ->
   exists text,
     get_message key lang = text /\ text <> key /\
     In (key, text)
        (if String.eqb lang "pt" then MESSAGES_pt
         else if String.eqb lang "es" then MESSAGES_es
         else MESSAGES_en)).
Proof.
  assert (Hpt : map fst MESSAGES_pt = map fst MESSAGES_en)
    by (vm_compute; reflexivity).
  assert (Hes : map fst MESSAGES_es = map fst MESSAGES_en)
    by (vm_compute; reflexivity).
  split; [exact Hpt|]. split; [exact Hes|].
  unfold get_message. rewrite !table_of_language.
  split; [|split].
  - intros Hno. cbn [In SUPPORTED_LANGUAGES] in Hno.
    destruct (String.eqb_spec lang "pt") as [->|_];
      [exfalso; apply Hno; right; left; reflexivity|].
    destruct (String.eqb_spec lang "es") as [->|_];
      [exfalso; apply Hno; right; right; left; reflexivity|].
    reflexivity.
  - intros Hkey.
    assert (Hnone : dict_lookup key
              (if String.eqb lang "pt" then MESSAGES_pt
               else if String.eqb lang "es" then MESSAGES_es
               else MESSAGES_en) = None).
    { apply dict_lookup_absent.
      destruct (String.eqb lang "pt"); [now rewrite Hpt|].
      destruct (String.eqb lang "es"); [now rewrite Hes | exact Hkey]. }
    now rewrite Hnone.
  - intros Hkey.
    assert (Hin : In key
              (map fst (if String.eqb lang "pt" then MESSAGES_pt
                        else if String.eqb lang "es" then MESSAGES_es
                        else MESSAGES_en))).
    { destruct (String.eqb lang "pt"); [now rewrite Hpt|].
      destruct (String.eqb lang "es"); [now rewrite Hes | exact Hkey]. }
    destruct (dict_lookup_present _ _ Hin) as (text & Hlook & Htext).
    exists text. rewrite Hlook. split; [reflexivity|]. split; [|exact Htext].
    assert (Hpt' : no_fixed_key MESSAGES_pt = true) by (vm_compute; reflexivity).
    assert (Hes' : no_fixed_key MESSAGES_es = true) by (vm_compute; reflexivity).
    assert (Hen' : no_fixed_key MESSAGES_en = true) by (vm_compute; reflexivity).
    destruct (String.eqb lang "pt");
      [exact (no_fixed_key_In MESSAGES_pt key text Hpt' Htext)|].
    destruct (String.eqb lang "es");
      [exact (no_fixed_key_In MESSAGES_es key text Hes' Htext)|].
    exact (no_fixed_key_In MESSAGES_en key text Hen' Htext).
Qed.

End I18nProperties.
